(** * Prompt evaluation pipeline: a shallow embedding and its properties

    The development follows the three scripts of the repository:
    [src/evaluate.py] (dataset loader, example runner, aggregator, verdict
    and command-line driver), [src/push_prompts.py] (prompt validation and
    construction of the published template) and [src/pull_prompts.py]
    (serialisation of a pulled prompt).

    Modelling conventions.
    - Python values that travel through the scripts (parsed JSON and YAML,
      example inputs and outputs, model answers) are terms of [pyval];
      a [dict] is an association list in insertion order.
    - A Python [str] is a [string] that holds its UTF-8 encoding; the
      whitespace of [str.strip] is the one of [str.isspace]: tab, line
      feed, vertical tab, form feed, carriage return, the four
      separators 0x1c-0x1f, space, and the spaces U+0085, U+00A0,
      U+1680, U+2000 to U+200A, U+2028, U+2029, U+202F, U+205F and
      U+3000.  [len], [s[:n]] and iteration count code points.
      [str.lower] is embedded on the ASCII letters, which is what it
      does on an ASCII text; a property that needs more of it than the
      lowering of the letters A to Z is stated for ASCII texts.
    - A Python [float] is its exact value, a rational of [Q], and the
      arithmetic on floats is the one of binary64: an addition, a
      division and [round] give the binary64 number nearest to the exact
      result, ties to the even mantissa.  [sum] adds from left to right,
      as CPython does up to version 3.11.  Infinities and NaN are not
      modelled.
    - Exceptions are values of [exn]; a computation that may raise has a
      type [result A]; a computation that also talks to the outside
      world (registry, dataset store, language model, file system) and
      prints has type [IO ext A], a function from the state [ext] of the
      outside world to a trace, a result and a new state.
    - The trace holds the lines printed, in order, and one ghost event
      for each entry into the Example Runner.
    - What the scripts import and the sources do not contain ([utils],
      [metrics], langchain, langsmith, the file system, [json]) is a
      field of [Evaluate.World] or of [Langchain.Library].
    - [main] is embedded from the return of [parser.parse_args()] on;
      the exits of [argparse] itself are not part of it. *)

From Stdlib Require Import String Ascii List ZArith QArith Qround Qabs Qpower Lqa Bool Lia.
From stdpp Require Import gmap strings list pretty.

#[local] Open Scope string_scope.
#[local] Open Scope list_scope.

(** ** The Python runtime, as far as the scripts use it *)

Module Python.

(** Exception classes the scripts distinguish in their [except] clauses,
    and the ones the built-in operations used below raise.  All of them
    derive from [Exception]. *)
Inductive exn_class : Set :=
| FileNotFoundError
| JSONDecodeError
| AttributeError
| TypeError
| KeyError
| OtherError.

(** An exception: its class and the text [str(e)] gives. *)
Record exn : Set := Exn { exn_cls : exn_class; exn_str : string }.

Inductive result (A : Type) : Type :=
| Raise (e : exn)
| Ok (a : A).
Arguments Raise {A} e.
Arguments Ok {A} a.

#[export] Instance result_ret : MRet result := fun A a => Ok a.
#[export] Instance result_bind : MBind result :=
  fun A B f m => match m with Raise e => Raise e | Ok a => f a end.

(** Values. *)
#[local] Set Warnings "-register-all".
Inductive pyval : Type :=
| PyNone
| PyBool (b : bool)
| PyInt (n : Z)
| PyFloat (q : Q)
| PyStr (s : string)
| PyList (l : list pyval)
| PyDict (d : list (string * pyval)).
#[local] Set Warnings "register-all".

(** [d.get(k)] on the association list of a dict. *)
Fixpoint dict_lookup {V : Type} (d : list (string * V)) (k : string) : option V :=
  match d with
  | [] => None
  | (k', v) :: d' => if String.eqb k' k then Some v else dict_lookup d' k
  end.

(** [d.get(k, dflt)]. *)
Definition dict_get (d : list (string * pyval)) (k : string) (dflt : pyval) : pyval :=
  match dict_lookup d k with Some v => v | None => dflt end.

(** [bool(v)]: the truth value tested by [if v] and [not v]. *)
Definition truthy (v : pyval) : bool :=
  match v with
  | PyNone => false
  | PyBool b => b
  | PyInt n => negb (n =? 0)%Z
  | PyFloat q => negb (Qeq_bool q 0)
  | PyStr s => negb (String.eqb s "")
  | PyList l => match l with [] => false | _ => true end
  | PyDict d => match d with [] => false | _ => true end
  end.

(** [v == s] for a string literal [s]. *)
Definition py_eq_str (v : pyval) (s : string) : bool :=
  match v with PyStr t => String.eqb t s | _ => false end.

Definition type_name (v : pyval) : string :=
  match v with
  | PyNone => "NoneType"
  | PyBool _ => "bool"
  | PyInt _ => "int"
  | PyFloat _ => "float"
  | PyStr _ => "str"
  | PyList _ => "list"
  | PyDict _ => "dict"
  end.

Definition no_attribute (v : pyval) (attr : string) : exn :=
  Exn AttributeError
      ("'" +:+ type_name v +:+ "' object has no attribute '" +:+ attr +:+ "'").

Definition not_iterable (v : pyval) : exn :=
  Exn TypeError ("'" +:+ type_name v +:+ "' object is not iterable").

(** A byte that continues the UTF-8 encoding of a character. *)
Definition is_continuation (c : ascii) : bool :=
  let n := nat_of_ascii c in (128 <=? n)%nat && (n <=? 191)%nat.

(** The characters of a string, each as a one-character string: a
    character is a byte that starts an encoding, with the bytes that
    continue it. *)
Fixpoint chars (s : string) : list string :=
  match s with
  | EmptyString => []
  | String c s' =>
      let continued :=
        match s' with
        | String c' _ => is_continuation c'
        | EmptyString => false
        end in
      match chars s' with
      | first :: rest =>
          if continued then String c first :: rest
          else String c EmptyString :: first :: rest
      | [] => [String c EmptyString]
      end
  end.

(** [iter(v)], run to the end: the elements of a list, the characters
    of a string, the keys of a dict; other values are not iterable. *)
Definition py_iter (v : pyval) : result (list pyval) :=
  match v with
  | PyList l => Ok l
  | PyStr s => Ok (map PyStr (chars s))
  | PyDict d => Ok (map (fun kv => PyStr (fst kv)) d)
  | _ => Raise (not_iterable v)
  end.

(** [v.get(k, dflt)]: only a dict has the method. *)
Definition py_get (v : pyval) (k : string) (dflt : pyval) : result pyval :=
  match v with
  | PyDict d => Ok (dict_get d k dflt)
  | _ => Raise (no_attribute v "get")
  end.

(** Whitespace removed by [str.strip()], the characters for which
    [str.isspace()] holds, in their UTF-8 encoding.  In one byte: tab,
    line feed, vertical tab, form feed, carriage return, the four
    separators 0x1c-0x1f and space. *)
Definition is_space (c : ascii) : bool :=
  let n := nat_of_ascii c in
  ((9 <=? n)%nat && (n <=? 13)%nat) || ((28 <=? n)%nat && (n <=? 32)%nat).

(** In two bytes: U+0085 and U+00A0. *)
Definition is_space2 (c1 c2 : ascii) : bool :=
  let n1 := nat_of_ascii c1 in
  let n2 := nat_of_ascii c2 in
  (n1 =? 194)%nat && ((n2 =? 133)%nat || (n2 =? 160)%nat).

(** In three bytes: U+1680, U+2000 to U+200A, U+2028, U+2029, U+202F,
    U+205F and U+3000. *)
Definition is_space3 (c1 c2 c3 : ascii) : bool :=
  let n1 := nat_of_ascii c1 in
  let n2 := nat_of_ascii c2 in
  let n3 := nat_of_ascii c3 in
  ((n1 =? 225)%nat && (n2 =? 154)%nat && (n3 =? 128)%nat)
  || ((n1 =? 226)%nat && (n2 =? 128)%nat
      && (((128 <=? n3)%nat && (n3 <=? 138)%nat)
          || (n3 =? 168)%nat || (n3 =? 169)%nat || (n3 =? 175)%nat))
  || ((n1 =? 226)%nat && (n2 =? 129)%nat && (n3 =? 159)%nat)
  || ((n1 =? 227)%nat && (n2 =? 128)%nat && (n3 =? 128)%nat).

Fixpoint lstrip (s : string) : string :=
  match s with
  | EmptyString => EmptyString
  | String c1 s1 =>
      if is_space c1 then lstrip s1
      else
        match s1 with
        | EmptyString => s
        | String c2 s2 =>
            if is_space2 c1 c2 then lstrip s2
            else
              match s2 with
              | EmptyString => s
              | String c3 s3 => if is_space3 c1 c2 c3 then lstrip s3 else s
              end
        end
  end.

(** A string made of whitespace only (the empty string included). *)
Fixpoint is_blank (s : string) : bool :=
  match s with
  | EmptyString => true
  | String c1 s1 =>
      if is_space c1 then is_blank s1
      else
        match s1 with
        | EmptyString => false
        | String c2 s2 =>
            if is_space2 c1 c2 then is_blank s2
            else
              match s2 with
              | EmptyString => false
              | String c3 s3 => if is_space3 c1 c2 c3 then is_blank s3 else false
              end
        end
  end.

(** The whitespace at the end goes: a string of whitespace only
    becomes empty, any other string keeps its first byte. *)
Fixpoint rstrip (s : string) : string :=
  match s with
  | EmptyString => EmptyString
  | String c s' => if is_blank s then EmptyString else String c (rstrip s')
  end.

Definition strip (s : string) : string := rstrip (lstrip s).

(** [v.strip()]: only a string has the method. *)
Definition py_strip (v : pyval) : result pyval :=
  match v with
  | PyStr s => Ok (PyStr (strip s))
  | _ => Raise (no_attribute v "strip")
  end.

(** [v[k]] for a string key [k]. *)
Definition py_getitem (v : pyval) (k : string) : result pyval :=
  match v with
  | PyDict d =>
      match dict_lookup d k with
      | Some x => Ok x
      | None => Raise (Exn KeyError ("'" +:+ k +:+ "'"))
      end
  | PyList _ => Raise (Exn TypeError "list indices must be integers or slices, not str")
  | PyStr _ => Raise (Exn TypeError "string indices must be integers, not 'str'")
  | _ => Raise (Exn TypeError ("'" +:+ type_name v +:+ "' object is not subscriptable"))
  end.

(** [str.lower()] on the ASCII letters; the other bytes stay. *)
Definition lower_ascii (c : ascii) : ascii :=
  let n := nat_of_ascii c in
  if (65 <=? n)%nat && (n <=? 90)%nat then ascii_of_nat (n + 32) else c.

Fixpoint lower (s : string) : string :=
  match s with
  | EmptyString => EmptyString
  | String c s' => String (lower_ascii c) (lower s')
  end.

(** [needle in hay] on strings. *)
Fixpoint contains (needle hay : string) : bool :=
  String.prefix needle hay ||
  match hay with
  | EmptyString => false
  | String _ hay' => contains needle hay'
  end.

(** [s.replace(old, "")] for a non-empty [old]: every occurrence of
    [old], found from left to right without overlap, is removed. *)
Fixpoint remove_from (old s : string) (skip : nat) : string :=
  match s with
  | EmptyString => EmptyString
  | String c s' =>
      match skip with
      | S k => remove_from old s' k
      | O =>
          if String.prefix old s then remove_from old s' (String.length old - 1)
          else String c (remove_from old s' 0)
      end
  end.

Definition remove_all (old s : string) : string := remove_from old s 0.

(** [s.split(sep)] for a one-character [sep]; [current] is the piece
    being read. *)
Fixpoint split_from (sep : ascii) (s current : string) : list string :=
  match s with
  | EmptyString => [current]
  | String c s' =>
      if Ascii.eqb c sep then current :: split_from sep s' EmptyString
      else split_from sep s' (current +:+ String c EmptyString)
  end.

Definition split (sep : ascii) (s : string) : list string :=
  split_from sep s EmptyString.

(** [unit * n]. *)
Fixpoint repeat_str (unit : string) (n : nat) : string :=
  match n with
  | O => EmptyString
  | S n' => unit +:+ repeat_str unit n'
  end.

(** The line feed character, as a string. *)
Definition nl : string := String (ascii_of_nat 10) EmptyString.

(** [str(v)] for the result of [os.getenv]. *)
Definition str_of_getenv (v : option string) : string :=
  match v with Some s => s | None => "None" end.

(** Rounding to the nearest integer, ties to the even one. *)
Definition round_half_even (q : Q) : Z :=
  let f := Qfloor q in
  match Qcompare (q - inject_Z f) (1 # 2) with
  | Lt => f
  | Gt => (f + 1)%Z
  | Eq => if Z.even f then f else (f + 1)%Z
  end.

(** *** Binary64 arithmetic

    A [float] is its exact value, a rational; an operation on floats
    gives the binary64 number nearest to its exact result, ties to the
    even mantissa.  Infinities and NaN are not values of the model: the
    operations follow Python as long as no result reaches
    [2 ** 1024]. *)

(** [2 ** e] for any integer [e]. *)
Definition pow2 (e : Z) : Q := (2 ^ e)%Q.

(** The integer part of the binary logarithm of [|q|], for a [q] other
    than 0. *)
Definition ilog2 (q : Q) : Z :=
  let d := (Z.log2 (Z.abs (Qnum q)) - Z.log2 (Zpos (Qden q)))%Z in
  if Qle_bool (pow2 d) (Qabs q) then d else (d - 1)%Z.

(** The exponent of the last place of the binary64 numbers around [q]:
    52 places under the leading bit, and never under [2 ** -1074]. *)
Definition ulp_exponent (q : Q) : Z := Z.max (ilog2 q - 52) (-1074).

(** The binary64 number nearest to [q], ties to the even mantissa. *)
Definition round64 (q : Q) : Q :=
  let e := ulp_exponent q in
  Qred (inject_Z (round_half_even (q / pow2 e)) * pow2 e).

(** [x + y] and [x / y] on floats. *)
Definition float_add (x y : Q) : Q := round64 (x + y).

Definition float_div (x y : Q) : Q := round64 (x / y).

(** [sum(xs)] on a list of floats: the additions run from left to
    right, starting from 0, each one rounded (CPython up to 3.11; from
    3.12 on [sum] also carries the rounding errors along and adds them
    at the end). *)
Definition py_sum (xs : list Q) : Q := fold_left float_add xs 0%Q.

(** [sum(xs) / len(xs)]: the length becomes a float, then the
    division. *)
Definition average (xs : list Q) : Q :=
  float_div (py_sum xs) (round64 (inject_Z (Z.of_nat (length xs)))).

(** [round(q, 4)] on a float: the exact value of [q] is rounded to 4
    decimal places, ties to the even digit, and the result is the
    binary64 number nearest to that decimal. *)
Definition round4 (q : Q) : Q :=
  round64 (inject_Z (round_half_even (q * 10000)) / 10000).

(** [s[:stop]] on a list, for any integer [stop]: a negative [stop]
    counts from the end. *)
Definition slice_to {A : Type} (l : list A) (stop : Z) : list A :=
  if (0 <=? stop)%Z then take (Z.to_nat stop) l
  else take (length l - Z.to_nat (- stop)) l.

End Python.
Import Python.

(** ** Effects: the outside world, the trace, exceptions *)

Module Effects.

(** One labelled data point as the dataset store hands it out.  The
    runner probes it with [hasattr]: [None] stands for a missing
    attribute. *)
Record Example : Type := {
  ex_inputs : option pyval;
  ex_outputs : option pyval
}.

(** What a run leaves behind: the lines written to standard output and,
    as a ghost record, every entry into the Example Runner. *)
Inductive event : Type :=
| Printed (line : string)
| RunnerEntered (example : Example).

Record outcome (S A : Type) : Type := Outcome {
  trace : list event;
  value : result A;
  after : S
}.
Arguments Outcome {S A} trace value after.
Arguments trace {S A} o.
Arguments value {S A} o.
Arguments after {S A} o.

(** A computation over a world state [S]: it may change the state of
    the external services, extends the trace, and returns or raises. *)
Record IO (S A : Type) : Type := MkIO { run : S -> outcome S A }.
Arguments MkIO {S A} run.
Arguments run {S A} _ _.

Definition io_ret {S A} (a : A) : IO S A := MkIO (fun s => Outcome [] (Ok a) s).

Definition io_bind {S A B} (f : A -> IO S B) (m : IO S A) : IO S B :=
  MkIO (fun s =>
    let o := run m s in
    match value o with
    | Raise e => Outcome (trace o) (Raise e) (after o)
    | Ok a =>
        let o' := run (f a) (after o) in
        Outcome (trace o ++ trace o') (value o') (after o')
    end).

#[export] Instance IO_ret {S} : MRet (IO S) := fun A => io_ret.
#[export] Instance IO_bind {S} : MBind (IO S) := fun A B => io_bind.

(** [print(line)]. *)
Definition print {S} (line : string) : IO S unit :=
  MkIO (fun s => Outcome [Printed line] (Ok tt) s).

(** Ghost: the Example Runner is entered on [example]. *)
Definition enter_runner {S} (example : Example) : IO S unit :=
  MkIO (fun s => Outcome [RunnerEntered example] (Ok tt) s).

(** [raise e]. *)
Definition raise {S A} (e : exn) : IO S A :=
  MkIO (fun s => Outcome [] (Raise e) s).

(** A pure computation that may raise, run inside [IO]. *)
Definition lift {S A} (r : result A) : IO S A :=
  MkIO (fun s => Outcome [] r s).

(** A call into a collaborator: it may change the external state,
    print lines, and return or raise. *)
Definition external {S A} (f : S -> list string * result A * S) : IO S A :=
  MkIO (fun s => let '(out, r, s') := f s in Outcome (map Printed out) r s').

(** A call that always returns and may change the external state. *)
Definition total {S A} (f : S -> A * S) : IO S A :=
  MkIO (fun s => let '(a, s') := f s in Outcome [] (Ok a) s').

(** [try: body  except Exception as e: handler(e)]. *)
Definition try_except {S A} (body : IO S A) (handler : exn -> IO S A) : IO S A :=
  MkIO (fun s =>
    let o := run body s in
    match value o with
    | Ok a => o
    | Raise e =>
        let o' := run (handler e) (after o) in
        Outcome (trace o ++ trace o') (value o') (after o')
    end).

(** The lines of standard output, in order. *)
Fixpoint stdout (t : list event) : list string :=
  match t with
  | [] => []
  | Printed line :: t' => line :: stdout t'
  | RunnerEntered _ :: t' => stdout t'
  end.

(** The examples the Example Runner was run on, in order. *)
Fixpoint runner_calls (t : list event) : list Example :=
  match t with
  | [] => []
  | Printed _ :: t' => runner_calls t'
  | RunnerEntered example :: t' => example :: runner_calls t'
  end.

End Effects.
Import Effects.

Notation "m ;; k" := (mbind (fun _ : unit => k) m)
  (at level 100, k at level 200, right associativity, only parsing).

(** Unfolds the effect layer on the computation at hand. *)
Ltac io_step :=
  cbn [mbind mret IO_bind IO_ret io_bind io_ret run print lift external total
       try_except raise enter_runner trace value after].

Ltac io_step_in H :=
  cbn [mbind mret IO_bind IO_ret io_bind io_ret run print lift external total
       try_except raise enter_runner trace value after] in H.

(** ** src/evaluate.py *)

Module Evaluate.

(** The result of one metric evaluator; the aggregator reads [score]. *)
Record MetricScore : Type := { score : Q }.

(** What the Example Runner returns for one example. *)
Record EvaluationResult : Type := {
  answer : pyval;
  reference : pyval;
  question : pyval
}.

(** The four running score lists of the aggregator. *)
Record ScoreLists : Type := {
  tone_scores : list Q;
  acceptance_criteria_scores : list Q;
  format_scores : list Q;
  completeness_scores : list Q
}.

(** The dict [evaluate_prompt] returns, keys in insertion order. *)
Record AggregateScores : Type := {
  tone : Q;
  acceptance_criteria : Q;
  format : Q;
  completeness : Q
}.

(** A dataset of the dataset store. *)
Record Dataset : Type := { ds_name : string; ds_id : string }.

(** The parsed command line. *)
Record Args : Type := { arg_prompt : string; arg_max_examples : Z }.

(** The collaborators of the script: modules of the repository that the
    script imports ([utils], [metrics]), the registry, dataset store and
    model clients, and the built-ins whose result depends on the
    machine.  [ext] is the state of everything outside the process. *)
Class World : Type := {
  ext : Type;
  Client : Type;
  ChatPromptTemplate : Type;
  LLM : Type;
  Chain : Type;
  Response : Type;
  (* utils; the process environment is passed to the credential check *)
  check_env_vars : gmap string string -> list string -> ext -> list string * result bool * ext;
  get_configured_llm : Q -> ext -> list string * result LLM * ext;
  (* metrics: an evaluator returns its score; it may consult a judge *)
  evaluate_tone_score : pyval -> pyval -> pyval -> ext -> MetricScore * ext;
  evaluate_acceptance_criteria_score : pyval -> pyval -> pyval -> ext -> MetricScore * ext;
  evaluate_user_story_format_score : pyval -> pyval -> pyval -> ext -> MetricScore * ext;
  evaluate_completeness_score : pyval -> pyval -> pyval -> ext -> MetricScore * ext;
  (* langchain *)
  hub_pull : string -> ext -> list string * result ChatPromptTemplate * ext;
  pipe : ChatPromptTemplate -> LLM -> result Chain;
  invoke : Chain -> pyval -> ext -> list string * result Response * ext;
  content : Response -> result pyval;
  (* langsmith *)
  new_Client : ext -> list string * result Client * ext;
  list_datasets : Client -> string -> ext -> list string * result (list Dataset) * ext;
  create_dataset : Client -> string -> ext -> list string * result Dataset * ext;
  create_example : Client -> string -> pyval -> pyval -> ext -> list string * result unit * ext;
  list_examples : Client -> string -> ext -> list string * result (list Example) * ext;
  (* built-ins *)
  open_lines : string -> ext -> list string * result (list (result string)) * ext;
  path_exists : string -> ext -> list string * result bool * ext;
  json_loads : string -> result pyval;
  format_exc : exn -> string;
  format_2f : Q -> string
}.

Section Script.
Context {W : World}.

(** Modelled from the spec: the four evaluators of [metrics.py] follow
    the contract of section 4.3, a call that returns a score and may
    consult an external judge. *)
Definition metric (evaluator : pyval -> pyval -> pyval -> ext -> MetricScore * ext)
    (bug_report user_story ref : pyval) : IO ext MetricScore :=
  total (evaluator bug_report user_story ref).

Definition get_llm : IO ext LLM :=
  external (get_configured_llm 1.0%Q).

(** The body of [for line in f] in [load_dataset_from_jsonl]; [f] gives,
    read after read, a line or the exception of the read. *)
Fixpoint read_examples (f : list (result string)) (examples : list pyval)
    : result (list pyval) :=
  match f with
  | [] => Ok examples
  | next :: f' =>
      line ← next;
      let line := strip line in
      if negb (String.eqb line "") then
        example ← json_loads line;
        read_examples f' (examples ++ [example])
      else read_examples f' examples
  end.

Definition load_dataset_from_jsonl (jsonl_path : string) : IO ext (list pyval) :=
  try_except
    (f ← external (open_lines jsonl_path);
     lift (read_examples f []))
    (fun e =>
       match exn_cls e with
       | FileNotFoundError =>
           print ("❌ Arquivo não encontrado: " +:+ jsonl_path);;
           print (nl +:+ "Certifique-se de que o arquivo datasets/bug_to_user_story.jsonl existe.");;
           mret []
       | JSONDecodeError =>
           print ("❌ Erro ao parsear JSONL: " +:+ exn_str e);;
           mret []
       | _ =>
           print ("❌ Erro ao carregar dataset: " +:+ exn_str e);;
           mret []
       end).

(** The body of [for example in examples] in
    [create_evaluation_dataset]. *)
Fixpoint create_examples (client : Client) (dataset_id : string)
    (examples : list pyval) : IO ext unit :=
  match examples with
  | [] => mret tt
  | example :: rest =>
      inputs ← lift (py_getitem example "inputs");
      outputs ← lift (py_getitem example "outputs");
      external (create_example client dataset_id inputs outputs);;
      create_examples client dataset_id rest
  end.

Definition create_evaluation_dataset (client : Client) (dataset_name jsonl_path : string)
    : IO ext string :=
  examples ← load_dataset_from_jsonl jsonl_path;
  match examples with
  | [] => mret dataset_name
  | _ =>
      try_except
        (datasets ← external (list_datasets client dataset_name);
         let existing_dataset :=
           find (fun ds => String.eqb (ds_name ds) dataset_name) datasets in
         match existing_dataset with
         | Some _ => mret dataset_name
         | None =>
             dataset ← external (create_dataset client dataset_name);
             create_examples client (ds_id dataset) examples;;
             mret dataset_name
         end)
        (fun e =>
           print ("   ⚠️  Erro ao criar dataset: " +:+ exn_str e);;
           mret dataset_name)
  end.

Definition pull_prompt_from_langsmith (prompt_name : string) : IO ext ChatPromptTemplate :=
  try_except
    (prompt ← external (hub_pull prompt_name);
     mret prompt)
    (fun e =>
       let error_msg := lower (exn_str e) in
       print (nl +:+ repeat_str "=" 70);;
       print ("❌ ERRO: Não foi possível carregar o prompt '" +:+ prompt_name +:+ "'");;
       print (repeat_str "=" 70 +:+ nl);;
       (if contains "not found" error_msg || contains "404" error_msg then
          print ("⚠️  O prompt não foi encontrado no LangSmith Hub." +:+ nl);;
          print "AÇÕES NECESSÁRIAS:";;
          print "1. Verifique se você já fez push do prompt otimizado:";;
          print "   python src/push_prompts.py";;
          print "";;
          print "2. Confirme se o prompt foi publicado com sucesso em:";;
          print "   https://smith.langchain.com/prompts";;
          print "";;
          print ("3. Certifique-se de que o nome do prompt está correto: '" +:+ prompt_name +:+ "'");;
          print "";;
          print "4. Se você alterou o prompt no YAML, refaça o push:";;
          print "   python src/push_prompts.py"
        else
          print ("Erro técnico: " +:+ exn_str e +:+ nl);;
          print "Verifique:";;
          print "- LANGSMITH_API_KEY está configurada corretamente no .env";;
          print "- Você tem acesso ao workspace do LangSmith";;
          print "- Sua conexão com a internet está funcionando");;
       print (nl +:+ repeat_str "=" 70 +:+ nl);;
       raise e).

(** The result returned when a step of the runner fails. *)
Definition empty_result : EvaluationResult :=
  {| answer := PyStr ""; reference := PyStr ""; question := PyStr "" |}.

Definition evaluate_prompt_on_example (prompt_template : ChatPromptTemplate)
    (example : Example) (llm : LLM) : IO ext EvaluationResult :=
  enter_runner example;;
  try_except
    (let inputs := match ex_inputs example with Some v => v | None => PyDict [] end in
     let outputs := match ex_outputs example with Some v => v | None => PyDict [] end in
     chain ← lift (pipe prompt_template llm);
     response ← external (invoke chain inputs);
     answer ← lift (content response);
     let reference :=
       match outputs with
       | PyDict d => dict_get d "reference" (PyStr "")
       | _ => PyStr ""
       end in
     let question :=
       match inputs with
       | PyDict d =>
           dict_get d "question"
             (dict_get d "bug_report" (dict_get d "pr_title" (PyStr "N/A")))
       | _ => PyStr "N/A"
       end in
     mret {| answer := answer; reference := reference; question := question |})
    (fun e =>
       print ("      ⚠️  Erro ao avaliar exemplo: " +:+ exn_str e);;
       print ("      Traceback: " +:+ format_exc e);;
       mret empty_result).

Definition no_scores : ScoreLists :=
  {| tone_scores := []; acceptance_criteria_scores := [];
     format_scores := []; completeness_scores := [] |}.

(** The body of [for i, example in enumerate(...)] in [evaluate_prompt],
    over the four running lists. *)
Fixpoint evaluate_examples (prompt_template : ChatPromptTemplate) (llm : LLM)
    (examples : list Example) (lists : ScoreLists) : IO ext ScoreLists :=
  match examples with
  | [] => mret lists
  | example :: rest =>
      result ← evaluate_prompt_on_example prompt_template example llm;
      if truthy (answer result) then
        let bug_report := question result in
        let user_story := answer result in
        let ref := reference result in
        tone ← metric evaluate_tone_score bug_report user_story ref;
        acceptance ← metric evaluate_acceptance_criteria_score bug_report user_story ref;
        format_score ← metric evaluate_user_story_format_score bug_report user_story ref;
        completeness ← metric evaluate_completeness_score bug_report user_story ref;
        evaluate_examples prompt_template llm rest
          {| tone_scores := tone_scores lists ++ [score tone];
             acceptance_criteria_scores :=
               acceptance_criteria_scores lists ++ [score acceptance];
             format_scores := format_scores lists ++ [score format_score];
             completeness_scores := completeness_scores lists ++ [score completeness] |}
      else evaluate_examples prompt_template llm rest lists
  end.

(** [sum(xs) / len(xs) if xs else 0.0]. *)
Definition avg_or_zero (xs : list Q) : Q :=
  match xs with [] => 0%Q | _ => average xs end.

Definition zero_scores : AggregateScores :=
  {| tone := 0%Q; acceptance_criteria := 0%Q; format := 0%Q; completeness := 0%Q |}.

Definition evaluate_prompt (prompt_name dataset_name : string) (client : Client)
    (max_examples : Z) : IO ext AggregateScores :=
  try_except
    (prompt_template ← pull_prompt_from_langsmith prompt_name;
     examples ← external (list_examples client dataset_name);
     llm ← get_llm;
     lists ← evaluate_examples prompt_template llm (slice_to examples max_examples) no_scores;
     let avg_tone := avg_or_zero (tone_scores lists) in
     let avg_acceptance := avg_or_zero (acceptance_criteria_scores lists) in
     let avg_format := avg_or_zero (format_scores lists) in
     let avg_completeness := avg_or_zero (completeness_scores lists) in
     mret {| tone := round4 avg_tone;
             acceptance_criteria := round4 avg_acceptance;
             format := round4 avg_format;
             completeness := round4 avg_completeness |})
    (fun e =>
       print ("   ❌ Erro na avaliação: " +:+ exn_str e);;
       mret zero_scores).

(** [scores.items()]. *)
Definition items (scores : AggregateScores) : list (string * Q) :=
  [("tone", tone scores);
   ("acceptance_criteria", acceptance_criteria scores);
   ("format", format scores);
   ("completeness", completeness scores)].

(** [scores.values()]. *)
Definition values (scores : AggregateScores) : list Q :=
  map snd (items scores).

(** [x < y] on scores. *)
Definition Qlt_bool (x y : Q) : bool := negb (Qle_bool y x).

Definition display_results (prompt_name : string) (scores : AggregateScores)
    : IO ext bool :=
  print (repeat_str "=" 32);;
  print ("Prompt: " +:+ prompt_name);;
  print ("- Tone Score: " +:+ format_2f (tone scores));;
  print ("- Acceptance Criteria: " +:+ format_2f (acceptance_criteria scores));;
  print ("- Format Score: " +:+ format_2f (format scores));;
  print ("- Completeness: " +:+ format_2f (completeness scores));;
  print (repeat_str "=" 32);;
  let all_passed := forallb (fun score => Qle_bool 0.9 score) (values scores) in
  (if all_passed then
     print "Status: APROVADO ✓ - Todas as métricas >= 0.9"
   else
     print "Status: FALHOU - Métricas abaixo do mínimo de 0.9";;
     let failed_metrics :=
       map fst (filter (fun item => Qlt_bool (snd item) 0.9) (items scores)) in
     print ("Métricas que falharam: " +:+ String.concat ", " failed_metrics));;
  mret all_passed.

(** The body of [for prompt_name in prompts_to_evaluate] in [main]. *)
Fixpoint evaluate_prompts (client : Client) (dataset_name : string) (max_examples : Z)
    (prompts_to_evaluate : list string) (all_passed : bool) : IO ext bool :=
  match prompts_to_evaluate with
  | [] => mret all_passed
  | prompt_name :: rest =>
      all_passed ←
        try_except
          (scores ← evaluate_prompt prompt_name dataset_name client max_examples;
           passed ← display_results prompt_name scores;
           mret (all_passed && passed))
          (fun e => mret false);
      evaluate_prompts client dataset_name max_examples rest all_passed
  end.

(** [os.getenv(k, dflt)]. *)
Definition getenv_default (env : gmap string string) (k dflt : string) : string :=
  match env !! k with Some v => v | None => dflt end.

(** [main], after [parser.parse_args()] returned [args]; [env] is the
    process environment. *)
Definition main (env : gmap string string) (args : Args) : IO ext Z :=
  print "Executando avaliação dos prompts...";;
  let provider := getenv_default env "LLM_PROVIDER" "openai" in
  let required_vars := ["LANGSMITH_API_KEY"; "LLM_PROVIDER"] in
  let required_vars :=
    if String.eqb provider "openai" then required_vars ++ ["OPENAI_API_KEY"]
    else if existsb (String.eqb provider) ["google"; "gemini"]
         then required_vars ++ ["GOOGLE_API_KEY"]
         else required_vars in
  print ("a chave openai é " +:+ " " +:+ str_of_getenv (env !! "OPENAI_API_KEY"));;
  env_ok ← external (check_env_vars env required_vars);
  if negb env_ok then mret 1%Z
  else
    client ← external new_Client;
    let project_name :=
      getenv_default env "LANGSMITH_PROJECT" "prompt-optimization-challenge-resolved" in
    let jsonl_path := "datasets/bug_to_user_story.jsonl" in
    dataset_found ← external (path_exists jsonl_path);
    if negb dataset_found then
      print ("❌ Arquivo de dataset não encontrado: " +:+ jsonl_path);;
      mret 1%Z
    else
      let dataset_name := project_name +:+ "-eval" in
      _ ← create_evaluation_dataset client dataset_name jsonl_path;
      let prompts_to_evaluate := [arg_prompt args] in
      all_passed ← evaluate_prompts client dataset_name (arg_max_examples args)
                     prompts_to_evaluate true;
      if all_passed : bool then mret 0%Z else mret 1%Z.

(** [sys.exit(main())]: the status of the process.  An exception that
    leaves [main] ends the process with status 1. *)
Definition exit_status (o : outcome ext Z) : Z :=
  match value o with
  | Ok code => code
  | Raise _ => 1%Z
  end.

End Script.

End Evaluate.

(** ** The prompt objects of langchain and the registry *)

Module Langchain.

(** [msg.prompt]: [None] in [template] stands for a prompt without a
    [template] attribute. *)
Record StringPrompt : Type := { template : option string }.

(** A message template of a chat prompt: the name of its class, its
    [prompt] attribute ([None]: the attribute is missing) and the text
    [str(msg)] gives. *)
Record MessageTemplate : Type := {
  class_name : string;
  prompt : option StringPrompt;
  as_str : string
}.

(** A prompt as the registry stores it; [None] stands for a prompt
    without a [messages] attribute. *)
Record Prompt : Type := { messages : option (list MessageTemplate) }.

(** The message classes of the three roles of a chat prompt. *)
Definition role_class (role : string) : option string :=
  if String.eqb role "system" then Some "SystemMessagePromptTemplate"
  else if String.eqb role "human" then Some "HumanMessagePromptTemplate"
  else if String.eqb role "ai" then Some "AIMessagePromptTemplate"
  else None.

(** The part of langchain the script builds its template with. *)
Class Library : Type := {
  from_messages : list (pyval * pyval) -> result Prompt
}.

(** What [ChatPromptTemplate.from_messages] does with a pair of a role
    [system], [human] or [ai] and a string: the pair becomes a message
    template of the class of the role, whose prompt keeps the string as
    its template. *)
Definition built_from (pair : pyval * pyval) (msg : MessageTemplate) : Prop :=
  match pair with
  | (PyStr role, PyStr text) =>
      forall cls, role_class role = Some cls ->
        class_name msg = cls /\ prompt msg = Some {| template := Some text |}
  | _ => True
  end.

(** A library whose [from_messages], when it returns, returns one
    message template for each pair, in the order of the pairs. *)
Definition builds_templates (L : Library) : Prop :=
  forall pairs p, from_messages pairs = Ok p ->
    exists msgs, messages p = Some msgs /\ Forall2 built_from pairs msgs.

(** Modelled from the spec: the registry is a store of named prompts;
    [push] files a prompt under its name and [pull] hands out the
    prompt filed under a name. *)
Definition hub_push (name : string) (p : Prompt) (hub : gmap string Prompt)
    : gmap string Prompt :=
  <[name := p]> hub.

Definition hub_pull (name : string) (hub : gmap string Prompt) : result Prompt :=
  match hub !! name with
  | Some p => Ok p
  | None => Raise (Exn OtherError ("Prompt " +:+ name +:+ " not found"))
  end.

End Langchain.

(** ** src/push_prompts.py *)

Module PushPrompts.
Import Langchain.

(** The body of [for msg in prompt_data.get("messages", [])] in
    [push_prompt_to_langsmith]. *)
Fixpoint collect_messages (msgs : list pyval) (messages : list (pyval * pyval))
    : result (list (pyval * pyval)) :=
  match msgs with
  | [] => Ok messages
  | msg :: rest =>
      role ← py_get msg "role" (PyStr "system");
      content ← py_get msg "content" (PyStr "");
      if py_eq_str role "system" then
        collect_messages rest (messages ++ [(PyStr "system", content)])
      else if py_eq_str role "human" then
        collect_messages rest (messages ++ [(PyStr "human", content)])
      else if py_eq_str role "ai" then
        collect_messages rest (messages ++ [(PyStr "ai", content)])
      else
        collect_messages rest (messages ++ [(role, content)])
  end.

(** The construction of the template in [push_prompt_to_langsmith]
    (from [messages = []] to [ChatPromptTemplate.from_messages]).
    [Ok None] is the early [return False] on an empty message list; an
    exception passes to the [except] clause of the function, which
    returns [False] as well.  The metadata, the diagnostics and the call
    of [hub.push] that follow are not part of the embedding. *)
Definition build_template {L : Library} (prompt_data : list (string * pyval))
    : result (option Prompt) :=
  msgs ← py_iter (dict_get prompt_data "messages" (PyList []));
  messages ← collect_messages msgs [];
  match messages with
  | [] => Ok None
  | _ =>
      prompt_template ← from_messages messages;
      Ok (Some prompt_template)
  end.

(** [any(msg.get("role") == "system" for msg in messages)]: the
    generator is consumed up to the first system message. *)
Fixpoint any_system (msgs : list pyval) : result bool :=
  match msgs with
  | [] => Ok false
  | msg :: rest =>
      role ← py_get msg "role" PyNone;
      if py_eq_str role "system" then Ok true else any_system rest
  end.

(** The body of [for i, msg in enumerate(messages)] in
    [validate_prompt]. *)
Fixpoint check_contents (i : nat) (msgs : list pyval) (errors : list string)
    : result (list string) :=
  match msgs with
  | [] => Ok errors
  | msg :: rest =>
      raw ← py_get msg "content" (PyStr "");
      content ← py_strip raw;
      if negb (truthy content) then
        check_contents (S i) rest (errors ++ ["Mensagem " +:+ pretty i +:+ " está vazia"])
      else check_contents (S i) rest errors
  end.

Definition validate_prompt (prompt_data : list (string * pyval))
    : result (bool * list string) :=
  let errors := [] in
  let messages := dict_get prompt_data "messages" (PyList []) in
  let errors :=
    if negb (truthy messages) then errors ++ ["Prompt não contém mensagens"]
    else errors in
  msgs ← py_iter messages;
  has_system ← any_system msgs;
  let errors :=
    if negb has_system then errors ++ ["Prompt não contém system prompt"]
    else errors in
  errors ← check_contents 0 msgs errors;
  Ok (Nat.eqb (length errors) 0, errors).

End PushPrompts.

(** ** src/pull_prompts.py *)

Module PullPrompts.
Import Langchain.

(** The dict built for one message in [pull_prompts_from_langsmith]. *)
Definition message_dict (msg : MessageTemplate) : result pyval :=
  let role :=
    lower (remove_all "Message" (remove_all "MessagePromptTemplate" (class_name msg))) in
  msg_prompt ←
    match prompt msg with
    | Some p => Ok p
    | None =>
        Raise (Exn AttributeError
                 ("'" +:+ class_name msg +:+ "' object has no attribute 'prompt'"))
    end;
  let content :=
    match template msg_prompt with
    | Some text => text
    | None => as_str msg
    end in
  Ok (PyDict [("role", PyStr role); ("content", PyStr content)]).

(** The body of [for msg in prompt.messages]. *)
Fixpoint serialize_messages (msgs : list MessageTemplate) (out : list pyval)
    : result (list pyval) :=
  match msgs with
  | [] => Ok out
  | msg :: rest =>
      msg_dict ← message_dict msg;
      serialize_messages rest (out ++ [msg_dict])
  end.

(** The extraction of [prompt_dict] in [pull_prompts_from_langsmith]
    (from [prompt_dict = {...}] to the end of the serialisation loop).
    The credential check, the diagnostics and the call of [save_yaml]
    around it are not part of the embedding. *)
Definition extract_prompt_dict (prompt_name : string) (p : Prompt) : result pyval :=
  let pieces := split "/" prompt_name in
  let name := List.last pieces "" in
  let owner :=
    if contains "/" prompt_name then List.hd "" pieces else "unknown" in
  msgs ←
    match messages p with
    | Some msgs => serialize_messages msgs []
    | None => Ok []
    end;
  Ok (PyDict [("name", PyStr name); ("owner", PyStr owner); ("messages", PyList msgs)]).

End PullPrompts.

(** ** More of the Python runtime, for the whole scripts *)

Module PythonMore.

(** The first [n] characters of a string: a character is a byte that
    starts an encoding, with the bytes that continue it. *)
Fixpoint str_take (n : nat) (s : string) : string :=
  match s with
  | EmptyString => EmptyString
  | String c s' =>
      if is_continuation c then String c (str_take n s')
      else
        match n with
        | O => EmptyString
        | S n' => String c (str_take n' s')
        end
  end.

(** Every character of the string is an ASCII one. *)
Fixpoint is_ascii (s : string) : bool :=
  match s with
  | EmptyString => true
  | String c s' => (nat_of_ascii c <? 128)%nat && is_ascii s'
  end.

(** [v[:n]] for a non-negative [n]: strings and lists have slices. *)
Definition py_slice_to (v : pyval) (n : nat) : result pyval :=
  match v with
  | PyStr s => Ok (PyStr (str_take n s))
  | PyList l => Ok (PyList (take n l))
  | PyDict _ => Raise (Exn TypeError "unhashable type: 'slice'")
  | _ => Raise (Exn TypeError ("'" +:+ type_name v +:+ "' object is not subscriptable"))
  end.

(** [s in v] for a string [s]: an element of a list, a key of a dict,
    a substring of a string. *)
Definition py_contains (v : pyval) (s : string) : result bool :=
  match v with
  | PyList l => Ok (existsb (fun x => py_eq_str x s) l)
  | PyDict d => Ok (match dict_lookup d s with Some _ => true | None => false end)
  | PyStr t => Ok (contains s t)
  | _ => Raise (Exn TypeError ("argument of type '" +:+ type_name v +:+ "' is not iterable"))
  end.

(** [v.append(x)]: the list after the call; only a list has the
    method. *)
Definition py_append (v x : pyval) : result pyval :=
  match v with
  | PyList l => Ok (PyList (l ++ [x]))
  | _ => Raise (no_attribute v "append")
  end.

(** [len(v)]. *)
Definition py_len (v : pyval) : result nat :=
  match v with
  | PyList l => Ok (length l)
  | PyDict d => Ok (length d)
  | PyStr s => Ok (length (chars s))
  | _ => Raise (Exn TypeError ("object of type '" +:+ type_name v +:+ "' has no len()"))
  end.

(** [os.path.basename(path)] on a POSIX path. *)
Definition basename (path : string) : string := List.last (split "/" path) "".

End PythonMore.
Import PythonMore.

(** ** src/push_prompts.py, the whole script *)

Module PushScript.
Import Langchain PushPrompts.

(** The parsed command line of the script. *)
Record Args : Type := {
  arg_prompt_file : string;
  arg_prompt_name : option string;
  arg_skip_tests : bool
}.

(** What [subprocess.run] returns. *)
Record CompletedProcess : Type := {
  returncode : Z;
  proc_stdout : string;
  proc_stderr : string
}.

(** The collaborators of the script: [utils], the registry, the test
    runner started as a subprocess, and [repr]. *)
Class Host : Type := {
  ext : Type;
  (* utils; the process environment is passed to the credential check *)
  print_section_header : string -> ext -> list string * result unit * ext;
  check_env_vars : gmap string string -> list string -> ext -> list string * result bool * ext;
  load_yaml : string -> ext -> list string * result pyval * ext;
  (* langchain *)
  hub_push : string -> Prompt -> pyval -> pyval -> ext -> list string * result unit * ext;
  (* built-ins *)
  subprocess_run : list string -> ext -> list string * result CompletedProcess * ext;
  repr : pyval -> string
}.

Section Script.
Context {L : Library} {H : Host}.

(** [str(v)], as an f-string formats [v]. *)
Definition py_str (v : pyval) : string :=
  match v with
  | PyStr s => s
  | _ => repr v
  end.

(** The labels of the push: [techniques_applied], a string being
    wrapped in a list, with [bug-to-user-story] appended when it is not
    among them. *)
Definition push_labels (prompt_data : list (string * pyval)) : result pyval :=
  let tags := dict_get prompt_data "techniques_applied" (PyList []) in
  let tags := match tags with PyStr _ => PyList [tags] | _ => tags end in
  present ← py_contains tags "bug-to-user-story";
  if negb present then py_append tags (PyStr "bug-to-user-story") else Ok tags.

Definition push_prompt_to_langsmith (prompt_name : string)
    (prompt_data : list (string * pyval)) : IO ext bool :=
  try_except
    (print ("📤 Fazendo push do prompt: " +:+ prompt_name);;
     built ← lift (build_template prompt_data);
     match built with
     | None =>
         print "❌ Nenhuma mensagem encontrada no prompt";;
         mret false
     | Some prompt_template =>
         let description :=
           dict_get prompt_data "description"
                    (PyStr "Prompt otimizado para Bug to User Story") in
         tags ← lift (push_labels prompt_data);
         shown ← lift (py_slice_to description 50);
         print ("   - Descrição: " +:+ py_str shown +:+ "...");;
         print ("   - Tags: " +:+ py_str tags);;
         external (hub_push prompt_name prompt_template description tags);;
         print "✅ Prompt enviado com sucesso!";;
         print ("   - Nome: " +:+ prompt_name);;
         print ("   - URL: https://smith.langchain.com/hub/" +:+ prompt_name);;
         mret true
     end)
    (fun e =>
       let error_msg := exn_str e in
       (if contains "authentication" (lower error_msg)
           || contains "api key" (lower error_msg)
        then print "❌ Erro de autenticação: Verifique LANGSMITH_API_KEY no .env"
        else print ("❌ Erro ao fazer push do prompt: " +:+ error_msg));;
       mret false).

(** The body of [for error in errors] in [main]. *)
Fixpoint print_errors (errors : list string) : IO ext unit :=
  match errors with
  | [] => mret tt
  | error :: rest => print ("   - " +:+ error);; print_errors rest
  end.

(** The name of the prompt when the command line gives none. *)
Definition default_prompt_name (env : gmap string string) (prompt_file : string) : string :=
  let username := Evaluate.getenv_default env "LANGSMITH_USERNAME" "user" in
  let file_name := remove_all ".yaml" (remove_all ".yml" (basename prompt_file)) in
  username +:+ "/" +:+ file_name.

(** [main], after [parser.parse_args()] returned [args]; [env] is the
    process environment. *)
Definition main (env : gmap string string) (args : Args) : IO ext Z :=
  external (print_section_header "Push de Prompts para LangSmith Hub");;
  env_ok ← external (check_env_vars env ["LANGSMITH_API_KEY"]);
  if negb env_ok then mret 1%Z
  else
    let after_tests : IO ext Z :=
      print (nl +:+ "📖 Carregando prompt de: " +:+ arg_prompt_file args);;
      prompt_data ← external (load_yaml (arg_prompt_file args));
      if negb (truthy prompt_data) then mret 1%Z
      else
        print "🔍 Validando estrutura do prompt...";;
        match prompt_data with
        | PyDict d =>
            validation ← lift (validate_prompt d);
            let '(is_valid, errors) := validation in
            if negb is_valid then
              print "❌ Validação falhou:";;
              print_errors errors;;
              mret 1%Z
            else
              print "✅ Prompt válido!";;
              let prompt_name :=
                match arg_prompt_name args with
                | Some name =>
                    if negb (String.eqb name "") then name
                    else default_prompt_name env (arg_prompt_file args)
                | None => default_prompt_name env (arg_prompt_file args)
                end in
              success ← push_prompt_to_langsmith prompt_name d;
              if success : bool then mret 0%Z else mret 1%Z
        | _ =>
            (* [validate_prompt] starts with [prompt_data.get] *)
            raise (no_attribute prompt_data "get")
        end in
    if negb (arg_skip_tests args) then
      print "🧪 Executando testes de validação estrutural...";;
      result ← external (subprocess_run ["pytest"; "tests/test_prompts.py"; "-v"]);
      if negb (returncode result =? 0)%Z then
        print "❌ Testes falharam! Corrija os problemas antes de fazer push.";;
        print (proc_stdout result);;
        print (proc_stderr result);;
        mret 1%Z
      else
        print "✅ Todos os testes passaram!";;
        after_tests
    else after_tests.

End Script.

End PushScript.

(** ** src/pull_prompts.py, the whole script *)

Module PullScript.
Import Langchain PullPrompts.

(** The parsed command line of the script. *)
Record Args : Type := { arg_prompt : string; arg_output_dir : string }.

(** The collaborators of the script.  [is_import_error] tells the
    exceptions the clause [except ImportError] catches, which
    [exn_class] does not set apart; [path_join] is
    [str(Path(directory) / name)]. *)
Class Host : Type := {
  ext : Type;
  (* utils; the process environment is passed to the credential check *)
  print_section_header : string -> ext -> list string * result unit * ext;
  check_env_vars : gmap string string -> list string -> ext -> list string * result bool * ext;
  save_yaml : pyval -> string -> ext -> list string * result bool * ext;
  (* langchain *)
  hub_pull : string -> ext -> list string * result Prompt * ext;
  (* built-ins *)
  path_join : string -> string -> string;
  is_import_error : exn -> bool;
  repr : pyval -> string
}.

Section Script.
Context {H : Host}.

(** [str(v)], as an f-string formats [v]. *)
Definition py_str (v : pyval) : string :=
  match v with
  | PyStr s => s
  | _ => repr v
  end.

Definition pull_prompts_from_langsmith (env : gmap string string)
    (prompt_name output_dir : string) : IO ext bool :=
  try_except
    (external (print_section_header "Pull de Prompts do LangSmith Hub");;
     env_ok ← external (check_env_vars env ["LANGSMITH_API_KEY"]);
     if negb env_ok then mret false
     else
       print ("📥 Fazendo pull do prompt: " +:+ prompt_name);;
       prompt ← external (hub_pull prompt_name);
       prompt_dict ← lift (extract_prompt_dict prompt_name prompt);
       name ← lift (py_getitem prompt_dict "name");
       let output_path := path_join output_dir (py_str name +:+ ".yml") in
       saved ← external (save_yaml prompt_dict output_path);
       if saved : bool then
         print ("✅ Prompt salvo com sucesso em: " +:+ output_path);;
         name ← lift (py_getitem prompt_dict "name");
         print ("   - Nome: " +:+ py_str name);;
         owner ← lift (py_getitem prompt_dict "owner");
         print ("   - Owner: " +:+ py_str owner);;
         msgs ← lift (py_getitem prompt_dict "messages");
         count ← lift (py_len msgs);
         print ("   - Mensagens: " +:+ pretty count);;
         mret true
       else
         print ("❌ Erro ao salvar prompt em: " +:+ output_path);;
         mret false)
    (fun e =>
       if is_import_error e then
         print ("❌ Erro de importação: " +:+ exn_str e);;
         print "   Verifique se langchain está instalado: pip install langchain";;
         mret false
       else
         let error_msg := exn_str e in
         (if contains "authentication" (lower error_msg)
             || contains "api key" (lower error_msg)
          then print "❌ Erro de autenticação: Verifique LANGSMITH_API_KEY no .env"
          else if contains "not found" (lower error_msg) || contains "404" error_msg
          then
            print ("❌ Prompt não encontrado: " +:+ prompt_name);;
            print "   Verifique se o nome está correto (formato: owner/prompt)"
          else if contains "network" (lower error_msg)
                  || contains "connection" (lower error_msg)
          then
            print ("❌ Erro de rede: " +:+ error_msg);;
            print "   Verifique sua conexão com a internet"
          else print ("❌ Erro ao fazer pull do prompt: " +:+ error_msg));;
         mret false).

(** [main], after [parser.parse_args()] returned [args]. *)
Definition main (env : gmap string string) (args : Args) : IO ext Z :=
  success ← pull_prompts_from_langsmith env (arg_prompt args) (arg_output_dir args);
  if success : bool then mret 0%Z else mret 1%Z.

End Script.

End PullScript.

(** ** tests/test_prompts.py *)

Module TestPrompts.

(** [assert condition, message]: the failure is an [AssertionError],
    which no [except] clause of the scripts sets apart. *)
Definition py_assert (condition : bool) (message : string) : result unit :=
  if condition then Ok tt else Raise (Exn OtherError message).

(** [[msg for msg in messages if msg.get("role") == role]]. *)
Fixpoint with_role (role : string) (messages : list pyval) : result (list pyval) :=
  match messages with
  | [] => Ok []
  | msg :: rest =>
      msg_role ← py_get msg "role" PyNone;
      kept ← with_role role rest;
      Ok (if py_eq_str msg_role role then msg :: kept else kept)
  end.

(** [l[0]]. *)
Definition py_first (l : list pyval) : result pyval :=
  match l with
  | first :: _ => Ok first
  | [] => Raise (Exn OtherError "list index out of range")
  end.

(** The tests take the parsed prompt file, [prompt_v2], from the
    fixture of that name. *)
Definition test_prompt_has_system_prompt (prompt_v2 : pyval) : result unit :=
  messages ← py_get prompt_v2 "messages" (PyList []);
  py_assert (truthy messages) "Prompt não contém mensagens";;
  msgs ← py_iter messages;
  system_messages ← with_role "system" msgs;
  py_assert (truthy (PyList system_messages)) "Prompt não contém system prompt";;
  first ← py_first system_messages;
  raw ← py_get first "content" (PyStr "");
  system_content ← py_strip raw;
  py_assert (truthy system_content) "System prompt está vazio".

Definition test_minimum_techniques (prompt_v2 : pyval) : result unit :=
  techniques ← py_get prompt_v2 "techniques_applied" (PyList []);
  py_assert (match techniques with PyList _ => true | _ => false end)
            "Campo 'techniques_applied' deve ser uma lista";;
  count ← py_len techniques;
  py_assert (2 <=? count)%nat
            ("Mínimo de 2 técnicas requeridas, encontradas: " +:+ pretty count).

End TestPrompts.

(** * Reference definitions

    What the specification says, in its own terms; the properties below
    compare the scripts with them. *)

Module Reference.

(** *** Prompt validation *)

(** The messages of a prompt, when [messages] is a list. *)
Definition messages_of (prompt_data : list (string * pyval)) : list pyval :=
  match dict_get prompt_data "messages" (PyList []) with
  | PyList msgs => msgs
  | _ => []
  end.

(** A message is a dict whose content, when present, is a string. *)
Definition message_well_formed (msg : pyval) : bool :=
  match msg with
  | PyDict d =>
      match dict_lookup d "content" with
      | None | Some (PyStr _) => true
      | Some _ => false
      end
  | _ => false
  end.

(** A prompt whose [messages], when present, is a list of well-formed
    messages. *)
Definition prompt_well_formed (prompt_data : list (string * pyval)) : bool :=
  match dict_lookup prompt_data "messages" with
  | None => true
  | Some (PyList msgs) => forallb message_well_formed msgs
  | Some _ => false
  end.

Definition has_system_role (msg : pyval) : bool :=
  match msg with
  | PyDict d => py_eq_str (dict_get d "role" PyNone) "system"
  | _ => false
  end.

(** The content of the message is empty once whitespace is stripped. *)
Definition content_blank (msg : pyval) : bool :=
  match msg with
  | PyDict d =>
      match dict_get d "content" (PyStr "") with
      | PyStr s => is_blank s
      | _ => false
      end
  | _ => false
  end.

(** The three conditions of a valid prompt. *)
Definition prompt_valid (prompt_data : list (string * pyval)) : bool :=
  let msgs := messages_of prompt_data in
  match msgs with [] => false | _ => true end
  && existsb has_system_role msgs
  && forallb (fun msg => negb (content_blank msg)) msgs.

(** One diagnostic for each message with a blank content, numbered from
    [i]. *)
Fixpoint blank_diagnostics (i : nat) (msgs : list pyval) : list string :=
  match msgs with
  | [] => []
  | msg :: rest =>
      (if content_blank msg then ["Mensagem " +:+ pretty i +:+ " está vazia"] else [])
      ++ blank_diagnostics (S i) rest
  end.

(** The diagnostics of a prompt, in the order they are reported. *)
Definition diagnostics (prompt_data : list (string * pyval)) : list string :=
  let msgs := messages_of prompt_data in
  (match msgs with [] => ["Prompt não contém mensagens"] | _ => [] end)
  ++ (if existsb has_system_role msgs then [] else ["Prompt não contém system prompt"])
  ++ blank_diagnostics 0 msgs.

(** *** Example Runner *)

Section RunnerReference.
Import Evaluate.
Context {W : World}.

(** The inputs and outputs the runner works with: a missing attribute
    is read as an empty dict. *)
Definition inputs_of (example : Example) : pyval :=
  match ex_inputs example with Some v => v | None => PyDict [] end.

Definition outputs_of (example : Example) : pyval :=
  match ex_outputs example with Some v => v | None => PyDict [] end.

(** The value of the first of [keys] present in [d], or [sentinel]. *)
Fixpoint first_present (d : list (string * pyval)) (keys : list string)
    (sentinel : pyval) : pyval :=
  match keys with
  | [] => sentinel
  | k :: keys' =>
      match dict_lookup d k with
      | Some v => v
      | None => first_present d keys' sentinel
      end
  end.

(** The question: [question], then [bug_report], then [pr_title], or
    the sentinel. *)
Definition derived_question (inputs : pyval) : pyval :=
  match inputs with
  | PyDict d => first_present d ["question"; "bug_report"; "pr_title"] (PyStr "N/A")
  | _ => PyStr "N/A"
  end.

(** The reference: [outputs["reference"]], or the empty string. *)
Definition derived_reference (outputs : pyval) : pyval :=
  match outputs with
  | PyDict d =>
      match dict_lookup d "reference" with
      | Some v => v
      | None => PyStr ""
      end
  | _ => PyStr ""
  end.

(** A step of the runner fails on [example] from the state [s]:
    building the chain, invoking it, or reading the content of the
    response. *)
Inductive runner_fails (prompt_template : ChatPromptTemplate) (example : Example)
    (llm : LLM) (s : ext) : Prop :=
| pipe_fails (e : exn) :
    pipe prompt_template llm = Raise e ->
    runner_fails prompt_template example llm s
| invoke_fails (chain : Chain) (out : list string) (e : exn) (s' : ext) :
    pipe prompt_template llm = Ok chain ->
    invoke chain (inputs_of example) s = (out, Raise e, s') ->
    runner_fails prompt_template example llm s
| content_fails (chain : Chain) (out : list string) (response : Response)
    (e : exn) (s' : ext) :
    pipe prompt_template llm = Ok chain ->
    invoke chain (inputs_of example) s = (out, Ok response, s') ->
    content response = Raise e ->
    runner_fails prompt_template example llm s.

(** [o] followed by [o']: the traces in sequence, the result and the
    final state of [o']. *)
Definition followed_by {A B : Type} (o : outcome ext A) (o' : outcome ext B)
    : outcome ext B :=
  Outcome (trace o ++ trace o') (value o') (after o').

(** The failure of the body of the runner: what was printed before
    the exception, and the exception. *)
Definition runner_failure (prompt_template : ChatPromptTemplate) (example : Example)
    (llm : LLM) (s : ext) : option (list string * exn) :=
  match pipe prompt_template llm with
  | Raise e => Some ([], e)
  | Ok chain =>
      match invoke chain (inputs_of example) s with
      | (out, Raise e, _) => Some (out, e)
      | (out, Ok response, _) =>
          match content response with
          | Raise e => Some (out, e)
          | Ok _ => None
          end
      end
  end.

End RunnerReference.

(** *** Aggregator *)

Section RunReference.
Import Evaluate.
Context {W : World}.

(** What one example produces in a run: the result of the runner and,
    when the four evaluators ran, their scores (tone, acceptance
    criteria, format, completeness). *)
Record ExampleRun : Type := {
  run_result : EvaluationResult;
  run_metrics : option (MetricScore * MetricScore * MetricScore * MetricScore)
}.

(** The example produced a non-empty answer: the answer counts as true,
    which for a string means that it has a character. *)
Definition answered (r : ExampleRun) : bool := truthy (answer (run_result r)).

(** One example: the runner, then the four evaluators on an answered
    example. *)
Definition run_example (prompt_template : ChatPromptTemplate) (llm : LLM)
    (example : Example) : IO ext ExampleRun :=
  result ← evaluate_prompt_on_example prompt_template example llm;
  if truthy (answer result) then
    t ← metric evaluate_tone_score (question result) (answer result) (reference result);
    a ← metric evaluate_acceptance_criteria_score
          (question result) (answer result) (reference result);
    f ← metric evaluate_user_story_format_score
          (question result) (answer result) (reference result);
    c ← metric evaluate_completeness_score
          (question result) (answer result) (reference result);
    mret {| run_result := result; run_metrics := Some (t, a, f, c) |}
  else mret {| run_result := result; run_metrics := None |}.

(** The examples of a run, one after the other. *)
Fixpoint run_examples (prompt_template : ChatPromptTemplate) (llm : LLM)
    (examples : list Example) : IO ext (list ExampleRun) :=
  match examples with
  | [] => mret []
  | example :: rest =>
      r ← run_example prompt_template llm example;
      rs ← run_examples prompt_template llm rest;
      mret (r :: rs)
  end.

(** The steps before the first example: the template, the examples of
    the dataset, the model client. *)
Definition prepare (prompt_name dataset_name : string) (client : Client)
    : IO ext (ChatPromptTemplate * list Example * LLM) :=
  prompt_template ← pull_prompt_from_langsmith prompt_name;
  examples ← external (list_examples client dataset_name);
  llm ← get_llm;
  mret (prompt_template, examples, llm).

(** The per-example results produced during one run of
    [evaluate_prompt] from the state [s]; none when a step before the
    first example fails. *)
Definition example_runs (prompt_name dataset_name : string) (client : Client)
    (max_examples : Z) (s : ext) : list ExampleRun :=
  let o := run (prepare prompt_name dataset_name client) s in
  match value o with
  | Ok (prompt_template, examples, llm) =>
      match value (run (run_examples prompt_template llm
                          (slice_to examples max_examples)) (after o)) with
      | Ok rs => rs
      | Raise _ => []
      end
  | Raise _ => []
  end.

Definition tone_of (m : MetricScore * MetricScore * MetricScore * MetricScore) : Q :=
  score (fst (fst (fst m))).
Definition acceptance_of (m : MetricScore * MetricScore * MetricScore * MetricScore) : Q :=
  score (snd (fst (fst m))).
Definition format_of (m : MetricScore * MetricScore * MetricScore * MetricScore) : Q :=
  score (snd (fst m)).
Definition completeness_of (m : MetricScore * MetricScore * MetricScore * MetricScore) : Q :=
  score (snd m).

(** The scores of one metric, taken over the answered examples only. *)
Definition metric_scores
    (pick : MetricScore * MetricScore * MetricScore * MetricScore -> Q)
    (rs : list ExampleRun) : list Q :=
  omap (fun r => pick <$> run_metrics r) (filter (fun r => answered r = true) rs).


(** The mean as binary64 arithmetic gives it: the scores are added one
    after the other, each sum rounded to the nearest binary64 number,
    and the total is divided by the number of scores, rounded again. *)
Fixpoint sum64 (total : Q) (xs : list Q) : Q :=
  match xs with
  | [] => total
  | x :: rest => sum64 (round64 (total + x)) rest
  end.

Definition mean64 (xs : list Q) : Q :=
  round64 (sum64 0 xs / round64 (inject_Z (Z.of_nat (length xs)))).

(** The aggregate of one metric: the mean rounded to 4 decimal digits,
    and 0.0 when no example contributes. *)
Definition aggregate_metric (xs : list Q) : Q :=
  match xs with
  | [] => 0%Q
  | _ => round4 (mean64 xs)
  end.

Definition aggregate (rs : list ExampleRun) : AggregateScores :=
  {| tone := aggregate_metric (metric_scores tone_of rs);
     acceptance_criteria := aggregate_metric (metric_scores acceptance_of rs);
     format := aggregate_metric (metric_scores format_of rs);
     completeness := aggregate_metric (metric_scores completeness_of rs) |}.

(** The running lists after the runs [rs] are appended. *)
Definition extend (lists : ScoreLists) (rs : list ExampleRun) : ScoreLists :=
  {| tone_scores := tone_scores lists ++ metric_scores tone_of rs;
     acceptance_criteria_scores :=
       acceptance_criteria_scores lists ++ metric_scores acceptance_of rs;
     format_scores := format_scores lists ++ metric_scores format_of rs;
     completeness_scores := completeness_scores lists ++ metric_scores completeness_of rs |}.

(** The examples the dataset store lists in a run of [evaluate_prompt]
    from the state [s], in the order of the dataset; none when the
    prompt cannot be pulled or the listing fails. *)
Definition listed_examples (prompt_name dataset_name : string) (client : Client)
    (s : ext) : list Example :=
  let o := run (pull_prompt_from_langsmith prompt_name) s in
  match value o with
  | Ok _ =>
      match list_examples client dataset_name (after o) with
      | (_, Ok examples, _) => examples
      | (_, Raise _, _) => []
      end
  | Raise _ => []
  end.

(** A score of the unit interval. *)
Definition in_unit (q : Q) : Prop := (0 <= q /\ q <= 1)%Q.


(** The largest value a sum of [k] scores of the unit interval reaches
    in binary64: from [2 ** 53] on, adding 1 changes nothing. *)
Definition cap (k : Z) : Q := inject_Z (Z.min k (2 ^ 53)).

(** The four evaluators of a world return scores of the unit
    interval. *)
Definition evaluators_in_unit : Prop :=
  forall (a b c : pyval) (s : ext),
    in_unit (score (fst (evaluate_tone_score a b c s)))
    /\ in_unit (score (fst (evaluate_acceptance_criteria_score a b c s)))
    /\ in_unit (score (fst (evaluate_user_story_format_score a b c s)))
    /\ in_unit (score (fst (evaluate_completeness_score a b c s))).

(** *** Verdict *)

(** Every aggregate score reaches the threshold. *)
Definition all_at_least_threshold (scores : AggregateScores) : Prop :=
  (0.9 <= tone scores /\ 0.9 <= acceptance_criteria scores
   /\ 0.9 <= format scores /\ 0.9 <= completeness scores)%Q.

(** The verdict [display_results] computes. *)
Definition verdict (scores : AggregateScores) : bool :=
  forallb (fun score => Qle_bool 0.9 score) (values scores).

(** *** Command-line driver *)

(** The variables the credential check of [main] is asked for. *)
Definition required_vars (env : gmap string string) : list string :=
  let provider := getenv_default env "LLM_PROVIDER" "openai" in
  let required_vars := ["LANGSMITH_API_KEY"; "LLM_PROVIDER"] in
  if String.eqb provider "openai" then required_vars ++ ["OPENAI_API_KEY"]
  else if existsb (String.eqb provider) ["google"; "gemini"]
       then required_vars ++ ["GOOGLE_API_KEY"]
       else required_vars.

Definition jsonl_path : string := "datasets/bug_to_user_story.jsonl".

Definition dataset_name_of (env : gmap string string) : string :=
  getenv_default env "LANGSMITH_PROJECT" "prompt-optimization-challenge-resolved"
  +:+ "-eval".

(** The line that shows the credential. *)
Definition key_line (key : string) : string := "a chave openai é  " +:+ key.

(** A run of [main] in which the set-up succeeds (the credential check
    passes, the dataset client is built, the dataset file is found) and
    the scores of the prompt all reach the threshold. *)
Inductive main_passes (env : gmap string string) (args : Args) (s : ext) : Prop :=
| setup_and_verdict_pass (out1 out2 out3 : list string) (s1 s2 s3 : ext)
    (client : Client) (scores : AggregateScores) :
    check_env_vars env (required_vars env) s = (out1, Ok true, s1) ->
    new_Client s1 = (out2, Ok client, s2) ->
    path_exists jsonl_path s2 = (out3, Ok true, s3) ->
    value (run (evaluate_prompt (arg_prompt args) (dataset_name_of env) client
                  (arg_max_examples args))
               (after (run (create_evaluation_dataset client (dataset_name_of env)
                              jsonl_path) s3)))
    = Ok scores ->
    all_at_least_threshold scores ->
    main_passes env args s.

(** *** Dataset Loader *)

(** The lines of a file every read of which succeeds. *)
Fixpoint read_all (f : list (result string)) : option (list string) :=
  match f with
  | [] => Some []
  | Raise _ :: _ => None
  | Ok line :: f' => cons line <$> read_all f'
  end.

(** The parsed objects of the lines, when every line parses. *)
Fixpoint parse_all (lines : list string) : option (list pyval) :=
  match lines with
  | [] => Some []
  | line :: lines' =>
      match json_loads (strip line) with
      | Ok example => cons example <$> parse_all lines'
      | Raise _ => None
      end
  end.

(** The examples of a file every read of which succeeds and every
    non-blank line of which parses. *)
Definition loaded (f : list (result string)) : option (list pyval) :=
  lines ← read_all f;
  parse_all (filter (fun line => is_blank line = false) lines).

(** The loader of the specification: the parsed objects of the
    non-blank lines, in file order, of a file that can be read and
    whose non-blank lines all parse; the empty sequence otherwise. *)
Definition load_dataset_reference (opened : result (list (result string))) : list pyval :=
  match opened with
  | Raise _ => []
  | Ok f =>
      match read_all f with
      | None => []
      | Some lines =>
          match parse_all (filter (fun line => is_blank line = false) lines) with
          | Some examples => examples
          | None => []
          end
      end
  end.

End RunReference.

(** *** Round trip of a prompt *)

Definition chat_role (role : string) : bool :=
  existsb (String.eqb role) ["system"; "human"; "ai"].

(** The role and the content a message of the YAML structure carries,
    when the role is [system], [human] or [ai] and the content is a
    string. *)
Definition role_content (msg : pyval) : option (string * string) :=
  match msg with
  | PyDict d =>
      match dict_lookup d "role", dict_lookup d "content" with
      | Some (PyStr role), Some (PyStr text) =>
          if chat_role role then Some (role, text) else None
      | _, _ => None
      end
  | _ => None
  end.

(** The role/content pairs of a prompt all of whose messages carry one
    of the three roles, in the order of the messages. *)
Definition chat_messages (prompt_data : list (string * pyval))
    : option (list (string * string)) :=
  match dict_lookup prompt_data "messages" with
  | Some (PyList msgs) => mapM role_content msgs
  | _ => None
  end.

(** The role/content dictionary of a pair. *)
Definition message_of_pair (pair : string * string) : pyval :=
  PyDict [("role", PyStr (fst pair)); ("content", PyStr (snd pair))].

(** *** Further reference definitions *)

(** The two fields [create_evaluation_dataset] reads from an example
    before it sends it. *)
Definition upload_fields (example : pyval) : result (pyval * pyval) :=
  inputs ← py_getitem example "inputs";
  outputs ← py_getitem example "outputs";
  Ok (inputs, outputs).

(** The diagnostic of the loader for an exception. *)
Definition loader_diagnostic (path : string) (e : exn) : list string :=
  match exn_cls e with
  | FileNotFoundError =>
      ["❌ Arquivo não encontrado: " +:+ path;
       nl +:+ "Certifique-se de que o arquivo datasets/bug_to_user_story.jsonl existe."]
  | JSONDecodeError => ["❌ Erro ao parsear JSONL: " +:+ exn_str e]
  | _ => ["❌ Erro ao carregar dataset: " +:+ exn_str e]
  end.

(** The shapes of [messages] on which [validate_prompt] returns: no
    entry, a list of well-formed messages, and the empty string or dict
    (which are iterated like an empty list). *)
Definition validation_returns (prompt_data : list (string * pyval)) : bool :=
  match dict_lookup prompt_data "messages" with
  | None => true
  | Some (PyList msgs) => forallb message_well_formed msgs
  | Some (PyStr s) => String.eqb s ""
  | Some (PyDict d) => match d with [] => true | _ => false end
  | Some _ => false
  end.

(** The pair the push builds from a message that is a dict: its role,
    [system] when it has none, and its content, empty when it has
    none. *)
Definition message_pair (msg : pyval) : option (pyval * pyval) :=
  match msg with
  | PyDict d => Some (dict_get d "role" (PyStr "system"), dict_get d "content" (PyStr ""))
  | _ => None
  end.

(** *** The push script *)

Section PushReference.
Import PushScript.
Context {H : Host}.

(** The test gate of the push lets the run through, leaving the state
    [s']: the tests are skipped, or the test runner returned with
    status 0. *)
Definition tests_pass (args : Args) (s s' : ext) : Prop :=
  if arg_skip_tests args then s' = s
  else exists out result,
    subprocess_run ["pytest"; "tests/test_prompts.py"; "-v"] s = (out, Ok result, s')
    /\ returncode result = 0%Z.

(** [main] comes to the validation with the prompt [d] loaded, in the
    state [s']: the banner is printed, the credential is there, the
    tests let the run through and the file holds a non-empty dict. *)
Definition reaches_validation (env : gmap string string) (args : Args) (s : ext)
    (d : list (string * pyval)) (s' : ext) : Prop :=
  exists out0 s0 out1 s1 s2 out3,
    print_section_header "Push de Prompts para LangSmith Hub" s = (out0, Ok tt, s0)
    /\ check_env_vars env ["LANGSMITH_API_KEY"] s0 = (out1, Ok true, s1)
    /\ tests_pass args s1 s2
    /\ load_yaml (arg_prompt_file args) s2 = (out3, Ok (PyDict d), s')
    /\ d <> [].

(** The name the prompt is pushed under: the one of the command line
    when it is given and not empty, the one derived from the file
    otherwise. *)
Definition chosen_name (env : gmap string string) (args : Args) : string :=
  match arg_prompt_name args with
  | Some name =>
      if String.eqb name "" then default_prompt_name env (arg_prompt_file args) else name
  | None => default_prompt_name env (arg_prompt_file args)
  end.

(** The description the push hands to the registry. *)
Definition description_of (prompt_data : list (string * pyval)) : pyval :=
  dict_get prompt_data "description" (PyStr "Prompt otimizado para Bug to User Story").

End PushReference.

(** No character of the string is [c]. *)
Fixpoint free_of (c : ascii) (s : string) : bool :=
  match s with
  | EmptyString => true
  | String c' s' => negb (Ascii.eqb c' c) && free_of c s'
  end.

(** *** The pull script *)

Section PullReference.
Import Langchain PullPrompts PullScript.
Context {H : Host}.

(** The file the pull writes: the last part of the name of the prompt,
    with the extension [.yml], in the output directory. *)
Definition saved_path (prompt_name output_dir : string) : string :=
  path_join output_dir (List.last (split "/" prompt_name) "" +:+ ".yml").

(** The pull goes through and leaves the state [s']: the banner is
    printed, the credential is there, the registry hands out the
    prompt, its messages are serialised and the file is written. *)
Definition pull_saves (env : gmap string string) (prompt_name output_dir : string)
    (s s' : ext) : Prop :=
  exists out0 s0 out1 s1 out2 p s2 prompt_dict out3,
    print_section_header "Pull de Prompts do LangSmith Hub" s = (out0, Ok tt, s0)
    /\ check_env_vars env ["LANGSMITH_API_KEY"] s0 = (out1, Ok true, s1)
    /\ hub_pull prompt_name s1 = (out2, Ok p, s2)
    /\ extract_prompt_dict prompt_name p = Ok prompt_dict
    /\ save_yaml prompt_dict (saved_path prompt_name output_dir) s2 = (out3, Ok true, s').

End PullReference.

(** The message has a [prompt] attribute. *)
Definition has_prompt (msg : Langchain.MessageTemplate) : bool :=
  match Langchain.prompt msg with Some _ => true | None => false end.

(** The messages of a prompt, none when it has no such attribute. *)
Definition templates_of (p : Langchain.Prompt) : list Langchain.MessageTemplate :=
  match Langchain.messages p with Some msgs => msgs | None => [] end.

End Reference.

(** * Concrete inputs

    Inputs on which the properties below are exercised. *)

Module Samples.

(** A prompt whose only message has a null content, as YAML gives for
    a [content:] key left empty. *)
Definition null_content_prompt : list (string * pyval) :=
  [("messages", PyList [PyDict [("role", PyStr "system"); ("content", PyNone)]])].

(** A prompt with a system message and two blank messages. *)
Definition two_blank_prompt : list (string * pyval) :=
  [("messages",
    PyList [PyDict [("role", PyStr "system"); ("content", PyStr "Be brief.")];
            PyDict [("role", PyStr "human"); ("content", PyStr "  ")];
            PyDict [("role", PyStr "ai")]])].

(** Two examples of the dataset: a bug report, and a record without
    the [bug_report] variable of the template. *)
Definition login_example : Example :=
  {| ex_inputs := Some (PyDict [("bug_report", PyStr "Login fails on submit")]);
     ex_outputs := Some (PyDict [("reference", PyStr "Como usuário, quero entrar.")]) |}.

Definition untitled_example : Example :=
  {| ex_inputs := Some (PyDict [("pr_title", PyStr "Fix export")]);
     ex_outputs := None |}.

Definition sample_examples : list Example := [login_example; untitled_example].

(** A dataset file of three lines, one of them blank. *)
Definition sample_file : list (result string) :=
  [Ok ("{1}" +:+ nl); Ok ("  " +:+ nl); Ok "{2}"].

(** A file whose second line is not JSON. *)
Definition broken_file : list (result string) :=
  [Ok ("{1}" +:+ nl); Ok "oops"].

(** The no-break space U+00A0, in UTF-8. *)
Definition no_break_space : string :=
  String (ascii_of_nat 194) (String (ascii_of_nat 160) EmptyString).

(** A file whose second line holds a no-break space only. *)
Definition spaced_file : list (result string) :=
  [Ok ("{1}" +:+ nl); Ok (no_break_space +:+ nl); Ok "{2}"].

(** A prompt whose system message is a no-break space. *)
Definition no_break_space_prompt : list (string * pyval) :=
  [("messages", PyList [PyDict [("role", PyStr "system");
                                ("content", PyStr no_break_space)]])].

(** A score with two decimal digits. *)
Definition two_decimals (q : Q) : string :=
  let n := round_half_even (q * 100) in
  (if (n <? 0)%Z then "-" else "")
  +:+ pretty (Z.abs n / 100)%Z +:+ "."
  +:+ pretty (Z.abs n / 10 mod 10)%Z +:+ pretty (Z.abs n mod 10)%Z.

(** A small world: the registry knows every prompt but
    [nobody/missing]; the model answers a bug report and fails on inputs
    without one; the state counts the answers given so far. *)
Definition sample_world : Evaluate.World :=
  {| Evaluate.ext := nat;
     Evaluate.Client := unit;
     Evaluate.ChatPromptTemplate := string;
     Evaluate.LLM := unit;
     Evaluate.Chain := string;
     Evaluate.Response := pyval;
     Evaluate.check_env_vars env required s :=
       let missing := filter (fun k => env !! k = None) required in
       (map (fun k => "Missing: " +:+ k) missing,
        Ok (match missing with [] => true | _ => false end), s);
     Evaluate.get_configured_llm _ s := ([], Ok tt, s);
     Evaluate.evaluate_tone_score _ _ _ s := ({| Evaluate.score := round64 0.95 |}, s);
     Evaluate.evaluate_acceptance_criteria_score _ _ _ s :=
       ({| Evaluate.score := round64 0.9 |}, s);
     Evaluate.evaluate_user_story_format_score _ _ _ s :=
       ({| Evaluate.score := 1 |}, s);
     Evaluate.evaluate_completeness_score _ _ _ s :=
       ({| Evaluate.score := round64 0.92 |}, s);
     Evaluate.hub_pull name s :=
       if String.eqb name "nobody/missing"
       then ([], Raise (Exn OtherError "404 Not Found"), s)
       else ([], Ok name, s);
     Evaluate.pipe prompt_template _ := Ok prompt_template;
     Evaluate.invoke _ inputs s :=
       match inputs with
       | PyDict d =>
           match dict_lookup d "bug_report" with
           | Some (PyStr report) => ([], Ok (PyStr ("Como usuário: " +:+ report)), S s)
           | _ => ([], Raise (Exn KeyError "'bug_report'"), s)
           end
       | _ => ([], Raise (Exn TypeError "Expected mapping type as input"), s)
       end;
     Evaluate.content response := Ok response;
     Evaluate.new_Client s := ([], Ok tt, s);
     Evaluate.list_datasets _ _ s := ([], Ok [], s);
     Evaluate.create_dataset _ name s :=
       ([], Ok {| Evaluate.ds_name := name; Evaluate.ds_id := "ds-1" |}, s);
     Evaluate.create_example _ _ _ _ s := ([], Ok tt, s);
     Evaluate.list_examples _ dataset_name s :=
       if String.eqb dataset_name "unanswered"
       then ([], Ok [untitled_example; untitled_example], s)
       else ([], Ok sample_examples, s);
     Evaluate.open_lines path s :=
       if String.eqb path "datasets/bug_to_user_story.jsonl"
       then ([], Ok sample_file, s)
       else if String.eqb path "datasets/broken.jsonl"
       then ([], Ok broken_file, s)
       else if String.eqb path "datasets/spaced.jsonl"
       then ([], Ok spaced_file, s)
       else ([], Raise (Exn FileNotFoundError ("No such file or directory: " +:+ path)), s);
     Evaluate.path_exists path s :=
       ([], Ok (String.eqb path "datasets/bug_to_user_story.jsonl"), s);
     Evaluate.json_loads line :=
       if String.eqb line "{1}" then Ok (PyDict [("inputs", PyDict []); ("outputs", PyDict [])])
       else if String.eqb line "{2}" then Ok (PyDict [("inputs", PyDict [])])
       else Raise (Exn JSONDecodeError "Expecting value: line 1 column 1 (char 0)");
     Evaluate.format_exc e := "Traceback (most recent call last): " +:+ exn_str e;
     Evaluate.format_2f := two_decimals |}.

(** A process environment with the three variables of the OpenAI
    provider; [key] is the credential. *)
Definition sample_env (key : string) : gmap string string :=
  <["OPENAI_API_KEY" := key]>
    (<["LANGSMITH_API_KEY" := "ls-key"]> (<["LLM_PROVIDER" := "openai"]> ∅)).

Definition sample_args : Evaluate.Args :=
  {| Evaluate.arg_prompt := "me/prompt"; Evaluate.arg_max_examples := 10 |}.

(** A library that knows the three roles and refuses anything else. *)
Definition sample_message (pair : pyval * pyval) : result Langchain.MessageTemplate :=
  match pair with
  | (PyStr role, PyStr text) =>
      match Langchain.role_class role with
      | Some cls =>
          Ok {| Langchain.class_name := cls;
                Langchain.prompt := Some {| Langchain.template := Some text |};
                Langchain.as_str := text |}
      | None => Raise (Exn OtherError ("Unexpected message type: " +:+ role))
      end
  | _ => Raise (Exn OtherError "Unsupported message")
  end.

Fixpoint sample_messages (pairs : list (pyval * pyval))
    : result (list Langchain.MessageTemplate) :=
  match pairs with
  | [] => Ok []
  | item :: rest =>
      msg ← sample_message item;
      msgs ← sample_messages rest;
      Ok (msg :: msgs)
  end.

Definition sample_library : Langchain.Library :=
  {| Langchain.from_messages pairs :=
       msgs ← sample_messages pairs;
       Ok {| Langchain.messages := Some msgs |} |}.

(** A prompt of three messages, one for each role. *)
Definition sample_prompt : list (string * pyval) :=
  [("description", PyStr "Bug to user story");
   ("messages",
    PyList [PyDict [("role", PyStr "system"); ("content", PyStr "Você é um PM.")];
            PyDict [("role", PyStr "human"); ("content", PyStr "{bug_report}")];
            PyDict [("role", PyStr "ai"); ("content", PyStr "Como usuário...")]])].

Definition sample_pairs : list (string * string) :=
  [("system", "Você é um PM."); ("human", "{bug_report}"); ("ai", "Como usuário...")].

(** The sample world with other answers of its services: the datasets
    the store lists, the outcome of listing the examples, the outcome of
    building the client, and whether the dataset file is there.  The
    state counts the examples sent to the store. *)
Definition store_world (datasets : list Evaluate.Dataset)
    (examples : result (list Example)) (client : result unit) (file_found : bool)
    : Evaluate.World :=
  {| Evaluate.ext := nat;
     Evaluate.Client := unit;
     Evaluate.ChatPromptTemplate := string;
     Evaluate.LLM := unit;
     Evaluate.Chain := string;
     Evaluate.Response := pyval;
     Evaluate.check_env_vars := @Evaluate.check_env_vars sample_world;
     Evaluate.get_configured_llm := @Evaluate.get_configured_llm sample_world;
     Evaluate.evaluate_tone_score := @Evaluate.evaluate_tone_score sample_world;
     Evaluate.evaluate_acceptance_criteria_score :=
       @Evaluate.evaluate_acceptance_criteria_score sample_world;
     Evaluate.evaluate_user_story_format_score :=
       @Evaluate.evaluate_user_story_format_score sample_world;
     Evaluate.evaluate_completeness_score :=
       @Evaluate.evaluate_completeness_score sample_world;
     Evaluate.hub_pull := @Evaluate.hub_pull sample_world;
     Evaluate.pipe := @Evaluate.pipe sample_world;
     Evaluate.invoke := @Evaluate.invoke sample_world;
     Evaluate.content := @Evaluate.content sample_world;
     Evaluate.new_Client s := ([], client, s);
     Evaluate.list_datasets _ _ s := ([], Ok datasets, s);
     Evaluate.create_dataset := @Evaluate.create_dataset sample_world;
     Evaluate.create_example _ _ _ _ s := ([], Ok tt, S s);
     Evaluate.list_examples _ _ s := ([], examples, s);
     Evaluate.open_lines := @Evaluate.open_lines sample_world;
     Evaluate.path_exists _ s := ([], Ok file_found, s);
     Evaluate.json_loads := @Evaluate.json_loads sample_world;
     Evaluate.format_exc := @Evaluate.format_exc sample_world;
     Evaluate.format_2f := @Evaluate.format_2f sample_world |}.

(** A host of the push script: the registry is a store of named
    prompts, the test runner ends with [tests] and the prompt file
    holds [file]. *)
Definition push_host (tests : PushScript.CompletedProcess) (file : pyval)
    : PushScript.Host :=
  {| PushScript.ext := gmap string Langchain.Prompt;
     PushScript.print_section_header title s := ([title], Ok tt, s);
     PushScript.check_env_vars env required s :=
       let missing := filter (fun k => env !! k = None) required in
       (map (fun k => "Missing: " +:+ k) missing,
        Ok (match missing with [] => true | _ => false end), s);
     PushScript.load_yaml _ s := ([], Ok file, s);
     PushScript.hub_push name p _ _ s := ([], Ok tt, Langchain.hub_push name p s);
     PushScript.subprocess_run _ s := ([], Ok tests, s);
     PushScript.repr v := "<" +:+ type_name v +:+ ">" |}.

Definition passed_tests : PushScript.CompletedProcess :=
  {| PushScript.returncode := 0; PushScript.proc_stdout := "6 passed";
     PushScript.proc_stderr := "" |}.

Definition failed_tests : PushScript.CompletedProcess :=
  {| PushScript.returncode := 1; PushScript.proc_stdout := "1 failed, 5 passed";
     PushScript.proc_stderr := "" |}.

Definition push_args : PushScript.Args :=
  {| PushScript.arg_prompt_file := "prompts/bug_to_user_story_v2.yml";
     PushScript.arg_prompt_name := None;
     PushScript.arg_skip_tests := false |}.

(** The sample prompt with its techniques left empty in the YAML file. *)
Definition null_labels_prompt : list (string * pyval) :=
  ("techniques_applied", PyNone) :: sample_prompt.

(** A host of the pull script: the registry holds [hub], the state is
    the set of files written so far, and [writable] tells whether
    [save_yaml] succeeds. *)
Definition pull_host (hub : gmap string Langchain.Prompt) (writable : bool)
    : PullScript.Host :=
  {| PullScript.ext := gmap string pyval;
     PullScript.print_section_header title s := ([title], Ok tt, s);
     PullScript.check_env_vars env required s :=
       let missing := filter (fun k => env !! k = None) required in
       (map (fun k => "Missing: " +:+ k) missing,
        Ok (match missing with [] => true | _ => false end), s);
     PullScript.save_yaml prompt_dict path s :=
       ([], Ok writable, if writable then <[path := prompt_dict]> s else s);
     PullScript.hub_pull name s := ([], Langchain.hub_pull name hub, s);
     PullScript.path_join directory name := directory +:+ "/" +:+ name;
     PullScript.is_import_error _ := false;
     PullScript.repr v := "<" +:+ type_name v +:+ ">" |}.

(** A registry with one prompt of two messages. *)
Definition stored_prompt : Langchain.Prompt :=
  {| Langchain.messages :=
       Some [ {| Langchain.class_name := "SystemMessagePromptTemplate";
                 Langchain.prompt := Some {| Langchain.template := Some "Você é um PM." |};
                 Langchain.as_str := "Você é um PM." |};
              {| Langchain.class_name := "HumanMessagePromptTemplate";
                 Langchain.prompt := Some {| Langchain.template := Some "{bug_report}" |};
                 Langchain.as_str := "{bug_report}" |} ] |}.

Definition sample_hub : gmap string Langchain.Prompt :=
  <["leonanluppi/bug_to_user_story_v1" := stored_prompt]> ∅.

Definition pull_args : PullScript.Args :=
  {| PullScript.arg_prompt := "leonanluppi/bug_to_user_story_v1";
     PullScript.arg_output_dir := "prompts" |}.

End Samples.
Import Samples.

(** * Properties *)

(** ** Strings *)

Section Strings.

Lemma lstrip_blank (s : string) : is_blank s = true -> lstrip s = "".
Proof.
  assert (H : forall n s, (String.length s <= n)%nat -> is_blank s = true -> lstrip s = "").
  { clear s. induction n as [|n IH]; intros s Hlen.
    - destruct s; [reflexivity | cbn in Hlen; lia].
    - destruct s as [|c1 s1]; [reflexivity|]. cbn [String.length] in Hlen.
      cbn [is_blank lstrip]. destruct (is_space c1); [apply IH; lia|].
      destruct s1 as [|c2 s2]; [discriminate|]. cbn [String.length] in Hlen.
      destruct (is_space2 c1 c2); [apply IH; lia|].
      destruct s2 as [|c3 s3]; [discriminate|]. cbn [String.length] in Hlen.
      destruct (is_space3 c1 c2 c3); [apply IH; lia | discriminate]. }
  apply (H (String.length s)). lia.
Qed.

Lemma is_blank_lstrip (s : string) : is_blank (lstrip s) = is_blank s.
Proof.
  assert (H : forall n s, (String.length s <= n)%nat -> is_blank (lstrip s) = is_blank s).
  { clear s. induction n as [|n IH]; intros s Hlen.
    - destruct s; [reflexivity | cbn in Hlen; lia].
    - destruct s as [|c1 s1]; [reflexivity|]. cbn [String.length] in Hlen.
      cbn [lstrip]. destruct (is_space c1) eqn:H1.
      { rewrite IH by lia. cbn [is_blank]. rewrite H1. reflexivity. }
      destruct s1 as [|c2 s2]; [reflexivity|]. cbn [String.length] in Hlen.
      destruct (is_space2 c1 c2) eqn:H2.
      { rewrite IH by lia. cbn [is_blank]. rewrite H1, H2. reflexivity. }
      destruct s2 as [|c3 s3]; [reflexivity|]. cbn [String.length] in Hlen.
      destruct (is_space3 c1 c2 c3) eqn:H3.
      { rewrite IH by lia. cbn [is_blank]. rewrite H1, H2, H3. reflexivity. }
      reflexivity. }
  apply (H (String.length s)). lia.
Qed.

Lemma rstrip_empty (s : string) : rstrip s = "" <-> is_blank s = true.
Proof.
  destruct s as [|c s]; [split; reflexivity|].
  cbn [rstrip]. destruct (is_blank (String c s)); split; try reflexivity; discriminate.
Qed.

(** A string that is not empty has a first character. *)
Lemma chars_cons (c : ascii) (s : string) :
  exists first rest, chars (String c s) = first :: rest.
Proof.
  cbn [chars]. destruct (chars s) as [|first rest]; [eauto|].
  destruct s as [|c' s']; [eauto|]. destruct (is_continuation c'); eauto.
Qed.

(** Stripping leaves nothing exactly when the string is blank. *)
Lemma strip_empty (s : string) : strip s = "" <-> is_blank s = true.
Proof.
  unfold strip. rewrite rstrip_empty, is_blank_lstrip. reflexivity.
Qed.

Lemma strip_eqb_blank (s : string) : String.eqb (strip s) "" = is_blank s.
Proof.
  destruct (is_blank s) eqn:Hb.
  - apply String.eqb_eq, strip_empty, Hb.
  - apply String.eqb_neq. intros H. apply strip_empty in H. congruence.
Qed.

End Strings.

(** ** Prompt validation *)

Section Validation.
Import PushPrompts Reference.

Lemma any_system_well_formed (msgs : list pyval) :
  forallb message_well_formed msgs = true ->
  any_system msgs = Ok (existsb has_system_role msgs).
Proof.
  induction msgs as [|msg rest IH]; simpl; [reflexivity|].
  intros H. apply andb_true_iff in H as [Hm Hrest].
  destruct msg; try discriminate. simpl.
  destruct (py_eq_str (dict_get d "role" PyNone) "system"); [reflexivity|].
  simpl. auto.
Qed.

Lemma check_contents_well_formed (msgs : list pyval) (i : nat) (errors : list string) :
  forallb message_well_formed msgs = true ->
  check_contents i msgs errors = Ok (errors ++ blank_diagnostics i msgs).
Proof.
  revert i errors.
  induction msgs as [|msg rest IH]; intros i errors; simpl.
  - rewrite app_nil_r. reflexivity.
  - intros H. apply andb_true_iff in H as [Hm Hrest].
    destruct msg; try discriminate. simpl in *.
    unfold dict_get.
    destruct (dict_lookup d "content") as [v|] eqn:Hc.
    + destruct v; try discriminate. simpl.
      rewrite strip_eqb_blank, negb_involutive.
      destruct (is_blank s); rewrite IH by assumption.
      * rewrite <- app_assoc. reflexivity.
      * reflexivity.
    + simpl. rewrite IH by assumption. rewrite <- app_assoc. reflexivity.
Qed.

Lemma blank_diagnostics_nil (msgs : list pyval) (i : nat) :
  blank_diagnostics i msgs = [] <->
  forallb (fun msg => negb (content_blank msg)) msgs = true.
Proof.
  revert i. induction msgs as [|msg rest IH]; intros i; simpl; [tauto|].
  destruct (content_blank msg); simpl.
  - split; discriminate.
  - apply IH.
Qed.

(** C10, as stated, fails: on a prompt dictionary whose message content
    is not a string, [validate_prompt] returns no pair at all, it raises
    [AttributeError] from [.strip()]. *)
Lemma validate_prompt_raises_on_null_content :
  prompt_well_formed null_content_prompt = false /\
  validate_prompt null_content_prompt
    = Raise (Exn AttributeError "'NoneType' object has no attribute 'strip'") /\
  ~ exists verdict, validate_prompt null_content_prompt = Ok verdict.
Proof.
  split; [reflexivity|]. split; [reflexivity|].
  intros [verdict H]. vm_compute in H. discriminate.
Qed.

(** C10, amended: on every prompt dictionary whose [messages], when
    present, is a list of dicts with string contents, [validate_prompt]
    returns without raising; it returns [(True, [])] exactly when the
    message list is non-empty, some message has the role [system] and no
    content is blank; otherwise it returns [False] with a non-empty list
    that holds the no-messages diagnostic, the no-system diagnostic and
    one diagnostic for each blank message, in that order. *)
Theorem validate_prompt_well_formed (prompt_data : list (string * pyval)) :
  prompt_well_formed prompt_data = true ->
  validate_prompt prompt_data = Ok (prompt_valid prompt_data, diagnostics prompt_data)
  /\ (prompt_valid prompt_data = true <-> diagnostics prompt_data = [])
  /\ (prompt_valid prompt_data = false <-> diagnostics prompt_data <> []).
Proof.
  intros Hwf.
  assert (Hiff : prompt_valid prompt_data = true <-> diagnostics prompt_data = []).
  { unfold prompt_valid, diagnostics.
    destruct (messages_of prompt_data) as [|msg rest] eqn:Hm.
    - simpl. split; discriminate.
    - cbn [app]. rewrite andb_true_l.
      destruct (existsb has_system_role (msg :: rest)).
      + cbn [app]. rewrite andb_true_l. symmetry. apply blank_diagnostics_nil.
      + simpl. split; discriminate. }
  split; [|split; [exact Hiff|]].
  - assert (Hmsgs : dict_get prompt_data "messages" (PyList [])
                    = PyList (messages_of prompt_data)
                    /\ forallb message_well_formed (messages_of prompt_data) = true).
    { unfold prompt_well_formed in Hwf. unfold messages_of, dict_get.
      destruct (dict_lookup prompt_data "messages") as [v|]; [|split; reflexivity].
      destruct v; try discriminate. split; [reflexivity | exact Hwf]. }
    destruct Hmsgs as [Hget Hall].
    unfold validate_prompt. rewrite Hget. cbn [py_iter mbind result_bind].
    rewrite (any_system_well_formed _ Hall). cbn [mbind result_bind].
    rewrite (check_contents_well_formed _ _ _ Hall). cbn [mbind result_bind].
    assert (Herrs :
      ((if negb (existsb has_system_role (messages_of prompt_data))
        then (if negb (truthy (PyList (messages_of prompt_data)))
              then [] ++ ["Prompt não contém mensagens"] else [])
             ++ ["Prompt não contém system prompt"]
        else (if negb (truthy (PyList (messages_of prompt_data)))
              then [] ++ ["Prompt não contém mensagens"] else []))
       ++ blank_diagnostics 0 (messages_of prompt_data))
      = diagnostics prompt_data).
    { unfold diagnostics.
      destruct (messages_of prompt_data) as [|msg rest]; simpl;
        [reflexivity|].
      destruct (has_system_role msg || existsb has_system_role rest); reflexivity. }
    rewrite Herrs. f_equal. f_equal.
    destruct (diagnostics prompt_data) eqn:Hd; simpl.
    + symmetry. apply Hiff. reflexivity.
    + destruct (prompt_valid prompt_data) eqn:Hv; [|reflexivity].
      destruct Hiff as [Hiff _]. specialize (Hiff eq_refl). discriminate.
  - destruct (prompt_valid prompt_data); split; intros H; try congruence.
    + exfalso. apply H. apply Hiff. reflexivity.
    + intros Hd. apply Hiff in Hd. discriminate.
Qed.

Lemma validate_prompt_well_formed_witness :
  validate_prompt two_blank_prompt
    = Ok (false, ["Mensagem 1 está vazia"; "Mensagem 2 está vazia"])
  /\ (prompt_valid two_blank_prompt = true <-> diagnostics two_blank_prompt = [])
  /\ (prompt_valid two_blank_prompt = false <-> diagnostics two_blank_prompt <> []).
Proof.
  apply (validate_prompt_well_formed two_blank_prompt). reflexivity.
Defined.

End Validation.

(** ** The effect layer *)

Section IOFacts.
Context {S : Type}.

Lemma run_bind {A B} (m : IO S A) (f : A -> IO S B) (s : S) :
  run (m ≫= f) s =
  match value (run m s) with
  | Raise e => Outcome (trace (run m s)) (Raise e) (after (run m s))
  | Ok a =>
      Outcome (trace (run m s) ++ trace (run (f a) (after (run m s))))
              (value (run (f a) (after (run m s))))
              (after (run (f a) (after (run m s))))
  end.
Proof. reflexivity. Qed.

Lemma run_print_then {B} (line : string) (k : IO S B) (s : S) :
  run (print line;; k) s =
  Outcome (Printed line :: trace (run k s)) (value (run k s)) (after (run k s)).
Proof. reflexivity. Qed.

Lemma value_bind {A B} (m : IO S A) (f : A -> IO S B) (s : S) :
  value (run (m ≫= f) s) =
  match value (run m s) with
  | Raise e => Raise e
  | Ok a => value (run (f a) (after (run m s)))
  end.
Proof. rewrite run_bind. destruct (value (run m s)); reflexivity. Qed.

Lemma value_print_then {B} (line : string) (k : IO S B) (s : S) :
  value (run (print line;; k) s) = value (run k s).
Proof. reflexivity. Qed.

Lemma value_external_bind {A B} (f : S -> list string * result A * S)
    (k : A -> IO S B) (s : S) :
  value (run (external f ≫= k) s) =
  match f s with
  | (_, Raise e, _) => Raise e
  | (_, Ok a, s') => value (run (k a) s')
  end.
Proof.
  rewrite value_bind. cbn [external run].
  destruct (f s) as [[out [e|a]] s']; reflexivity.
Qed.

Lemma run_try_ok {A} (body : IO S A) (handler : exn -> IO S A) (s : S) (a : A) :
  value (run body s) = Ok a -> run (try_except body handler) s = run body s.
Proof. intros H. unfold try_except. cbn [run]. rewrite H. reflexivity. Qed.

Lemma run_try_raise {A} (body : IO S A) (handler : exn -> IO S A) (s : S) (e : exn) :
  value (run body s) = Raise e ->
  run (try_except body handler) s =
  Outcome (trace (run body s) ++ trace (run (handler e) (after (run body s))))
          (value (run (handler e) (after (run body s))))
          (after (run (handler e) (after (run body s)))).
Proof. intros H. unfold try_except. cbn [run]. rewrite H. reflexivity. Qed.

(** A handler that returns makes the whole [try] return. *)
Lemma try_except_returns {A} (body : IO S A) (handler : exn -> IO S A) (s : S) :
  (forall e s', exists a, value (run (handler e) s') = Ok a) ->
  exists a, value (run (try_except body handler) s) = Ok a.
Proof.
  intros Hh. destruct (value (run body s)) as [e|a] eqn:Hb.
  - rewrite (run_try_raise _ _ _ _ Hb). cbn [value]. apply Hh.
  - rewrite (run_try_ok _ _ _ _ Hb). eauto.
Qed.

Lemma stdout_app (t1 t2 : list event) : stdout (t1 ++ t2) = stdout t1 ++ stdout t2.
Proof.
  induction t1 as [|[line|example] t1 IH]; simpl; [reflexivity | rewrite IH; reflexivity | exact IH].
Qed.

Lemma runner_calls_app (t1 t2 : list event) :
  runner_calls (t1 ++ t2) = runner_calls t1 ++ runner_calls t2.
Proof.
  induction t1 as [|[line|example] t1 IH]; simpl; [reflexivity | exact IH | rewrite IH; reflexivity].
Qed.

Lemma runner_calls_printed (out : list string) : runner_calls (map Printed out) = [].
Proof. induction out; simpl; auto. Qed.

Lemma stdout_printed (out : list string) : stdout (map Printed out) = out.
Proof. induction out; simpl; congruence. Qed.

End IOFacts.

(** ** The Example Runner *)

Section Runner.
Import Evaluate Reference.
Context {W : World}.

(** The runner never lets an exception out. *)
Lemma evaluate_prompt_on_example_returns (prompt_template : ChatPromptTemplate)
    (example : Example) (llm : LLM) (s : ext) :
  exists r, value (run (evaluate_prompt_on_example prompt_template example llm) s) = Ok r.
Proof.
  unfold evaluate_prompt_on_example.
  rewrite run_bind. cbn [enter_runner run value after trace].
  cbn [value].
  apply try_except_returns. intros e s'. eexists. reflexivity.
Qed.

(** C5: when the steps of the runner succeed, the question of the
    result is the value found by probing [inputs] for [question], then
    [bug_report], then [pr_title], and the sentinel [N/A] when none is
    present or [inputs] is not a mapping; the reference is
    [outputs["reference"]], and the empty string when [outputs] is not a
    mapping or lacks the key. *)
Theorem evaluate_prompt_on_example_fields (prompt_template : ChatPromptTemplate)
    (example : Example) (llm : LLM) (s s' : ext) (chain : Chain)
    (out : list string) (response : Response) (text : pyval) :
  pipe prompt_template llm = Ok chain ->
  invoke chain (inputs_of example) s = (out, Ok response, s') ->
  content response = Ok text ->
  value (run (evaluate_prompt_on_example prompt_template example llm) s)
  = Ok {| answer := text;
          reference := derived_reference (outputs_of example);
          question := derived_question (inputs_of example) |}.
Proof.
  intros Hpipe Hinvoke Hcontent.
  unfold evaluate_prompt_on_example, inputs_of, outputs_of in *.
  io_step. rewrite Hpipe. io_step. rewrite Hinvoke. io_step.
  rewrite Hcontent. io_step.
  reflexivity.
Qed.

(** The outcome of the runner when one of its steps fails. *)
Lemma evaluate_prompt_on_example_failure (prompt_template : ChatPromptTemplate)
    (example : Example) (llm : LLM) (s : ext) :
  runner_fails prompt_template example llm s ->
  value (run (evaluate_prompt_on_example prompt_template example llm) s) = Ok empty_result.
Proof.
  unfold evaluate_prompt_on_example.
  intros [e Hpipe | chain out e s' Hpipe Hinvoke
         | chain out response e s' Hpipe Hinvoke Hcontent];
    unfold inputs_of in *; io_step; rewrite Hpipe; io_step;
    try (rewrite Hinvoke; io_step); try (rewrite Hcontent; io_step);
    reflexivity.
Qed.

End Runner.
(** ** Rounding to four decimal digits *)

Section Rounding.
Import Reference.
#[local] Open Scope Q_scope.

Lemma round_half_even_nearest (q : Q) :
  (Qabs (inject_Z (round_half_even q) - q) <= 1 # 2)%Q.
Proof.
  unfold round_half_even.
  assert (Hlo := Qfloor_le q). assert (Hhi := Qlt_floor q).
  rewrite inject_Z_plus in Hhi. change (inject_Z 1) with 1%Q in Hhi.
  apply Qabs_Qle_condition.
  destruct (Qcompare_spec (q - inject_Z (Qfloor q)) (1 # 2)) as [Heq|Hlt|Hgt].
  - destruct (Z.even (Qfloor q)); rewrite ?inject_Z_plus;
      change (inject_Z 1) with 1%Q; split; lra.
  - split; lra.
  - rewrite inject_Z_plus. change (inject_Z 1) with 1%Q. split; lra.
Qed.

Lemma round_half_even_comp (q q' : Q) : (q == q')%Q -> round_half_even q = round_half_even q'.
Proof.
  intros H. unfold round_half_even.
  rewrite (Qfloor_comp _ _ H).
  assert (Hc : ((q - inject_Z (Qfloor q')) ?= 1 # 2)%Q = ((q' - inject_Z (Qfloor q')) ?= 1 # 2)%Q).
  { apply Qcompare_comp; [rewrite H|]; reflexivity. }
  rewrite Hc. reflexivity.
Qed.

(** Rounding to the nearest integer keeps the order. *)
Lemma round_half_even_le (x y : Q) :
  (x <= y)%Q -> (round_half_even x <= round_half_even y)%Z.
Proof.
  intros Hxy.
  destruct (Z_le_gt_dec (round_half_even x) (round_half_even y)) as [Hle|Hgt]; [exact Hle|].
  exfalso.
  assert (Hx := round_half_even_nearest x). assert (Hy := round_half_even_nearest y).
  apply Qabs_Qle_condition in Hx. apply Qabs_Qle_condition in Hy.
  assert (Hstep : (inject_Z (round_half_even y) + 1 <= inject_Z (round_half_even x))%Q).
  { change 1%Q with (inject_Z 1). rewrite <- inject_Z_plus, <- Zle_Qle. lia. }
  destruct Hx as [Hx1 Hx2]. destruct Hy as [Hy1 Hy2].
  assert (Heq : (x == y)%Q) by (apply Qle_antisym; lra).
  rewrite (round_half_even_comp x y Heq) in Hgt. lia.
Qed.

Lemma round_half_even_int (n : Z) : round_half_even (inject_Z n) = n.
Proof.
  unfold round_half_even. rewrite Qfloor_Z.
  assert (H : (inject_Z n - inject_Z n ?= 1 # 2)%Q = Lt).
  { apply (proj1 (Qlt_alt _ _)). lra. }
  rewrite H. reflexivity.
Qed.

(** *** Powers of two *)

Lemma pow2_pos (e : Z) : (0 < pow2 e)%Q.
Proof. apply Qpower_0_lt. reflexivity. Qed.

Lemma pow2_plus (a b : Z) : (pow2 (a + b) == pow2 a * pow2 b)%Q.
Proof. apply Qpower_plus. discriminate. Qed.

Lemma pow2_le (a b : Z) : (a <= b)%Z -> (pow2 a <= pow2 b)%Q.
Proof. intros H. apply Qpower_le_compat_l; [exact H | discriminate]. Qed.

Lemma pow2_lt_inv (a b : Z) : (pow2 a < pow2 b)%Q -> (a < b)%Z.
Proof. intros H. apply (Qpower_lt_compat_l_inv 2); [exact H | reflexivity]. Qed.

Lemma pow2_succ (a : Z) : (pow2 (a + 1) == 2 * pow2 a)%Q.
Proof. rewrite pow2_plus. change (pow2 1) with 2%Q. ring. Qed.

Lemma pow2_Z (n : Z) : (0 <= n)%Z -> (inject_Z (2 ^ n) == pow2 n)%Q.
Proof. intros H. apply Zpower_Qpower. exact H. Qed.

Lemma pow2_minus (a b : Z) : (pow2 (a - b) == pow2 a / pow2 b)%Q.
Proof. apply Qpower_minus. discriminate. Qed.

(** *** The binary logarithm *)

Lemma ilog2_spec (q : Q) :
  ~ (q == 0)%Q -> (pow2 (ilog2 q) <= Qabs q /\ Qabs q < pow2 (ilog2 q + 1))%Q.
Proof.
  intros Hq. unfold ilog2.
  set (a := Z.abs (Qnum q)). set (b := Zpos (Qden q)).
  assert (Ha : (0 < a)%Z).
  { unfold a. assert (Qnum q <> 0)%Z; [|lia].
    intros H0. apply Hq. unfold Qeq. rewrite H0. reflexivity. }
  assert (Hb : (0 < b)%Z) by (unfold b; lia).
  assert (Hqab : (Qabs q == inject_Z a / inject_Z b)%Q).
  { destruct q as [n m]. unfold a, b. cbn [Qabs Qnum Qden]. apply Qmake_Qdiv. }
  destruct (Z.log2_spec a Ha) as [Ha1 Ha2]. destruct (Z.log2_spec b Hb) as [Hb1 Hb2].
  assert (Hla := Z.log2_nonneg a). assert (Hlb := Z.log2_nonneg b).
  set (la := Z.log2 a) in *. set (lb := Z.log2 b) in *.
  rewrite Zle_Qle in Ha1, Hb1. rewrite Zlt_Qlt in Ha2, Hb2.
  rewrite pow2_Z in Ha1, Hb1 by lia.
  rewrite pow2_Z in Ha2, Hb2 by lia.
  unfold Z.succ in Ha2, Hb2. rewrite pow2_succ in Ha2, Hb2.
  assert (Hpa := pow2_pos la). assert (Hpb := pow2_pos lb).
  assert (Hbq : (0 < inject_Z b)%Q) by (change 0%Q with (inject_Z 0); rewrite <- Zlt_Qlt; exact Hb).
  set (X := Qabs q) in *.
  assert (HX : (X * inject_Z b == inject_Z a)%Q) by (rewrite Hqab; field; lra).
  assert (HX0 : (0 <= X)%Q) by apply Qabs_nonneg.
  assert (HY : (pow2 (la - lb) * pow2 lb == pow2 la)%Q).
  { rewrite <- pow2_plus. replace (la - lb + lb)%Z with la by lia. reflexivity. }
  assert (HYpos := pow2_pos (la - lb)).
  destruct (Qle_bool (pow2 (la - lb)) X) eqn:Htest.
  - apply Qle_bool_iff in Htest. split; [exact Htest|].
    rewrite pow2_succ. set (Y := pow2 (la - lb)) in *.
    set (A := inject_Z a) in *. set (B := inject_Z b) in *.
    set (PA := pow2 la) in *. set (PB := pow2 lb) in *.
    nra.
  - assert (Hlt : (X < pow2 (la - lb))%Q).
    { apply Qnot_le_lt. intros Hle. apply Qle_bool_iff in Hle. congruence. }
    replace (la - lb - 1 + 1)%Z with (la - lb)%Z by lia. split; [|exact Hlt].
    assert (Hhalf : (2 * pow2 (la - lb - 1) == pow2 (la - lb))%Q).
    { rewrite <- pow2_succ. replace (la - lb - 1 + 1)%Z with (la - lb)%Z by lia. reflexivity. }
    set (Y := pow2 (la - lb)) in *. set (Z' := pow2 (la - lb - 1)) in *.
    set (A := inject_Z a) in *. set (B := inject_Z b) in *.
    set (PA := pow2 la) in *. set (PB := pow2 lb) in *.
    nra.
Qed.



Lemma ilog2_le (x y : Q) : (0 < x)%Q -> (x <= y)%Q -> (ilog2 x <= ilog2 y)%Z.
Proof.
  intros Hx Hxy.
  assert (Hx0 : ~ (x == 0)%Q) by lra. assert (Hy0 : ~ (y == 0)%Q) by lra.
  destruct (ilog2_spec x Hx0) as [Hlo _]. destruct (ilog2_spec y Hy0) as [_ Hhi].
  rewrite Qabs_pos in Hlo by lra. rewrite Qabs_pos in Hhi by lra.
  assert (H : (ilog2 x < ilog2 y + 1)%Z) by (apply pow2_lt_inv; lra).
  lia.
Qed.

(** *** The nearest binary64 number *)

Lemma round64_eq (q : Q) :
  (round64 q == inject_Z (round_half_even (q / pow2 (ulp_exponent q))) * pow2 (ulp_exponent q))%Q.
Proof. unfold round64. apply Qred_correct. Qed.

Lemma round64_0 (q : Q) : (q == 0)%Q -> round64 q = 0%Q.
Proof.
  intros H. unfold round64.
  set (e := ulp_exponent q).
  assert (Hz : (q / pow2 e == 0)%Q).
  { unfold Qdiv. rewrite (Qmult_comp _ _ H _ _ (Qeq_refl (/ pow2 e))). apply Qmult_0_l. }
  rewrite (round_half_even_comp _ 0 Hz).
  change 0%Q with (Qred 0) at 2.
  apply Qred_complete. change (round_half_even 0) with 0%Z. apply Qmult_0_l.
Qed.


Lemma round64_nonneg (q : Q) : (0 <= q)%Q -> (0 <= round64 q)%Q.
Proof.
  intros Hq. rewrite round64_eq. assert (Hp := pow2_pos (ulp_exponent q)).
  apply Qmult_le_0_compat; [|lra].
  change 0%Q with (inject_Z 0). rewrite <- Zle_Qle.
  rewrite <- (round_half_even_int 0). apply round_half_even_le.
  change (inject_Z 0) with 0%Q. apply Qle_shift_div_l; [exact Hp | lra].
Qed.

(** Rounding keeps the order of the numbers that are not negative. *)
Lemma round64_le (x y : Q) : (0 <= x)%Q -> (x <= y)%Q -> (round64 x <= round64 y)%Q.
Proof.
  intros Hx Hxy. destruct (Qeq_dec x 0) as [H0|H0].
  { rewrite (round64_0 x H0). apply round64_nonneg. lra. }
  assert (Hxpos : (0 < x)%Q) by lra. assert (Hypos : (0 < y)%Q) by lra.
  assert (Hl := ilog2_le x y Hxpos Hxy).
  rewrite !round64_eq. unfold ulp_exponent.
  set (ex := Z.max (ilog2 x - 52) (-1074)). set (ey := Z.max (ilog2 y - 52) (-1074)).
  assert (Hpx := pow2_pos ex). assert (Hpy := pow2_pos ey).
  destruct (Z.eq_dec ex ey) as [Heq|Hne].
  - rewrite Heq. apply Qmult_le_compat_r; [|lra].
    rewrite <- Zle_Qle. apply round_half_even_le.
    apply Qmult_le_compat_r; [exact Hxy|]. apply Qlt_le_weak, Qinv_lt_0_compat. rewrite Heq in Hpx. exact Hpy.
  - assert (Hlt : (ex + 1 <= ey)%Z) by (unfold ex, ey in *; lia).
    assert (Hey : ey = (ilog2 y - 52)%Z) by (unfold ex, ey in *; lia).
    assert (Hexl : (ilog2 x - 52 <= ex)%Z) by (unfold ex; lia).
    (* the mantissa of x is at most 2^53, the one of y at least 2^52 *)
    destruct (ilog2_spec x H0) as [_ Hxhi]. rewrite Qabs_pos in Hxhi by lra.
    assert (Hy0 : ~ (y == 0)%Q) by lra.
    destruct (ilog2_spec y Hy0) as [Hylo _]. rewrite Qabs_pos in Hylo by lra.
    assert (Hmx : (round_half_even (x / pow2 ex) <= 2 ^ 53)%Z).
    { rewrite <- (round_half_even_int (2 ^ 53)). apply round_half_even_le.
      rewrite pow2_Z by lia. apply Qle_shift_div_r; [exact Hpx|].
      rewrite <- pow2_plus.
      apply Qle_trans with (pow2 (ilog2 x + 1)); [lra | apply pow2_le; lia]. }
    assert (Hmy : (2 ^ 52 <= round_half_even (y / pow2 ey))%Z).
    { rewrite <- (round_half_even_int (2 ^ 52)) at 1. apply round_half_even_le.
      rewrite pow2_Z by lia. apply Qle_shift_div_l; [exact Hpy|].
      rewrite <- pow2_plus. rewrite Hey.
      replace (52 + (ilog2 y - 52))%Z with (ilog2 y) by lia. exact Hylo. }
    rewrite Zle_Qle in Hmx, Hmy. rewrite pow2_Z in Hmx, Hmy by lia.
    assert (Hstep : (pow2 53 * pow2 ex <= pow2 52 * pow2 ey)%Q).
    { rewrite <- !pow2_plus. apply pow2_le. lia. }
    set (mx := inject_Z (round_half_even (x / pow2 ex))) in *.
    set (my := inject_Z (round_half_even (y / pow2 ey))) in *.
    assert (H53 := pow2_pos 53). assert (H52 := pow2_pos 52).
    set (P53 := pow2 53) in *. set (P52 := pow2 52) in *.
    set (PX := pow2 ex) in *. set (PY := pow2 ey) in *.
    nra.
Qed.


(** A number that is a multiple of its own last place is its own
    rounding. *)
Lemma round64_exact (q : Q) (m : Z) :
  (q == inject_Z m * pow2 (ulp_exponent q))%Q -> (round64 q == q)%Q.
Proof.
  intros Hq. rewrite round64_eq. set (e := ulp_exponent q) in *.
  assert (Hp := pow2_pos e).
  assert (Ht : (q / pow2 e == inject_Z m)%Q).
  { apply Qeq_sym. apply Qeq_sym in Hq. unfold Qdiv.
    rewrite (Qmult_comp _ _ (Qeq_sym _ _ Hq) _ _ (Qeq_refl (/ pow2 e))).
    field. lra. }
  rewrite (round_half_even_comp _ _ Ht), round_half_even_int. symmetry. exact Hq.
Qed.

(** The integers up to [2 ** 53] are binary64 numbers. *)
Lemma round64_int (k : Z) : (0 <= k <= 2 ^ 53)%Z -> (round64 (inject_Z k) == inject_Z k)%Q.
Proof.
  intros [Hk0 Hk1].
  destruct (Z.eq_dec k 0%Z) as [->|Hne]; [reflexivity|].
  destruct (Z.eq_dec k (2 ^ 53)%Z) as [->|Hne']; [vm_compute; reflexivity|].
  assert (Hq : ~ (inject_Z k == 0)%Q).
  { intros H. unfold Qeq in H. cbn in H. lia. }
  destruct (ilog2_spec _ Hq) as [Hlo _].
  assert (Hkq : (Qabs (inject_Z k) == inject_Z k)%Q).
  { apply Qabs_pos. change 0%Q with (inject_Z 0). rewrite <- Zle_Qle. lia. }
  assert (Hlt : (inject_Z k < pow2 53)%Q).
  { rewrite <- pow2_Z by lia. rewrite <- Zlt_Qlt. lia. }
  assert (Hl : (ilog2 (inject_Z k) < 53)%Z) by (apply pow2_lt_inv; lra).
  set (e := ulp_exponent (inject_Z k)).
  assert (He : (-1074 <= e <= 0)%Z) by (unfold e, ulp_exponent; lia).
  apply (round64_exact _ (k * 2 ^ (- e))). fold e.
  rewrite inject_Z_mult, pow2_Z by lia.
  rewrite <- Qmult_assoc, <- pow2_plus. replace (- e + e)%Z with 0%Z by lia.
  change (pow2 0) with 1%Q. ring.
Qed.


(** The threshold of the verdict: on a binary64 number, comparing with
    the decimal 0.9 is comparing with the float [0.9], the binary64
    number nearest to it. *)
Lemma threshold_binary64 (x : Q) :
  (round64 x == x)%Q -> Qle_bool 0.9 x = Qle_bool (round64 0.9) x.
Proof.
  intros Hx.
  assert (Hup : (0.9 <= round64 0.9)%Q) by (vm_compute; discriminate).
  destruct (Qle_bool 0.9 x) eqn:H1; destruct (Qle_bool (round64 0.9) x) eqn:H2;
    try reflexivity.
  - apply Qle_bool_iff in H1.
    assert (H : (round64 0.9 <= round64 x)%Q).
    { apply round64_le; [vm_compute; discriminate | exact H1]. }
    rewrite Hx in H. apply Qle_bool_iff in H. congruence.
  - apply Qle_bool_iff in H2.
    assert (H : (0.9 <= x)%Q) by (eapply Qle_trans; eassumption).
    apply Qle_bool_iff in H. congruence.
Qed.

Lemma round_half_even_range (q : Q) (n : Z) :
  (0 <= q)%Q -> (q <= inject_Z n)%Q ->
  (0 <= round_half_even q <= n)%Z.
Proof.
  intros Hlo Hhi. split.
  - rewrite <- (round_half_even_int 0). apply round_half_even_le. exact Hlo.
  - rewrite <- (round_half_even_int n). apply round_half_even_le. exact Hhi.
Qed.


(** Rounding keeps a score inside the unit interval. *)
Lemma round4_in_unit (q : Q) : in_unit q -> in_unit (round4 q).
Proof.
  intros [Hlo Hhi]. unfold round4.
  assert (Hrange : (0 <= round_half_even (q * 10000) <= 10000)%Z).
  { apply round_half_even_range; [lra|]. change (inject_Z 10000) with 10000%Q. lra. }
  destruct Hrange as [H0 H1].
  rewrite Zle_Qle in H0. rewrite Zle_Qle in H1.
  change (inject_Z 0) with 0%Q in H0. change (inject_Z 10000) with 10000%Q in H1.
  set (n := inject_Z (round_half_even (q * 10000))) in *.
  assert (Hq0 : (0 <= n / 10000)%Q)
    by (change (n / 10000)%Q with (n * (1 # 10000))%Q; lra).
  assert (Hq1 : (n / 10000 <= 1)%Q)
    by (change (n / 10000)%Q with (n * (1 # 10000))%Q; lra).
  split.
  - apply round64_nonneg. exact Hq0.
  - apply Qle_trans with (round64 1); [apply round64_le; assumption|].
    vm_compute. discriminate.
Qed.

(** *** Sums and means of scores of the unit interval *)


Lemma cap_round64 (k : Z) : (0 <= k)%Z -> (cap k <= round64 (inject_Z k))%Q.
Proof.
  intros Hk. unfold cap.
  rewrite <- (round64_int (Z.min k (2 ^ 53))) by lia.
  apply round64_le.
  - change 0%Q with (inject_Z 0). rewrite <- Zle_Qle. lia.
  - rewrite <- Zle_Qle. lia.
Qed.

Lemma float_add_cap (total x : Q) (k : Z) :
  (0 <= k)%Z -> (0 <= total)%Q -> (total <= cap k)%Q -> in_unit x ->
  (0 <= float_add total x)%Q /\ (float_add total x <= cap (k + 1))%Q.
Proof.
  intros Hk H0 Hcap [Hx0 Hx1]. unfold float_add. split.
  - apply round64_nonneg. lra.
  - apply Qle_trans with (round64 (cap k + 1)).
    + apply round64_le; lra.
    + unfold cap. destruct (Z_lt_le_dec k (2 ^ 53)) as [Hlt|Hge].
      * rewrite !Z.min_l by lia.
        change 1%Q with (inject_Z 1). rewrite <- inject_Z_plus.
        rewrite round64_int by lia. apply Qle_refl.
      * rewrite !Z.min_r by lia. vm_compute. discriminate.
Qed.

Lemma sum64_cap (xs : list Q) (total : Q) (k : Z) :
  Forall in_unit xs -> (0 <= k)%Z -> (0 <= total)%Q -> (total <= cap k)%Q ->
  (0 <= sum64 total xs)%Q /\ (sum64 total xs <= cap (k + Z.of_nat (length xs)))%Q.
Proof.
  intros Hxs. revert total k. induction Hxs as [|x xs Hx _ IH]; intros total k Hk H0 Hcap.
  - cbn [sum64 length Z.of_nat]. rewrite Z.add_0_r. split; assumption.
  - cbn [sum64 length]. destruct (float_add_cap total x k Hk H0 Hcap Hx) as [Ha0 Ha1].
    unfold float_add in Ha0, Ha1.
    destruct (IH _ (k + 1)%Z ltac:(lia) Ha0 Ha1) as [Hr0 Hr1].
    split; [exact Hr0|].
    replace (k + Z.of_nat (S (length xs)))%Z with (k + 1 + Z.of_nat (length xs))%Z by lia.
    exact Hr1.
Qed.

(** The binary64 mean of scores of the unit interval is in the unit
    interval. *)
Lemma mean64_in_unit (xs : list Q) : xs <> [] -> Forall in_unit xs -> in_unit (mean64 xs).
Proof.
  intros Hne Hxs. unfold mean64.
  set (n := Z.of_nat (length xs)).
  assert (Hn : (1 <= n)%Z) by (unfold n; destruct xs; [contradiction | cbn [length]; lia]).
  destruct (sum64_cap xs 0 0 Hxs ltac:(lia) (Qle_refl 0) (Qle_refl 0)) as [Hs0 Hs1].
  rewrite Z.add_0_l in Hs1. fold n in Hs1.
  assert (Hden := cap_round64 n ltac:(lia)).
  assert (Hcap1 : (1 <= cap n)%Q).
  { unfold cap. change 1%Q with (inject_Z 1). rewrite <- Zle_Qle. lia. }
  set (s := sum64 0 xs) in *. set (dn := round64 (inject_Z n)) in *.
  assert (Hq0 : (0 <= s / dn)%Q) by (apply Qle_shift_div_l; lra).
  assert (Hq1 : (s / dn <= 1)%Q) by (apply Qle_shift_div_r; lra).
  split.
  - apply round64_nonneg. exact Hq0.
  - apply Qle_trans with (round64 1); [apply round64_le; assumption|].
    vm_compute. discriminate.
Qed.




End Rounding.

(** ** The aggregator *)

Section Aggregator.
Import Evaluate Reference.
Context {W : World}.

Lemma run_metric (evaluator : pyval -> pyval -> pyval -> ext -> MetricScore * ext)
    (a b c : pyval) (s : ext) :
  run (metric evaluator a b c) s
  = Outcome [] (Ok (fst (evaluator a b c s))) (snd (evaluator a b c s)).
Proof. unfold metric, total. cbn [run]. destruct (evaluator a b c s). reflexivity. Qed.

Lemma extend_nil (lists : ScoreLists) : extend lists [] = lists.
Proof.
  destruct lists. unfold extend, metric_scores. cbn.
  rewrite !app_nil_r. reflexivity.
Qed.

Lemma metric_scores_answered pick (r : ExampleRun) (rs : list ExampleRun) m :
  answered r = true -> run_metrics r = Some m ->
  metric_scores pick (r :: rs) = pick m :: metric_scores pick rs.
Proof.
  intros Ha Hm. unfold metric_scores.
  rewrite filter_cons_True by exact Ha. cbn. rewrite Hm. reflexivity.
Qed.

Lemma metric_scores_skipped pick (r : ExampleRun) (rs : list ExampleRun) :
  answered r = false -> metric_scores pick (r :: rs) = metric_scores pick rs.
Proof.
  intros Ha. unfold metric_scores.
  rewrite filter_cons_False; [reflexivity|]. rewrite Ha. discriminate.
Qed.

(** The loop over the four running lists computes what the runs of the
    examples give, one example after the other. *)
Lemma evaluate_examples_refines (prompt_template : ChatPromptTemplate) (llm : LLM)
    (examples : list Example) :
  forall (lists : ScoreLists) (s : ext),
  exists rs,
    value (run (run_examples prompt_template llm examples) s) = Ok rs /\
    run (evaluate_examples prompt_template llm examples lists) s
    = Outcome (trace (run (run_examples prompt_template llm examples) s))
              (Ok (extend lists rs))
              (after (run (run_examples prompt_template llm examples) s)).
Proof.
  induction examples as [|example rest IH]; intros lists s.
  - exists []. split; [reflexivity|]. rewrite extend_nil. reflexivity.
  - cbn [run_examples evaluate_examples]. unfold run_example.
    rewrite !run_bind.
    destruct (evaluate_prompt_on_example_returns prompt_template example llm s) as [r Hr].
    rewrite Hr.
    set (o := run (evaluate_prompt_on_example prompt_template example llm) s) in *.
    destruct (truthy (answer r)) eqn:Ht.
    + repeat (rewrite run_bind, run_metric; cbn [value trace after app]).
      io_step. cbn [value trace after app].
      generalize (evaluate_tone_score (question r) (answer r) (reference r) (after o)).
      intros [m1 s1]. cbn [fst snd].
      generalize (evaluate_acceptance_criteria_score (question r) (answer r) (reference r) s1).
      intros [m2 s2]. cbn [fst snd].
      generalize (evaluate_user_story_format_score (question r) (answer r) (reference r) s2).
      intros [m3 s3]. cbn [fst snd].
      generalize (evaluate_completeness_score (question r) (answer r) (reference r) s3).
      intros [m4 s4]. cbn [fst snd].
      match goal with
      | |- context [evaluate_examples _ _ _ ?l] => destruct (IH l s4) as [rs [Hrs Hrun]]
      end.
      rewrite Hrun, run_bind, Hrs. io_step. cbn [value trace after].
      eexists. split; [reflexivity|].
      rewrite !app_nil_r. f_equal. f_equal.
      unfold extend. cbn [tone_scores acceptance_criteria_scores format_scores completeness_scores].
      rewrite !(metric_scores_answered _ _ rs (m1, m2, m3, m4)) by (assumption || reflexivity).
      rewrite <- !app_assoc. reflexivity.
    + io_step. cbn [value trace after app].
      destruct (IH lists (after o)) as [rs [Hrs Hrun]].
      rewrite Hrun, run_bind, Hrs. io_step. cbn [value trace after].
      eexists. split; [reflexivity|].
      rewrite !app_nil_r. f_equal. f_equal.
      unfold extend.
      rewrite !metric_scores_skipped by assumption. reflexivity.
Qed.

(** The average the script computes is the binary64 mean. *)
Lemma py_sum_sum64 (xs : list Q) (total : Q) : fold_left float_add xs total = sum64 total xs.
Proof.
  revert total. induction xs as [|x xs IH]; intros total; [reflexivity|].
  cbn [fold_left sum64]. apply IH.
Qed.

Lemma average_mean64 (xs : list Q) : average xs = mean64 xs.
Proof. unfold average, mean64, py_sum, float_div. rewrite py_sum_sum64. reflexivity. Qed.

(** One field of the returned dict is the aggregate of its list. *)
Lemma rounded_average (xs : list Q) : round4 (avg_or_zero xs) = aggregate_metric xs.
Proof.
  destruct xs as [|x xs]; [vm_compute; reflexivity|].
  unfold avg_or_zero, aggregate_metric. rewrite average_mean64. reflexivity.
Qed.


(** When no example of the run has a non-empty answer, the aggregate
    is the dict whose four scores are 0.0. *)
Lemma aggregate_unanswered (rs : list ExampleRun) :
  Forall (fun r => answered r = false) rs -> aggregate rs = zero_scores.
Proof.
  intros Hrs.
  assert (Hnone : forall pick, metric_scores pick rs = []).
  { intros pick. induction Hrs as [|r rs Hr _ IH]; [reflexivity|].
    rewrite metric_scores_skipped by exact Hr. exact IH. }
  unfold aggregate. rewrite !Hnone. reflexivity.
Qed.

(** What [evaluate_prompt] returns, in terms of the runs of the
    examples. *)
Lemma evaluate_prompt_value (prompt_name dataset_name : string)
    (client : Client) (max_examples : Z) (s : ext) :
  value (run (evaluate_prompt prompt_name dataset_name client max_examples) s)
  = Ok (aggregate (example_runs prompt_name dataset_name client max_examples s)).
Proof.
  unfold evaluate_prompt, example_runs, prepare.
  set (pull := pull_prompt_from_langsmith prompt_name).
  destruct (value (run pull s)) as [e|prompt_template] eqn:Hpull.
  - rewrite run_bind, Hpull.
    erewrite run_try_raise by (rewrite run_bind, Hpull; reflexivity).
    reflexivity.
  - unfold try_except. cbn [run]. rewrite !run_bind, Hpull.
    cbn [value trace after]. rewrite !run_bind.
    unfold get_llm. cbn [external run].
    destruct (list_examples client dataset_name (after (run pull s)))
      as [[out1 [e|examples]] s1]; cbn [value trace after]; [reflexivity|].
    rewrite !run_bind. cbn [external run].
    destruct (get_configured_llm 1.0 s1) as [[out2 [e|llm]] s2];
      cbn [value trace after]; [reflexivity|].
    rewrite !run_bind.
    destruct (evaluate_examples_refines prompt_template llm
                (slice_to examples max_examples) no_scores s2) as [rs [Hrs Hrun]].
    rewrite Hrun. io_step. cbn [value trace after]. rewrite Hrs.
    cbn [value]. f_equal. unfold aggregate, extend.
    cbn [tone_scores acceptance_criteria_scores format_scores completeness_scores
         no_scores app].
    rewrite !rounded_average. reflexivity.
Qed.


(** *** Failures before and inside the loop *)

Lemma pull_prompt_from_langsmith_reraises (prompt_name : string) (s s' : ext)
    (out : list string) (e : exn) :
  hub_pull prompt_name s = (out, Raise e, s') ->
  value (run (pull_prompt_from_langsmith prompt_name) s) = Raise e.
Proof.
  intros H. unfold pull_prompt_from_langsmith. io_step. rewrite H. io_step.
  destruct (contains "not found" (lower (exn_str e)) || contains "404" (lower (exn_str e)));
    reflexivity.
Qed.

(** C3: when [hub.pull] raises, [evaluate_prompt] returns, and what it
    returns is the dict whose four scores are 0.0. *)
Theorem evaluate_prompt_absorbs_pull_failure (prompt_name dataset_name : string)
    (client : Client) (max_examples : Z) (s s' : ext) (out : list string) (e : exn) :
  hub_pull prompt_name s = (out, Raise e, s') ->
  exists scores,
    value (run (evaluate_prompt prompt_name dataset_name client max_examples) s) = Ok scores
    /\ tone scores = 0%Q /\ acceptance_criteria scores = 0%Q
    /\ format scores = 0%Q /\ completeness scores = 0%Q.
Proof.
  intros H. apply pull_prompt_from_langsmith_reraises in H.
  exists zero_scores. split; [|repeat split].
  unfold evaluate_prompt.
  erewrite run_try_raise by (rewrite run_bind, H; reflexivity).
  reflexivity.
Qed.

(** [evaluate_prompt] never lets an exception out. *)
Lemma evaluate_prompt_returns (prompt_name dataset_name : string) (client : Client)
    (max_examples : Z) (s : ext) :
  exists scores,
    value (run (evaluate_prompt prompt_name dataset_name client max_examples) s) = Ok scores.
Proof. eexists. apply evaluate_prompt_value. Qed.

(** C6: when a step of the runner fails on an example, the runner
    returns the result whose three fields are the empty string, and the
    loop of the aggregator goes on to the next example with its four
    lists as they were: no score is appended for the example. *)
Theorem failed_example_is_skipped (prompt_template : ChatPromptTemplate)
    (example : Example) (llm : LLM) (s : ext) :
  runner_fails prompt_template example llm s ->
  value (run (evaluate_prompt_on_example prompt_template example llm) s)
  = Ok {| answer := PyStr ""; reference := PyStr ""; question := PyStr "" |}
  /\ forall (rest : list Example) (lists : ScoreLists),
       run (evaluate_examples prompt_template llm (example :: rest) lists) s
       = followed_by
           (run (evaluate_prompt_on_example prompt_template example llm) s)
           (run (evaluate_examples prompt_template llm rest lists)
                (after (run (evaluate_prompt_on_example prompt_template example llm) s))).
Proof.
  intros Hfail. apply evaluate_prompt_on_example_failure in Hfail.
  split; [exact Hfail|].
  intros rest lists. cbn [evaluate_examples]. rewrite run_bind, Hfail.
  reflexivity.
Qed.

End Aggregator.

(** ** The examples the runner is run on *)

Section Prefix.
Import Evaluate Reference.
Context {W : World}.

Lemma runner_calls_runner (prompt_template : ChatPromptTemplate) (example : Example)
    (llm : LLM) (s : ext) :
  runner_calls (trace (run (evaluate_prompt_on_example prompt_template example llm) s))
  = [example].
Proof.
  unfold evaluate_prompt_on_example. io_step.
  destruct (pipe prompt_template llm) as [e|chain]; io_step; [reflexivity|].
  destruct (invoke chain _ s) as [[out [e|response]] s']; io_step;
    cbn [runner_calls app]; rewrite ?runner_calls_app, ?runner_calls_printed;
    [reflexivity|].
  destruct (content response) as [e|text]; io_step;
    rewrite ?app_nil_r, ?runner_calls_app, ?runner_calls_printed; reflexivity.
Qed.

Lemma runner_calls_loop (prompt_template : ChatPromptTemplate) (llm : LLM)
    (examples : list Example) :
  forall (lists : ScoreLists) (s : ext),
    runner_calls (trace (run (evaluate_examples prompt_template llm examples lists) s))
    = examples.
Proof.
  induction examples as [|example rest IH]; intros lists s; [reflexivity|].
  cbn [evaluate_examples]. rewrite run_bind.
  destruct (evaluate_prompt_on_example_returns prompt_template example llm s) as [r Hr].
  rewrite Hr. cbn [trace]. rewrite runner_calls_app, runner_calls_runner.
  cbn [app]. f_equal.
  destruct (truthy (answer r)); [|apply IH].
  repeat (rewrite run_bind, run_metric; cbn [value trace after app]).
  apply IH.
Qed.

Lemma runner_calls_pull (prompt_name : string) (s : ext) :
  runner_calls (trace (run (pull_prompt_from_langsmith prompt_name) s)) = [].
Proof.
  unfold pull_prompt_from_langsmith. io_step.
  destruct (hub_pull prompt_name s) as [[out [e|p]] s']; io_step.
  - destruct (contains "not found" (lower (exn_str e)) || contains "404" (lower (exn_str e)));
      io_step; rewrite runner_calls_app, runner_calls_printed; reflexivity.
  - rewrite app_nil_r. apply runner_calls_printed.
Qed.

(** The runner is run on the slice [examples[:max_examples]] of the
    listed examples, or on none when the model client cannot be had. *)
Lemma runner_calls_evaluate_prompt (prompt_name dataset_name : string)
    (client : Client) (max_examples : Z) (s : ext) :
  let calls :=
    runner_calls (trace (run (evaluate_prompt prompt_name dataset_name client max_examples) s)) in
  calls = slice_to (listed_examples prompt_name dataset_name client s) max_examples
  \/ calls = [].
Proof.
  cbn zeta. unfold evaluate_prompt, listed_examples.
  set (pull := pull_prompt_from_langsmith prompt_name).
  assert (Hpull_calls := runner_calls_pull prompt_name s). fold pull in Hpull_calls.
  destruct (value (run pull s)) as [e|prompt_template] eqn:Hpull.
  - right. erewrite run_try_raise by (rewrite run_bind, Hpull; reflexivity).
    rewrite run_bind, Hpull. io_step. cbn [trace].
    rewrite runner_calls_app, Hpull_calls. reflexivity.
  - unfold try_except. cbn [run]. rewrite !run_bind, Hpull.
    cbn [value trace after]. rewrite !run_bind.
    unfold get_llm. cbn [external run].
    destruct (list_examples client dataset_name (after (run pull s)))
      as [[out1 [e|examples]] s1]; cbn [value trace after].
    + right. io_step. cbn [trace].
      rewrite !runner_calls_app, Hpull_calls, runner_calls_printed. reflexivity.
    + rewrite !run_bind. cbn [external run].
      destruct (get_configured_llm 1.0 s1) as [[out2 [e|llm]] s2]; cbn [value trace after].
      * right. io_step. cbn [trace].
        rewrite !runner_calls_app, Hpull_calls, !runner_calls_printed. reflexivity.
      * left. rewrite !run_bind.
        destruct (evaluate_examples_refines prompt_template llm
                    (slice_to examples max_examples) no_scores s2) as [rs [Hrs Hrun]].
        assert (Hcalls := runner_calls_loop prompt_template llm
                            (slice_to examples max_examples) no_scores s2).
        rewrite Hrun in *. cbn [value trace after] in *. io_step. cbn [trace].
        rewrite !runner_calls_app, Hpull_calls, !runner_calls_printed, Hcalls.
        cbn [runner_calls app]. rewrite app_nil_r. reflexivity.
Qed.

Lemma slice_to_prefix {A} (l : list A) (stop : Z) : slice_to l stop `prefix_of` l.
Proof. unfold slice_to. destruct (0 <=? stop)%Z; apply prefix_take. Qed.

Lemma slice_to_length {A} (l : list A) (stop : Z) :
  (0 <= stop)%Z -> (Z.of_nat (length (slice_to l stop)) <= stop)%Z.
Proof.
  intros H. unfold slice_to.
  destruct (Z.leb_spec 0 stop) as [_|Hneg]; [|lia].
  rewrite length_take. lia.
Qed.

(** Whatever [max_examples] is, the examples the runner is run on form
    a prefix of the listed examples. *)
Lemma evaluate_prompt_runs_some_prefix (prompt_name dataset_name : string)
    (client : Client) (max_examples : Z) (s : ext) :
  runner_calls (trace (run (evaluate_prompt prompt_name dataset_name client max_examples) s))
  `prefix_of` listed_examples prompt_name dataset_name client s.
Proof.
  destruct (runner_calls_evaluate_prompt prompt_name dataset_name client max_examples s)
    as [-> | ->]; [apply slice_to_prefix | apply prefix_nil].
Qed.

(** C7, amended: for every non-negative [max_examples], the examples
    [evaluate_prompt] runs the Example Runner on are at most
    [max_examples] and form a prefix of the examples listed by the
    dataset store, in the order of the dataset. *)
Theorem evaluate_prompt_runs_prefix (prompt_name dataset_name : string)
    (client : Client) (max_examples : Z) (s : ext) :
  (0 <= max_examples)%Z ->
  let calls :=
    runner_calls (trace (run (evaluate_prompt prompt_name dataset_name client max_examples) s)) in
  (Z.of_nat (length calls) <= max_examples)%Z
  /\ calls `prefix_of` listed_examples prompt_name dataset_name client s.
Proof.
  intros Hmax calls. subst calls.
  destruct (runner_calls_evaluate_prompt prompt_name dataset_name client max_examples s)
    as [-> | ->].
  - split; [apply slice_to_length; exact Hmax | apply slice_to_prefix].
  - split; [simpl; lia | apply prefix_nil].
Qed.

End Prefix.

(** ** Verdict and command-line driver *)

Section Driver.
Import Evaluate Reference.
Context {W : World}.

Lemma verdict_iff (scores : AggregateScores) :
  verdict scores = true <-> all_at_least_threshold scores.
Proof.
  unfold verdict, all_at_least_threshold, values, items. cbn [map snd forallb].
  rewrite !andb_true_iff, !Qle_bool_iff. tauto.
Qed.

Lemma display_results_outcome (prompt_name : string) (scores : AggregateScores) (s : ext) :
  value (run (display_results prompt_name scores) s) = Ok (verdict scores)
  /\ after (run (display_results prompt_name scores) s) = s.
Proof.
  unfold display_results. fold (verdict scores).
  destruct (verdict scores); split; reflexivity.
Qed.

(** The loader never lets an exception out. *)
Lemma load_dataset_from_jsonl_returns (path : string) (s : ext) :
  exists examples, value (run (load_dataset_from_jsonl path) s) = Ok examples.
Proof.
  unfold load_dataset_from_jsonl. apply try_except_returns.
  intros e s'. destruct (exn_cls e); eexists; reflexivity.
Qed.

Lemma create_evaluation_dataset_returns (client : Client) (dataset_name path : string)
    (s : ext) :
  exists name, value (run (create_evaluation_dataset client dataset_name path) s) = Ok name.
Proof.
  unfold create_evaluation_dataset. rewrite run_bind.
  destruct (load_dataset_from_jsonl_returns path s) as [examples ->].
  cbn [value].
  destruct examples as [|example rest]; [eexists; reflexivity|].
  apply try_except_returns. intros e s'. eexists. reflexivity.
Qed.

(** The loop of [main] over its one prompt ends with the verdict of the
    scores of the prompt. *)
Lemma evaluate_prompts_single (client : Client) (dataset_name prompt_name : string)
    (max_examples : Z) (s : ext) :
  exists scores,
    value (run (evaluate_prompt prompt_name dataset_name client max_examples) s) = Ok scores
    /\ value (run (evaluate_prompts client dataset_name max_examples [prompt_name] true) s)
       = Ok (verdict scores).
Proof.
  destruct (evaluate_prompt_returns prompt_name dataset_name client max_examples s)
    as [scores Hscores].
  exists scores. split; [exact Hscores|].
  cbn [evaluate_prompts]. rewrite run_bind.
  set (body := evaluate_prompt prompt_name dataset_name client max_examples ≫= _).
  assert (Hbody : value (run body s) = Ok (verdict scores)).
  { subst body. rewrite run_bind, Hscores. cbn [value]. rewrite run_bind.
    destruct (display_results_outcome prompt_name scores
                (after (run (evaluate_prompt prompt_name dataset_name client max_examples) s)))
      as [-> _].
    reflexivity. }
  rewrite (run_try_ok _ _ _ _ Hbody), Hbody. reflexivity.
Qed.

(** The value of [main], step by step of its set-up. *)
Lemma main_outcome (env : gmap string string) (args : Args) (s : ext) :
  match check_env_vars env (required_vars env) s with
  | (_, Raise e, _) => value (run (main env args) s) = Raise e
  | (_, Ok false, _) => value (run (main env args) s) = Ok 1%Z
  | (_, Ok true, s1) =>
      match new_Client s1 with
      | (_, Raise e, _) => value (run (main env args) s) = Raise e
      | (_, Ok client, s2) =>
          match path_exists jsonl_path s2 with
          | (_, Raise e, _) => value (run (main env args) s) = Raise e
          | (_, Ok false, _) => value (run (main env args) s) = Ok 1%Z
          | (_, Ok true, s3) =>
              exists scores,
                value (run (evaluate_prompt (arg_prompt args) (dataset_name_of env) client
                              (arg_max_examples args))
                           (after (run (create_evaluation_dataset client
                                          (dataset_name_of env) jsonl_path) s3)))
                = Ok scores
                /\ value (run (main env args) s)
                   = Ok (if verdict scores then 0%Z else 1%Z)
          end
      end
  end.
Proof.
  unfold main. fold (required_vars env). fold jsonl_path. fold (dataset_name_of env).
  rewrite !value_print_then, value_external_bind.
  destruct (check_env_vars env (required_vars env) s) as [[out1 [e1|[|]]] s1];
    cbn [negb]; try reflexivity.
  rewrite value_external_bind.
  destruct (new_Client s1) as [[out2 [e2|client]] s2]; try reflexivity.
  rewrite value_external_bind.
  destruct (path_exists jsonl_path s2) as [[out3 [e3|[|]]] s3];
    cbn [negb]; try reflexivity.
  rewrite value_bind.
  destruct (create_evaluation_dataset_returns client (dataset_name_of env) jsonl_path s3)
    as [name ->].
  rewrite value_bind.
  destruct (evaluate_prompts_single client (dataset_name_of env) (arg_prompt args)
              (arg_max_examples args)
              (after (run (create_evaluation_dataset client (dataset_name_of env)
                             jsonl_path) s3)))
    as [scores [Hscores ->]].
  exists scores. split; [exact Hscores|].
  destruct (verdict scores); reflexivity.
Qed.

(** C1: the verdict [display_results] returns is pass exactly when the
    four scores are at least 0.9, a score of exactly 0.9 passing and
    0.8999 failing; the status of the process is 0 or 1, and it is 0
    exactly when the set-up of [main] succeeds and the verdict on the
    scores of the prompt is pass. *)
Theorem verdict_and_exit_status (env : gmap string string) (args : Args) (s : ext)
    (prompt_name : string) (scores : AggregateScores) :
  (exists passed,
     value (run (display_results prompt_name scores) s) = Ok passed
     /\ (passed = true <-> all_at_least_threshold scores))
  /\ verdict {| tone := 0.9; acceptance_criteria := 0.9; format := 0.9; completeness := 0.9 |}
     = true
  /\ verdict {| tone := 0.8999; acceptance_criteria := 1; format := 1; completeness := 1 |}
     = false
  /\ (exit_status (run (main env args) s) = 0%Z \/ exit_status (run (main env args) s) = 1%Z)
  /\ (exit_status (run (main env args) s) = 0%Z <-> main_passes env args s).
Proof.
  split; [|split; [reflexivity|split; [reflexivity|]]].
  { exists (verdict scores). split; [apply display_results_outcome | apply verdict_iff]. }
  assert (Hmain := main_outcome env args s). unfold exit_status.
  destruct (check_env_vars env (required_vars env) s) as [[out1 [e1|[|]]] s1] eqn:Hcheck.
  - rewrite Hmain. split; [right; reflexivity|].
    split; [discriminate|]. intros [? ? ? ? ? ? ? ? H1 _ _ _ _]. congruence.
  - destruct (new_Client s1) as [[out2 [e2|client]] s2] eqn:Hclient.
    + rewrite Hmain. split; [right; reflexivity|].
      split; [discriminate|]. intros [? ? ? ? ? ? ? ? H1 H2 _ _ _]. congruence.
    + destruct (path_exists jsonl_path s2) as [[out3 [e3|[|]]] s3] eqn:Hpath.
      * rewrite Hmain. split; [right; reflexivity|].
        split; [discriminate|]. intros [? ? ? ? ? ? ? ? H1 H2 H3 _ _]. congruence.
      * destruct Hmain as [scores' [Hscores ->]].
        split; [destruct (verdict scores'); auto|].
        split.
        -- intros Hzero. apply (setup_and_verdict_pass env args s out1 out2 out3 s1 s2 s3
                                  client scores'); try assumption.
           apply verdict_iff. destruct (verdict scores'); [reflexivity | discriminate].
        -- intros [o1 o2 o3 t1 t2 t3 client' scores'' H1 H2 H3 H4 H5].
           assert (t1 = s1) as -> by congruence.
           assert (t2 = s2 /\ client' = client) as [-> ->] by (split; congruence).
           assert (t3 = s3) as -> by congruence.
           rewrite Hscores in H4. injection H4 as ->.
           apply verdict_iff in H5. rewrite H5. reflexivity.
      * rewrite Hmain. split; [right; reflexivity|].
        split; [discriminate|]. intros [? ? ? ? ? ? ? ? H1 H2 H3 _ _]. congruence.
  - rewrite Hmain. split; [right; reflexivity|].
    split; [discriminate|]. intros [? ? ? ? ? ? ? ? H1 _ _ _ _]. congruence.
Qed.

(** A credential check that fails, or a dataset file that is missing,
    ends the run with status 1. *)
Lemma main_missing_credentials (env : gmap string string) (args : Args) (s s1 : ext)
    (out : list string) :
  check_env_vars env (required_vars env) s = (out, Ok false, s1) ->
  exit_status (run (main env args) s) = 1%Z.
Proof.
  intros H. assert (Hmain := main_outcome env args s). rewrite H in Hmain.
  unfold exit_status. rewrite Hmain. reflexivity.
Qed.

Lemma main_missing_dataset (env : gmap string string) (args : Args) (s s1 s2 s3 : ext)
    (out1 out2 out3 : list string) (client : Client) :
  check_env_vars env (required_vars env) s = (out1, Ok true, s1) ->
  new_Client s1 = (out2, Ok client, s2) ->
  path_exists jsonl_path s2 = (out3, Ok false, s3) ->
  exit_status (run (main env args) s) = 1%Z.
Proof.
  intros H1 H2 H3. assert (Hmain := main_outcome env args s).
  rewrite H1, H2, H3 in Hmain. unfold exit_status. rewrite Hmain. reflexivity.
Qed.

(** *** The credential on standard output *)

Lemma append_inj_l (p a b : string) : p +:+ a = p +:+ b -> a = b.
Proof.
  induction p as [|c p IH]; simpl; [tauto|].
  intros H. injection H as H. auto.
Qed.

(** The first lines of the output of [main]: the banner, the line with
    the value of [OPENAI_API_KEY], then what the credential check
    prints. *)
Lemma main_stdout (env : gmap string string) (args : Args) (s : ext) :
  exists rest,
    stdout (trace (run (main env args) s))
    = "Executando avaliação dos prompts..."
      :: key_line (str_of_getenv (env !! "OPENAI_API_KEY"))
      :: fst (fst (check_env_vars env (required_vars env) s)) ++ rest.
Proof.
  unfold main. fold (required_vars env).
  rewrite !run_print_then. cbn [trace stdout].
  rewrite run_bind. cbn [external run].
  destruct (check_env_vars env (required_vars env) s) as [[out r] s1].
  cbn [fst value trace after].
  destruct r as [e|env_ok]; cbn [trace].
  - exists []. rewrite stdout_printed, app_nil_r. reflexivity.
  - rewrite stdout_app, stdout_printed. eexists. reflexivity.
Qed.

(** C9: when [OPENAI_API_KEY] is set, the second line [main] prints is
    the value of the credential, ahead of everything the credential
    check prints; hence two runs whose credentials differ print
    different outputs, whatever else the runs share. *)
Theorem main_prints_openai_key (env env' : gmap string string) (args args' : Args)
    (s s' : ext) (key key' : string) :
  env !! "OPENAI_API_KEY" = Some key ->
  env' !! "OPENAI_API_KEY" = Some key' ->
  key <> key' ->
  (exists rest,
     stdout (trace (run (main env args) s))
     = "Executando avaliação dos prompts..."
       :: ("a chave openai é  " +:+ key)
       :: fst (fst (check_env_vars env (required_vars env) s)) ++ rest)
  /\ stdout (trace (run (main env args) s)) <> stdout (trace (run (main env' args') s')).
Proof.
  intros Hkey Hkey' Hneq.
  destruct (main_stdout env args s) as [rest Hout].
  destruct (main_stdout env' args' s') as [rest' Hout'].
  rewrite Hkey in Hout. rewrite Hkey' in Hout'. cbn [str_of_getenv] in *.
  split; [exists rest; exact Hout|].
  rewrite Hout, Hout'. intros H. injection H as H _.
  apply append_inj_l in H. contradiction.
Qed.
End Driver.

(** ** The Dataset Loader *)

Section Loader.
Import Evaluate Reference.
Context {W : World}.

Lemma loaded_raise (e : exn) (f : list (result string)) : loaded (Raise e :: f) = None.
Proof. reflexivity. Qed.

Lemma loaded_blank (line : string) (f : list (result string)) :
  is_blank line = true -> loaded (Ok line :: f) = loaded f.
Proof.
  intros Hb. unfold loaded. cbn [read_all].
  destruct (read_all f) as [lines|]; [|reflexivity]. cbn -[filter].
  rewrite filter_cons_False by (rewrite Hb; discriminate). reflexivity.
Qed.

Lemma loaded_line (line : string) (f : list (result string)) :
  is_blank line = false ->
  loaded (Ok line :: f) =
  match json_loads (strip line) with
  | Ok example => cons example <$> loaded f
  | Raise _ => None
  end.
Proof.
  intros Hb. unfold loaded. cbn [read_all].
  destruct (read_all f) as [lines|]; cbn -[filter].
  - rewrite filter_cons_True by exact Hb. reflexivity.
  - destruct (json_loads (strip line)); reflexivity.
Qed.

(** The loop of the loader returns the examples read so far followed by
    the examples of the rest of the file, and raises exactly when the
    rest of the file cannot be loaded. *)
Lemma read_examples_loaded (f : list (result string)) :
  forall examples,
    match read_examples f examples with
    | Ok all => Some all
    | Raise _ => None
    end = app examples <$> loaded f.
Proof.
  induction f as [|[e|line] f IH]; intros examples.
  - cbn. rewrite app_nil_r. reflexivity.
  - reflexivity.
  - cbn [read_examples mbind result_bind].
    rewrite strip_eqb_blank.
    destruct (is_blank line) eqn:Hb; cbn [negb].
    + rewrite loaded_blank by exact Hb. apply IH.
    + rewrite loaded_line by exact Hb.
      destruct (json_loads (strip line)) as [e|example]; [reflexivity|].
      cbn [mbind result_bind]. rewrite IH. destruct (loaded f) as [rest|]; [|reflexivity].
      cbn. rewrite <- app_assoc. reflexivity.
Qed.

Lemma load_dataset_reference_loaded (f : list (result string)) :
  load_dataset_reference (Ok f) = default [] (loaded f).
Proof.
  unfold load_dataset_reference, loaded.
  destruct (read_all f) as [lines|]; [|reflexivity]. cbn.
  destruct (parse_all _); reflexivity.
Qed.

(** C4: whatever opening and reading the file gives, the loader returns
    without raising, and what it returns is what the reference loader
    gives: the parsed objects of the non-blank lines in file order when
    the file can be read and every non-blank line parses, and the empty
    sequence otherwise. *)
Theorem load_dataset_from_jsonl_reference (path : string) (s : ext) :
  value (run (load_dataset_from_jsonl path) s)
  = Ok (load_dataset_reference (snd (fst (open_lines path s)))).
Proof.
  unfold load_dataset_from_jsonl.
  set (body := external (open_lines path) ≫= _).
  assert (Hbody : value (run body s) =
                  match snd (fst (open_lines path s)) with
                  | Raise e => Raise e
                  | Ok f => read_examples f []
                  end).
  { subst body. rewrite value_external_bind.
    destruct (open_lines path s) as [[out [e|f]] s']; reflexivity. }
  destruct (snd (fst (open_lines path s))) as [e|f].
  - rewrite (run_try_raise _ _ _ _ Hbody). cbn [value].
    destruct (exn_cls e); reflexivity.
  - rewrite load_dataset_reference_loaded.
    assert (Hloop := read_examples_loaded f []).
    destruct (read_examples f []) as [e|examples].
    + rewrite (run_try_raise _ _ _ _ Hbody). cbn [value].
      destruct (loaded f); [discriminate|].
      destruct (exn_cls e); reflexivity.
    + rewrite (run_try_ok _ _ _ _ Hbody), Hbody.
      destruct (loaded f); [|discriminate].
      cbn in Hloop. injection Hloop as ->. reflexivity.
Qed.

End Loader.

(** ** Round trip of a prompt through the registry *)

Section RoundTrip.
Import Langchain PushPrompts PullPrompts Reference.

Lemma chat_role_cases (role : string) :
  chat_role role = true -> role = "system" \/ role = "human" \/ role = "ai".
Proof.
  unfold chat_role. cbn [existsb]. rewrite !orb_true_iff, !String.eqb_eq. intuition discriminate.
Qed.

(** The loop of [push_prompt_to_langsmith] keeps each role with its
    content, in the order of the messages. *)
Lemma collect_messages_pairs (msgs : list pyval) (pairs : list (string * string)) :
  mapM role_content msgs = Some pairs ->
  forall messages,
    collect_messages msgs messages
    = Ok (messages ++ map (fun item => (PyStr (fst item), PyStr (snd item))) pairs).
Proof.
  revert pairs. induction msgs as [|msg rest IH]; intros pairs Hpairs messages.
  - cbn in Hpairs. injection Hpairs as <-. cbn. rewrite app_nil_r. reflexivity.
  - cbn [mapM] in Hpairs.
    destruct (role_content msg) as [[role text]|] eqn:Hmsg; [|discriminate].
    destruct (mapM role_content rest) as [pairs'|] eqn:Hrest; [|discriminate].
    cbn in Hpairs. injection Hpairs as <-.
    unfold role_content in Hmsg.
    destruct msg as [| | | | |l|d]; try discriminate.
    destruct (dict_lookup d "role") as [[| | | |role'| |]|] eqn:Hrole; try discriminate.
    destruct (dict_lookup d "content") as [[| | | |text'| |]|] eqn:Hcontent; try discriminate.
    destruct (chat_role role') eqn:Hchat; [|discriminate].
    injection Hmsg as -> ->.
    cbn [collect_messages py_get mbind result_bind]. unfold dict_get.
    rewrite Hrole, Hcontent. cbn [py_eq_str map fst snd].
    destruct (chat_role_cases role Hchat) as [-> | [-> | ->]];
      cbn [String.eqb Ascii.eqb Bool.eqb];
      rewrite (IH pairs' eq_refl); rewrite <- app_assoc; reflexivity.
Qed.

(** The dict [pull_prompts_from_langsmith] builds for a message
    template built from a pair of the three roles is the pair. *)
Lemma message_dict_built (role text : string) (msg : MessageTemplate) :
  chat_role role = true ->
  built_from (PyStr role, PyStr text) msg ->
  message_dict msg = Ok (message_of_pair (role, text)).
Proof.
  intros Hchat Hbuilt. cbn [built_from] in Hbuilt. unfold message_dict.
  destruct (chat_role_cases role Hchat) as [-> | [-> | ->]];
    destruct (Hbuilt _ eq_refl) as [-> ->]; reflexivity.
Qed.

Lemma serialize_messages_built (pairs : list (string * string)) (msgs : list MessageTemplate) :
  Forall (fun item => chat_role (fst item) = true) pairs ->
  Forall2 built_from (map (fun item => (PyStr (fst item), PyStr (snd item))) pairs) msgs ->
  forall out, serialize_messages msgs out = Ok (out ++ map message_of_pair pairs).
Proof.
  revert msgs. induction pairs as [|[role text] pairs IH]; intros msgs Hroles Hbuilt out.
  - inversion Hbuilt; subst. cbn. rewrite app_nil_r. reflexivity.
  - cbn [map fst snd] in Hbuilt. inversion Hbuilt as [|? msg ? msgs' Hmsg Hrest]; subst.
    inversion Hroles as [|? ? Hrole Hroles']; subst.
    cbn [serialize_messages mbind result_bind].
    rewrite (message_dict_built role text msg Hrole Hmsg). cbn [mbind result_bind].
    rewrite (IH msgs' Hroles' Hrest). cbn [map]. rewrite <- app_assoc. reflexivity.
Qed.

Lemma role_content_chat_role (msgs : list pyval) (pairs : list (string * string)) :
  mapM role_content msgs = Some pairs ->
  Forall (fun item => chat_role (fst item) = true) pairs.
Proof.
  revert pairs. induction msgs as [|msg rest IH]; intros pairs Hpairs.
  - cbn in Hpairs. injection Hpairs as <-. constructor.
  - cbn [mapM] in Hpairs.
    destruct (role_content msg) as [[role text]|] eqn:Hmsg; [|discriminate].
    destruct (mapM role_content rest) as [pairs'|] eqn:Hrest; [|discriminate].
    cbn in Hpairs. injection Hpairs as <-.
    constructor; [|apply IH; reflexivity].
    unfold role_content in Hmsg.
    destruct msg as [| | | | |l|d]; try discriminate.
    destruct (dict_lookup d "role") as [[| | | |role'| |]|]; try discriminate.
    destruct (dict_lookup d "content") as [[| | | |text'| |]|]; try discriminate.
    destruct (chat_role role') eqn:Hchat; [|discriminate].
    injection Hmsg as <- _. exact Hchat.
Qed.

(** C8: for a prompt whose messages carry the roles [system], [human]
    and [ai], the template the push builds, filed in the registry under
    a name and pulled back under that name, is serialised by the pull
    into the role/content dictionaries of the messages, as many as the
    messages and in their order. *)
Theorem push_pull_round_trip (L : Library) (hub : gmap string Prompt) (name : string)
    (prompt_data : list (string * pyval)) (pairs : list (string * string)) (p : Prompt) :
  builds_templates L ->
  chat_messages prompt_data = Some pairs ->
  build_template prompt_data = Ok (Some p) ->
  exists pulled d,
    hub_pull name (hub_push name p hub) = Ok pulled
    /\ extract_prompt_dict name pulled = Ok (PyDict d)
    /\ dict_lookup d "messages" = Some (PyList (map message_of_pair pairs))
    /\ length (map message_of_pair pairs) = length (messages_of prompt_data).
Proof.
  intros Hlib Hchat Hbuild.
  unfold chat_messages in Hchat.
  destruct (dict_lookup prompt_data "messages") as [[| | | | |msgs|]|] eqn:Hmsgs;
    try discriminate.
  unfold build_template, dict_get in Hbuild. rewrite Hmsgs in Hbuild.
  cbn [py_iter mbind result_bind] in Hbuild.
  rewrite (collect_messages_pairs msgs pairs Hchat []) in Hbuild.
  cbn [mbind result_bind app] in Hbuild.
  destruct (map _ pairs) as [|first others] eqn:Hmap; [discriminate|].
  destruct (from_messages (first :: others)) as [e|built] eqn:Hfrom; [discriminate|].
  cbn [mbind result_bind] in Hbuild. injection Hbuild as <-.
  destruct (Hlib _ _ Hfrom) as [templates [Htemplates Hbuilt]].
  rewrite <- Hmap in Hbuilt.
  exists built. eexists. split; [|split; [|split]].
  - unfold hub_pull, hub_push. rewrite lookup_insert_eq. reflexivity.
  - unfold extract_prompt_dict. rewrite Htemplates.
    rewrite (serialize_messages_built pairs templates
               (role_content_chat_role msgs pairs Hchat) Hbuilt []).
    reflexivity.
  - reflexivity.
  - unfold messages_of, dict_get. rewrite Hmsgs. rewrite length_map.
    symmetry. eapply length_mapM. exact Hchat.
Qed.

(** The sample library builds one template for each pair. *)
Lemma sample_library_builds_templates : builds_templates sample_library.
Proof.
  intros pairs p. cbn [from_messages sample_library].
  destruct (sample_messages pairs) as [e|msgs] eqn:Hmsgs; [discriminate|].
  cbn [mbind result_bind]. intros H. injection H as <-.
  exists msgs. split; [reflexivity|].
  revert msgs Hmsgs. induction pairs as [|item rest IH]; intros msgs Hmsgs.
  - cbn in Hmsgs. injection Hmsgs as <-. constructor.
  - cbn [sample_messages] in Hmsgs.
    destruct (sample_message item) as [e|msg] eqn:Hmsg; [discriminate|].
    destruct (sample_messages rest) as [e|msgs'] eqn:Hrest; [discriminate|].
    cbn [mbind result_bind] in Hmsgs. injection Hmsgs as <-.
    constructor; [|apply IH; reflexivity].
    unfold sample_message in Hmsg. destruct item as [role text].
    destruct role; try exact I. destruct text; try exact I.
    cbn [built_from]. intros cls Hcls. rewrite Hcls in Hmsg.
    injection Hmsg as <-. split; reflexivity.
Qed.

End RoundTrip.

(** ** The properties at work in the sample world *)

Section SampleRuns.
Import Evaluate Langchain PushPrompts PullPrompts Reference.

Lemma evaluate_prompt_absorbs_pull_failure_witness :
  exists scores,
    value (run (evaluate_prompt (W := sample_world) "nobody/missing" "eval" tt 10) 0%nat)
    = Ok scores
    /\ tone scores = 0%Q /\ acceptance_criteria scores = 0%Q
    /\ format scores = 0%Q /\ completeness scores = 0%Q.
Proof.
  apply (evaluate_prompt_absorbs_pull_failure (W := sample_world)
           "nobody/missing" "eval" tt 10 0%nat 0%nat [] (Exn OtherError "404 Not Found")).
  reflexivity.
Defined.


Lemma failed_example_is_skipped_witness :
  value (run (evaluate_prompt_on_example (W := sample_world) "me/prompt" untitled_example tt)
             0%nat)
  = Ok {| answer := PyStr ""; reference := PyStr ""; question := PyStr "" |}
  /\ forall (rest : list Example) (lists : ScoreLists),
       run (evaluate_examples (W := sample_world) "me/prompt" tt (untitled_example :: rest)
                              lists) 0%nat
       = followed_by
           (run (evaluate_prompt_on_example (W := sample_world) "me/prompt"
                   untitled_example tt) 0%nat)
           (run (evaluate_examples (W := sample_world) "me/prompt" tt rest lists)
                (after (run (evaluate_prompt_on_example (W := sample_world) "me/prompt"
                               untitled_example tt) 0%nat))).
Proof.
  apply (failed_example_is_skipped (W := sample_world) "me/prompt" untitled_example tt 0%nat).
  apply (invoke_fails (W := sample_world) "me/prompt" untitled_example tt 0%nat
           "me/prompt" [] (Exn KeyError "'bug_report'") 0%nat); reflexivity.
Defined.

Lemma evaluate_prompt_on_example_fields_witness :
  value (run (evaluate_prompt_on_example (W := sample_world) "me/prompt" login_example tt)
             0%nat)
  = Ok {| answer := PyStr "Como usuário: Login fails on submit";
          reference := PyStr "Como usuário, quero entrar.";
          question := PyStr "Login fails on submit" |}.
Proof.
  apply (evaluate_prompt_on_example_fields (W := sample_world) "me/prompt" login_example tt
           0%nat 1%nat "me/prompt" []
           (PyStr "Como usuário: Login fails on submit")
           (PyStr "Como usuário: Login fails on submit"));
    reflexivity.
Defined.

(** C7, as stated, fails for a negative [max_examples]: the slice
    [examples[:-1]] of a dataset of two examples holds one example, and
    the runner is run on it, which is more than [max_examples]. *)
Lemma evaluate_prompt_negative_max_runs_an_example :
  let calls :=
    runner_calls
      (trace (run (evaluate_prompt (W := sample_world) "me/prompt" "eval" tt (-1)) 0%nat)) in
  calls = [login_example] /\ ~ (Z.of_nat (length calls) <= -1)%Z.
Proof.
  cbn zeta. split; [reflexivity|]. vm_compute. intros H. apply H. reflexivity.
Qed.

Lemma evaluate_prompt_runs_prefix_witness :
  let calls :=
    runner_calls
      (trace (run (evaluate_prompt (W := sample_world) "me/prompt" "eval" tt 1) 0%nat)) in
  (Z.of_nat (length calls) <= 1)%Z
  /\ calls `prefix_of` listed_examples (W := sample_world) "me/prompt" "eval" tt 0%nat.
Proof.
  apply (evaluate_prompt_runs_prefix (W := sample_world) "me/prompt" "eval" tt 1 0%nat).
  lia.
Defined.

Lemma main_prints_openai_key_witness :
  (exists rest,
     stdout (trace (run (main (W := sample_world) (sample_env "sk-1") sample_args) 0%nat))
     = "Executando avaliação dos prompts..."
       :: ("a chave openai é  " +:+ "sk-1")
       :: fst (fst (check_env_vars (World := sample_world) (sample_env "sk-1")
                      (required_vars (sample_env "sk-1")) 0%nat)) ++ rest)
  /\ stdout (trace (run (main (W := sample_world) (sample_env "sk-1") sample_args) 0%nat))
     <> stdout (trace (run (main (W := sample_world) (sample_env "sk-2") sample_args) 0%nat)).
Proof.
  apply (main_prints_openai_key (W := sample_world) (sample_env "sk-1") (sample_env "sk-2")
           sample_args sample_args 0%nat 0%nat "sk-1" "sk-2").
  - reflexivity.
  - reflexivity.
  - discriminate.
Defined.

Lemma push_pull_round_trip_witness :
  exists pulled d,
    hub_pull "me/prompt"
      (hub_push "me/prompt"
         {| messages :=
              Some [ {| class_name := "SystemMessagePromptTemplate";
                        prompt := Some {| template := Some "Você é um PM." |};
                        as_str := "Você é um PM." |};
                     {| class_name := "HumanMessagePromptTemplate";
                        prompt := Some {| template := Some "{bug_report}" |};
                        as_str := "{bug_report}" |};
                     {| class_name := "AIMessagePromptTemplate";
                        prompt := Some {| template := Some "Como usuário..." |};
                        as_str := "Como usuário..." |} ] |} ∅)
    = Ok pulled
    /\ extract_prompt_dict "me/prompt" pulled = Ok (PyDict d)
    /\ dict_lookup d "messages" = Some (PyList (map message_of_pair sample_pairs))
    /\ length (map message_of_pair sample_pairs) = length (messages_of sample_prompt).
Proof.
  apply (push_pull_round_trip sample_library ∅ "me/prompt" sample_prompt sample_pairs).
  - exact sample_library_builds_templates.
  - reflexivity.
  - reflexivity.
Defined.

(** The testable properties of the specification, run in the sample
    world. *)
Example loader_skips_blank_lines :
  value (run (load_dataset_from_jsonl (W := sample_world) jsonl_path) 0%nat)
  = Ok [PyDict [("inputs", PyDict []); ("outputs", PyDict [])];
        PyDict [("inputs", PyDict [])]].
Proof. reflexivity. Qed.

(** A line that holds a no-break space only is a blank line. *)
Example loader_skips_no_break_space :
  value (run (load_dataset_from_jsonl (W := sample_world) "datasets/spaced.jsonl") 0%nat)
  = Ok [PyDict [("inputs", PyDict []); ("outputs", PyDict [])];
        PyDict [("inputs", PyDict [])]].
Proof. reflexivity. Qed.

(** A content that is a no-break space is an empty message. *)
Example validate_prompt_no_break_space :
  validate_prompt no_break_space_prompt = Ok (false, ["Mensagem 0 está vazia"]).
Proof. reflexivity. Qed.

(** The mean of 0.03125 and four zeros is the binary64 number nearest to
    0.00625, which lies above it: [round] gives 0.0063. *)
Example evaluate_prompt_rounds_binary64 :
  round4 (average [1 # 32; 0; 0; 0; 0]%Q) = round64 0.0063.
Proof. vm_compute. reflexivity. Qed.

Example loader_missing_file :
  value (run (load_dataset_from_jsonl (W := sample_world) "datasets/none.jsonl") 0%nat)
  = Ok [].
Proof. reflexivity. Qed.

Example loader_malformed_line :
  value (run (load_dataset_from_jsonl (W := sample_world) "datasets/broken.jsonl") 0%nat)
  = Ok [].
Proof. reflexivity. Qed.

Example unanswered_run_scores_zero :
  value (run (evaluate_prompt (W := sample_world) "me/prompt" "unanswered" tt 10) 0%nat)
  = Ok zero_scores
  /\ verdict zero_scores = false.
Proof. split; reflexivity. Qed.

Example sample_run_passes :
  value (run (evaluate_prompt (W := sample_world) "me/prompt" "eval" tt 10) 0%nat)
  = Ok {| tone := round64 0.95; acceptance_criteria := round64 0.9;
          format := 1; completeness := round64 0.92 |}
  /\ exit_status (run (main (W := sample_world) (sample_env "sk-1") sample_args) 0%nat) = 0%Z.
Proof. split; vm_compute; reflexivity. Qed.

End SampleRuns.

(** * Further properties of the scripts *)

(** ** Creation of the evaluation dataset *)

Section DatasetCreation.
Import Evaluate Reference.
Context {W : World}.

Lemma run_bind_ok {A B} (m : IO ext A) (f : A -> IO ext B) (s : ext) (a : A) :
  value (run m s) = Ok a ->
  run (m ≫= f) s = followed_by (run m s) (run (f a) (after (run m s))).
Proof. intros H. rewrite run_bind, H. reflexivity. Qed.

Lemma run_bind_raise {A B} (m : IO ext A) (f : A -> IO ext B) (s : ext) (e : exn) :
  value (run m s) = Raise e ->
  run (m ≫= f) s = Outcome (trace (run m s)) (Raise e) (after (run m s)).
Proof. intros H. rewrite run_bind, H. reflexivity. Qed.

(** The upload of a list of examples is the upload of a first part
    followed by the upload of the rest. *)
Lemma create_examples_app (client : Client) (dataset_id : string)
    (first rest : list pyval) (s : ext) :
  value (run (create_examples client dataset_id first) s) = Ok tt ->
  run (create_examples client dataset_id (first ++ rest)) s
  = followed_by (run (create_examples client dataset_id first) s)
      (run (create_examples client dataset_id rest)
           (after (run (create_examples client dataset_id first) s))).
Proof.
  revert s. induction first as [|example first IH]; intros s Hfirst.
  - cbn. destruct (run (create_examples client dataset_id rest) s). reflexivity.
  - cbn [app create_examples] in *.
    destruct (py_getitem example "inputs") as [e|inputs]; [discriminate|].
    destruct (py_getitem example "outputs") as [e|outputs]; [discriminate|].
    cbn [lift] in *. io_step. io_step_in Hfirst.
    destruct (create_example client dataset_id inputs outputs s) as [[out [e|[]]] s1];
      cbn [value trace after] in *; [discriminate|].
    unfold followed_by. cbn [trace value after].
    rewrite (IH s1 Hfirst).
    unfold followed_by. cbn [trace value after app].
    rewrite app_assoc. reflexivity.
Qed.

(** X1: the upload stops at the first example without [inputs] or
    [outputs]: the examples before it are sent, the exception of the
    subscript leaves the loop, and no later example is sent. *)
Theorem create_examples_stops_at_malformed (client : Client) (dataset_id : string)
    (sent later : list pyval) (malformed : pyval) (e : exn) (s : ext) :
  value (run (create_examples client dataset_id sent) s) = Ok tt ->
  upload_fields malformed = Raise e ->
  run (create_examples client dataset_id (sent ++ malformed :: later)) s
  = Outcome (trace (run (create_examples client dataset_id sent) s))
            (Raise e)
            (after (run (create_examples client dataset_id sent) s)).
Proof.
  intros Hsent Hbad. rewrite (create_examples_app _ _ _ _ _ Hsent).
  unfold upload_fields in Hbad. unfold followed_by. cbn [create_examples].
  destruct (py_getitem malformed "inputs") as [e1|inputs].
  - injection Hbad as ->. io_step. rewrite app_nil_r. reflexivity.
  - destruct (py_getitem malformed "outputs") as [e2|outputs]; [|discriminate].
    injection Hbad as ->. io_step. rewrite app_nil_r. reflexivity.
Qed.

(** The value of the [try] block of [create_evaluation_dataset]. *)
Lemma dataset_sync_value (client : Client) (dataset_name : string)
    (examples : list pyval) (s : ext) :
  let body :=
    datasets ← external (list_datasets client dataset_name);
    match find (fun ds => String.eqb (ds_name ds) dataset_name) datasets with
    | Some _ => mret dataset_name
    | None =>
        dataset ← external (create_dataset client dataset_name);
        create_examples client (ds_id dataset) examples;;
        mret dataset_name
    end in
  value (run body s) = Ok dataset_name \/ exists e, value (run body s) = Raise e.
Proof.
  cbn zeta. rewrite value_external_bind.
  destruct (list_datasets client dataset_name s) as [[out [e|datasets]] s1]; [eauto|].
  destruct (find _ datasets); [left; reflexivity|].
  rewrite value_external_bind.
  destruct (create_dataset client dataset_name s1) as [[out2 [e|dataset]] s2]; [eauto|].
  rewrite value_bind.
  destruct (value (run (create_examples client (ds_id dataset) examples) s2)); eauto.
Qed.

(** X2: [create_evaluation_dataset] returns the name it was given,
    whatever the file holds and whatever the dataset store answers: no
    exception leaves it. *)
Theorem create_evaluation_dataset_returns_name (client : Client)
    (dataset_name path : string) (s : ext) :
  value (run (create_evaluation_dataset client dataset_name path) s) = Ok dataset_name.
Proof.
  unfold create_evaluation_dataset. rewrite value_bind.
  destruct (load_dataset_from_jsonl_returns path s) as [examples ->].
  destruct examples as [|example rest]; [reflexivity|].
  destruct (dataset_sync_value client dataset_name (example :: rest)
              (after (run (load_dataset_from_jsonl path) s))) as [Hok | [e Hraise]].
  - rewrite (run_try_ok _ _ _ _ Hok). exact Hok.
  - rewrite (run_try_raise _ _ _ _ Hraise). reflexivity.
Qed.

(** X3: when the file gives no example, the dataset store is not
    contacted: the run is the run of the loader. *)
Theorem create_evaluation_dataset_without_examples (client : Client)
    (dataset_name path : string) (s : ext) :
  value (run (load_dataset_from_jsonl path) s) = Ok [] ->
  run (create_evaluation_dataset client dataset_name path) s
  = Outcome (trace (run (load_dataset_from_jsonl path) s)) (Ok dataset_name)
            (after (run (load_dataset_from_jsonl path) s)).
Proof.
  intros Hload. unfold create_evaluation_dataset.
  rewrite (run_bind_ok _ _ _ _ Hload). unfold followed_by. io_step.
  rewrite app_nil_r. reflexivity.
Qed.

(** X4: when the store already lists a dataset of that name, nothing is
    created: the run ends with the listing. *)
Theorem create_evaluation_dataset_existing (client : Client)
    (dataset_name path : string) (s s1 : ext) (examples : list pyval)
    (out : list string) (datasets : list Dataset) :
  value (run (load_dataset_from_jsonl path) s) = Ok examples ->
  examples <> [] ->
  list_datasets client dataset_name (after (run (load_dataset_from_jsonl path) s))
  = (out, Ok datasets, s1) ->
  (exists ds, In ds datasets /\ ds_name ds = dataset_name) ->
  run (create_evaluation_dataset client dataset_name path) s
  = Outcome (trace (run (load_dataset_from_jsonl path) s) ++ map Printed out)
            (Ok dataset_name) s1.
Proof.
  intros Hload Hne Hlist [ds [Hin Hname]]. unfold create_evaluation_dataset.
  rewrite (run_bind_ok _ _ _ _ Hload). unfold followed_by.
  destruct examples as [|example rest]; [contradiction|].
  assert (Hfind : exists found,
             find (fun d => String.eqb (ds_name d) dataset_name) datasets = Some found).
  { destruct (find _ datasets) as [found|] eqn:Hfind; [eauto|].
    exfalso. apply (find_none _ _ Hfind) in Hin.
    rewrite Hname, String.eqb_refl in Hin. discriminate. }
  destruct Hfind as [found Hfind].
  unfold try_except. io_step. rewrite Hlist. cbn [trace value after].
  rewrite Hfind. io_step. rewrite !app_nil_r. reflexivity.
Qed.

End DatasetCreation.

(** ** Resolution of the prompt *)

Section PromptResolution.
Import Evaluate Reference.
Context {W : World}.

(** X5: [pull_prompt_from_langsmith] hands on what [hub.pull] gives:
    the prompt it returns or the exception it raises, and the state it
    leaves; when the pull succeeds the function prints nothing of its
    own. *)
Theorem pull_prompt_from_langsmith_transparent (prompt_name : string) (s : ext) :
  let o := run (pull_prompt_from_langsmith prompt_name) s in
  let pulled := hub_pull prompt_name s in
  value o = snd (fst pulled)
  /\ after o = snd pulled
  /\ match snd (fst pulled) with
     | Ok _ => stdout (trace o) = fst (fst pulled)
     | Raise _ => exists own, own <> [] /\ stdout (trace o) = fst (fst pulled) ++ own
     end.
Proof.
  cbn zeta. unfold pull_prompt_from_langsmith. io_step.
  destruct (hub_pull prompt_name s) as [[out [e|p]] s']; io_step; cbn [fst snd].
  - destruct (contains "not found" (lower (exn_str e)) || contains "404" (lower (exn_str e)));
      io_step; (split; [reflexivity|split; [reflexivity|]]);
      rewrite stdout_app, stdout_printed; eexists; (split; [|reflexivity]); discriminate.
  - rewrite app_nil_r, stdout_printed. auto.
Qed.

Lemma prefix_lower (p s : string) :
  String.prefix p s = true -> String.prefix (lower p) (lower s) = true.
Proof.
  revert s. induction p as [|c p IH]; intros s; [destruct s; reflexivity|].
  destruct s as [|d s]; cbn [String.prefix lower]; [discriminate|].
  destruct (ascii_dec c d) as [->|Hne]; [|discriminate].
  intros H. destruct (ascii_dec (lower_ascii d) (lower_ascii d)); [auto|contradiction].
Qed.

(** A substring stays a substring when both strings are lowered. *)
Lemma contains_lower (needle hay : string) :
  contains needle hay = true -> contains (lower needle) (lower hay) = true.
Proof.
  induction hay as [|c hay IH]; cbn [contains lower].
  - rewrite !orb_false_r. apply prefix_lower.
  - rewrite !orb_true_iff. intros [H|H]; [left | right; auto].
    apply (prefix_lower needle (String c hay) H).
Qed.

(** X6: the not-found remedy is chosen whatever the letter case: when
    the text of the exception holds "not found" in any mix of upper and
    lower case, or "404", the function prints the list of actions and
    not the technical error. *)
Theorem pull_prompt_from_langsmith_not_found (prompt_name needle : string) (s s' : ext)
    (out : list string) (e : exn) :
  hub_pull prompt_name s = (out, Raise e, s') ->
  lower needle = "not found" \/ needle = "404" ->
  contains needle (exn_str e) = true ->
  exists own,
    stdout (trace (run (pull_prompt_from_langsmith prompt_name) s)) = out ++ own
    /\ In "AÇÕES NECESSÁRIAS:" own
    /\ ~ In ("Erro técnico: " +:+ exn_str e +:+ nl) own.
Proof.
  intros Hpull Hneedle Hcontains.
  assert (Hfound : contains "not found" (lower (exn_str e))
                   || contains "404" (lower (exn_str e)) = true).
  { apply contains_lower in Hcontains. apply orb_true_iff.
    destruct Hneedle as [Hn | ->]; [left; rewrite <- Hn | right]; exact Hcontains. }
  unfold pull_prompt_from_langsmith. io_step. rewrite Hpull. io_step.
  rewrite Hfound. io_step. rewrite stdout_app, stdout_printed.
  eexists. split; [reflexivity|]. cbn [stdout app]. split.
  - cbn [In]. tauto.
  - cbn [In String.append]. intros H.
    repeat (destruct H as [H|H]; [discriminate H|]). exact H.
Qed.

End PromptResolution.

(** ** Failures around the evaluation *)

Section EvaluationFailures.
Import Evaluate Reference.
Context {W : World}.

Lemma runner_calls_prepare (prompt_name dataset_name : string) (client : Client) (s : ext) :
  runner_calls (trace (run (prepare prompt_name dataset_name client) s)) = [].
Proof.
  unfold prepare. rewrite run_bind.
  assert (Hpull := runner_calls_pull prompt_name s).
  destruct (value (run (pull_prompt_from_langsmith prompt_name) s)); cbn [trace];
    [exact Hpull|].
  rewrite runner_calls_app, Hpull. cbn [app]. rewrite run_bind. cbn [external run].
  destruct (list_examples client dataset_name _) as [[out1 [e|examples]] s1];
    cbn [value trace after]; [apply runner_calls_printed|].
  rewrite runner_calls_app, runner_calls_printed. cbn [app].
  unfold get_llm. rewrite run_bind. cbn [external run].
  destruct (get_configured_llm 1.0 s1) as [[out2 [e|llm]] s2];
    cbn [value trace after]; [apply runner_calls_printed|].
  io_step. rewrite app_nil_r. apply runner_calls_printed.
Qed.

(** X7: when a step before the first example fails (the pull of the
    prompt, the listing of the examples, the construction of the model
    client), [evaluate_prompt] returns the all-zero scores, runs the
    Example Runner on no example, leaves the state where the failed step
    left it, and ends its output with the text of the exception. *)
Theorem evaluate_prompt_setup_failure (prompt_name dataset_name : string)
    (client : Client) (max_examples : Z) (s : ext) (e : exn) :
  value (run (prepare prompt_name dataset_name client) s) = Raise e ->
  let o := run (evaluate_prompt prompt_name dataset_name client max_examples) s in
  value o = Ok zero_scores
  /\ runner_calls (trace o) = []
  /\ after o = after (run (prepare prompt_name dataset_name client) s)
  /\ stdout (trace o)
     = stdout (trace (run (prepare prompt_name dataset_name client) s))
       ++ ["   ❌ Erro na avaliação: " +:+ exn_str e].
Proof.
  intros Hprep. cbn zeta.
  assert (Hcalls := runner_calls_prepare prompt_name dataset_name client s).
  revert Hprep Hcalls. unfold evaluate_prompt, prepare.
  set (pull := pull_prompt_from_langsmith prompt_name).
  unfold try_except. cbn [run]. rewrite !run_bind.
  destruct (value (run pull s)) as [e0|prompt_template] eqn:Hpull.
  - cbn [value trace after]. intros [= ->] Hcalls. io_step.
    rewrite runner_calls_app, stdout_app, Hcalls. cbn [trace value after].
    repeat split; reflexivity.
  - cbn [value trace after]. rewrite !run_bind. cbn [external run].
    destruct (list_examples client dataset_name (after (run pull s)))
      as [[out1 [e1|examples]] s1]; cbn [value trace after].
    + intros [= ->] Hcalls. io_step.
      rewrite runner_calls_app, stdout_app, Hcalls.
      repeat split; reflexivity.
    + rewrite !run_bind. unfold get_llm. cbn [external run].
      destruct (get_configured_llm 1.0 s1) as [[out2 [e2|llm]] s2];
        cbn [value trace after].
      * intros [= ->] Hcalls. io_step.
        rewrite runner_calls_app, stdout_app, Hcalls.
        repeat split; reflexivity.
      * io_step. discriminate.
Qed.

End EvaluationFailures.

(** ** Range of the aggregate scores *)

Section ScoreRange.
Import Evaluate Reference.
Context {W : World}.

Lemma aggregate_metric_in_unit (xs : list Q) :
  Forall in_unit xs -> in_unit (aggregate_metric xs).
Proof.
  intros Hxs. destruct xs as [|x xs]; [split; cbn; lra|].
  apply round4_in_unit, mean64_in_unit; [discriminate | exact Hxs].
Qed.

(** The metrics recorded in a run are what the evaluators returned. *)
Lemma run_examples_in_unit (prompt_template : ChatPromptTemplate) (llm : LLM)
    (examples : list Example) :
  evaluators_in_unit ->
  forall (s : ext) (rs : list ExampleRun),
    value (run (run_examples prompt_template llm examples) s) = Ok rs ->
    Forall (fun r => forall m, run_metrics r = Some m ->
                       in_unit (tone_of m) /\ in_unit (acceptance_of m)
                       /\ in_unit (format_of m) /\ in_unit (completeness_of m)) rs.
Proof.
  intros Hev. induction examples as [|example rest IH]; intros s rs Hrs.
  - cbn in Hrs. injection Hrs as <-. constructor.
  - cbn [run_examples] in Hrs. rewrite value_bind in Hrs.
    destruct (value (run (run_example prompt_template llm example) s)) as [e|r] eqn:Hr;
      [discriminate|].
    rewrite value_bind in Hrs.
    destruct (value (run (run_examples prompt_template llm rest) _)) as [e|rs'] eqn:Hrest;
      [discriminate|].
    cbn in Hrs. injection Hrs as <-.
    constructor; [|eapply IH; exact Hrest].
    intros m Hm. unfold run_example in Hr. rewrite value_bind in Hr.
    destruct (value (run (evaluate_prompt_on_example prompt_template example llm) s))
      as [e|result]; [discriminate|].
    destruct (truthy (answer result)).
    + repeat (rewrite value_bind, run_metric in Hr; cbn [value after] in Hr).
      cbn in Hr. injection Hr as <-. cbn in Hm. injection Hm as <-.
      unfold tone_of, acceptance_of, format_of, completeness_of. cbn [fst snd].
      repeat split; apply Hev.
    + cbn in Hr. injection Hr as <-. discriminate.
Qed.

Lemma metric_scores_in_unit (pick : MetricScore * MetricScore * MetricScore * MetricScore -> Q)
    (rs : list ExampleRun) :
  Forall (fun r => forall m, run_metrics r = Some m -> in_unit (pick m)) rs ->
  Forall in_unit (metric_scores pick rs).
Proof.
  intros Hrs. unfold metric_scores.
  induction Hrs as [|r rs Hr _ IH]; [constructor|].
  destruct (decide (answered r = true)) as [Ha|Ha].
  - rewrite filter_cons_True by exact Ha. cbn [omap list_omap].
    destruct (run_metrics r) as [m|] eqn:Hm; cbn [fmap option_fmap option_map];
      [constructor; [apply (Hr m eq_refl) | exact IH] | exact IH].
  - rewrite filter_cons_False by exact Ha. exact IH.
Qed.

(** X8: when the evaluators return scores between 0 and 1, so are the
    four aggregate scores [evaluate_prompt] returns: neither the
    average nor the rounding leaves the interval. *)
Theorem evaluate_prompt_scores_in_unit (prompt_name dataset_name : string)
    (client : Client) (max_examples : Z) (s : ext) (scores : AggregateScores) :
  evaluators_in_unit ->
  value (run (evaluate_prompt prompt_name dataset_name client max_examples) s) = Ok scores ->
  in_unit (tone scores) /\ in_unit (acceptance_criteria scores)
  /\ in_unit (format scores) /\ in_unit (completeness scores).
Proof.
  intros Hev Hscores. rewrite evaluate_prompt_value in Hscores.
  injection Hscores as <-.
  assert (Hruns : Forall (fun r => forall m, run_metrics r = Some m ->
                       in_unit (tone_of m) /\ in_unit (acceptance_of m)
                       /\ in_unit (format_of m) /\ in_unit (completeness_of m))
                    (example_runs prompt_name dataset_name client max_examples s)).
  { unfold example_runs.
    destruct (value (run (prepare prompt_name dataset_name client) s))
      as [e|[[prompt_template examples] llm]]; [constructor|].
    destruct (value (run (run_examples prompt_template llm _) _)) as [e|rs] eqn:Hrs;
      [constructor|].
    eapply run_examples_in_unit; [exact Hev | exact Hrs]. }
  unfold aggregate. cbn [tone acceptance_criteria format completeness].
  repeat split; apply aggregate_metric_in_unit, metric_scores_in_unit;
    (eapply Forall_impl; [exact Hruns|]); intros r Hr m Hm; apply (Hr m Hm).
Qed.

End ScoreRange.

(** ** Early exits of the driver *)

Section DriverExits.
Import Evaluate Reference.
Context {W : World}.

Lemma run_external_bind {A B} (f : ext -> list string * result A * ext)
    (k : A -> IO ext B) (s : ext) :
  run (external f ≫= k) s =
  match f s with
  | (out, Raise e, s') => Outcome (map Printed out) (Raise e) s'
  | (out, Ok a, s') =>
      Outcome (map Printed out ++ trace (run (k a) s'))
              (value (run (k a) s')) (after (run (k a) s'))
  end.
Proof.
  rewrite run_bind. cbn [external run].
  destruct (f s) as [[out [e|a]] s']; reflexivity.
Qed.

(** X9: when the credential check fails, [main] stops there: it returns
    1 having printed the banner, the line of the credential and what the
    check printed, and the state is the one the check left (no client
    is built, no file is read, nothing is evaluated). *)
Theorem main_stops_at_failed_check (env : gmap string string) (args : Args)
    (s s1 : ext) (out : list string) :
  check_env_vars env (required_vars env) s = (out, Ok false, s1) ->
  run (main env args) s
  = Outcome (Printed "Executando avaliação dos prompts..."
             :: Printed (key_line (str_of_getenv (env !! "OPENAI_API_KEY")))
             :: map Printed out)
            (Ok 1%Z) s1.
Proof.
  intros Hcheck. unfold main. fold (required_vars env).
  rewrite !run_print_then, run_external_bind, Hcheck. cbn [negb].
  io_step. rewrite app_nil_r. reflexivity.
Qed.

(** X10: when the dataset file is not there, [main] returns 1 after the
    diagnostic and leaves the state as the test of the file left it:
    the dataset store is not contacted and no prompt is evaluated. *)
Theorem main_stops_at_missing_dataset (env : gmap string string) (args : Args)
    (s s1 s2 s3 : ext) (out1 out2 out3 : list string) (client : Client) :
  check_env_vars env (required_vars env) s = (out1, Ok true, s1) ->
  new_Client s1 = (out2, Ok client, s2) ->
  path_exists jsonl_path s2 = (out3, Ok false, s3) ->
  let o := run (main env args) s in
  value o = Ok 1%Z
  /\ after o = s3
  /\ runner_calls (trace o) = []
  /\ stdout (trace o)
     = "Executando avaliação dos prompts..."
       :: key_line (str_of_getenv (env !! "OPENAI_API_KEY"))
       :: out1 ++ out2 ++ out3
          ++ ["❌ Arquivo de dataset não encontrado: datasets/bug_to_user_story.jsonl"].
Proof.
  intros Hcheck Hclient Hpath. cbn zeta. unfold main.
  fold (required_vars env). fold jsonl_path.
  rewrite !run_print_then, run_external_bind, Hcheck. cbn [negb].
  rewrite run_external_bind, Hclient, run_external_bind, Hpath. cbn [negb].
  io_step. cbn [trace value after stdout runner_calls].
  rewrite !runner_calls_app, !runner_calls_printed, !stdout_app, !stdout_printed.
  repeat split; reflexivity.
Qed.

(** X11: [main] does not absorb a failure of [Client()]: the exception
    leaves [main], before the dataset file is looked for. *)
Theorem main_lets_client_failure_out (env : gmap string string) (args : Args)
    (s s1 s2 : ext) (out1 out2 : list string) (e : exn) :
  check_env_vars env (required_vars env) s = (out1, Ok true, s1) ->
  new_Client s1 = (out2, Raise e, s2) ->
  value (run (main env args) s) = Raise e
  /\ after (run (main env args) s) = s2
  /\ exit_status (run (main env args) s) = 1%Z.
Proof.
  intros Hcheck Hclient. unfold exit_status, main. fold (required_vars env).
  rewrite !run_print_then, run_external_bind, Hcheck. cbn [negb].
  rewrite run_external_bind, Hclient. repeat split; reflexivity.
Qed.

End DriverExits.

(** ** Diagnostics of the runner and of the loader *)

Section Diagnostics.
Import Evaluate Reference.
Context {W : World}.

(** X12: a failure of the runner is never silent: when building the
    chain, invoking it or reading the content of the response raises an
    exception, the output of the runner is what the invocation printed,
    followed by the text of that exception and by its traceback. *)
Theorem evaluate_prompt_on_example_reports_failure (prompt_template : ChatPromptTemplate)
    (example : Example) (llm : LLM) (s : ext) (out : list string) (e : exn) :
  runner_failure prompt_template example llm s = Some (out, e) ->
  stdout (trace (run (evaluate_prompt_on_example prompt_template example llm) s))
  = out ++ ["      ⚠️  Erro ao avaliar exemplo: " +:+ exn_str e;
            "      Traceback: " +:+ format_exc e].
Proof.
  unfold runner_failure, evaluate_prompt_on_example, inputs_of. intros Hfail. io_step.
  destruct (pipe prompt_template llm) as [e'|chain]; io_step.
  - injection Hfail as <- <-. reflexivity.
  - destruct (invoke chain _ s) as [[out' [e'|response]] s']; io_step.
    + injection Hfail as <- <-. cbn [stdout app]. rewrite stdout_app, stdout_printed.
      reflexivity.
    + destruct (content response) as [e'|text]; io_step; [|discriminate].
      injection Hfail as <- <-. cbn [stdout app]. rewrite !stdout_app, stdout_printed.
      cbn [stdout]. rewrite app_nil_r. reflexivity.
Qed.

(** X13: the loader is silent exactly when it loads: what it prints
    beyond the output of the file system is empty when the file is read
    and every non-blank line parses, and a diagnostic otherwise; an
    empty result without diagnostic means a file without examples. *)
Theorem load_dataset_from_jsonl_diagnostic (path : string) (s : ext) :
  let opened := open_lines path s in
  exists own,
    stdout (trace (run (load_dataset_from_jsonl path) s)) = fst (fst opened) ++ own
    /\ after (run (load_dataset_from_jsonl path) s) = snd opened
    /\ (own = [] <->
        exists f examples,
          snd (fst opened) = Ok f /\ loaded f = Some examples
          /\ value (run (load_dataset_from_jsonl path) s) = Ok examples).
Proof.
  cbn zeta. unfold load_dataset_from_jsonl, try_except. cbn [run].
  rewrite run_external_bind.
  destruct (open_lines path s) as [[out [e|f]] s']; cbn [fst snd value trace after].
  - exists (loader_diagnostic path e). unfold loader_diagnostic.
    destruct (exn_cls e); io_step; rewrite stdout_app, stdout_printed;
      (split; [reflexivity | split; [reflexivity|]]);
      (split; [discriminate | intros [f [ex [H _]]]; discriminate]).
  - assert (Hloop := read_examples_loaded f []). io_step.
    destruct (read_examples f []) as [e|examples].
    + exists (loader_diagnostic path e). unfold loader_diagnostic.
      destruct (loaded f) as [l|] eqn:Hl; [discriminate|].
      destruct (exn_cls e); io_step; rewrite !stdout_app, stdout_printed;
        cbn [stdout app]; rewrite ?app_nil_r;
        (split; [reflexivity | split; [reflexivity|]]);
        (split; [discriminate | intros [f' [ex [H1 [H2 _]]]]]);
        congruence.
    + exists []. cbn [trace value after]. rewrite !app_nil_r, stdout_printed.
      split; [reflexivity | split; [reflexivity|]].
      split; [|reflexivity]. intros _.
      destruct (loaded f) as [l|] eqn:Hl; [|discriminate].
      cbn in Hloop. injection Hloop as ->. exists f, l.
      split; [reflexivity | split; [exact Hl | reflexivity]].
Qed.

End Diagnostics.

(** ** Validation and construction of the template *)

Section ValidationDomain.
Import Langchain PushPrompts Reference.

Lemma check_contents_ill_formed (msgs : list pyval) :
  forallb message_well_formed msgs = false ->
  forall i errors, exists e, check_contents i msgs errors = Raise e.
Proof.
  induction msgs as [|msg rest IH]; [discriminate|].
  cbn [forallb]. intros H i errors.
  destruct (message_well_formed msg) eqn:Hmsg.
  - cbn [andb] in H. cbn [check_contents].
    destruct msg as [| | | | | |d]; try discriminate.
    cbn [py_get mbind result_bind]. unfold message_well_formed in Hmsg. unfold dict_get.
    destruct (dict_lookup d "content") as [[| | | |text| |]|]; try discriminate;
      cbn [py_strip mbind result_bind];
      match goal with |- context [if ?c then _ else _] => destruct c end; apply (IH H).
  - cbn [check_contents].
    destruct msg as [| | | | | |d]; try (eexists; reflexivity).
    cbn [py_get mbind result_bind]. unfold message_well_formed in Hmsg. unfold dict_get.
    destruct (dict_lookup d "content") as [[| | | |text| |]|]; try discriminate;
      eexists; reflexivity.
Qed.

(** X14: [validate_prompt] returns a pair exactly when [messages] is
    missing, is a list of dicts whose content (when present) is a
    string, or is an empty string or dict; on every other prompt it
    raises. *)
Theorem validate_prompt_returns_iff (prompt_data : list (string * pyval)) :
  (exists verdict, validate_prompt prompt_data = Ok verdict)
  <-> validation_returns prompt_data = true.
Proof.
  unfold validate_prompt, validation_returns, dict_get.
  destruct (dict_lookup prompt_data "messages") as [[| | | |s|msgs|d]|];
    cbn [py_iter mbind result_bind];
    try (split; [intros [v H]; discriminate | discriminate]).
  - destruct s as [|c s].
    + split; [reflexivity | intros _; eexists; reflexivity].
    + destruct (chars_cons c s) as (first & rest & Hchars). rewrite Hchars.
      split; [intros [v H]; discriminate | discriminate].
  - destruct (forallb message_well_formed msgs) eqn:Hwf.
    + split; [reflexivity | intros _].
      rewrite (any_system_well_formed _ Hwf). cbn [mbind result_bind].
      rewrite (check_contents_well_formed _ _ _ Hwf). eexists. reflexivity.
    + split; [|discriminate]. intros [v H].
      destruct (any_system msgs) as [e|has_system]; [discriminate|].
      cbn [mbind result_bind] in H.
      match type of H with
      | context [check_contents ?i msgs ?errs] =>
          destruct (check_contents_ill_formed msgs Hwf i errs) as [e He]; rewrite He in H
      end.
      discriminate.
  - destruct d as [|[k v] d].
    + split; [reflexivity | intros _; eexists; reflexivity].
    + split; [intros [r H]; discriminate | discriminate].
  - split; [reflexivity | intros _; eexists; reflexivity].
Qed.

(** X15: the four branches of the role dispatch of the push build the
    same pair: whatever the roles, the messages that are dicts give
    their role (or [system]) and content (or the empty string), in
    order; a message that is not a dict makes the loop raise. *)
Theorem collect_messages_keeps_pairs (msgs : list pyval) (messages : list (pyval * pyval)) :
  match mapM message_pair msgs with
  | Some pairs => collect_messages msgs messages = Ok (messages ++ pairs)
  | None => exists e, collect_messages msgs messages = Raise e
  end.
Proof.
  revert messages. induction msgs as [|msg rest IH]; intros messages.
  - cbn. rewrite app_nil_r. reflexivity.
  - cbn [mapM collect_messages].
    destruct msg as [| | | | | |d]; cbn [message_pair mbind option_bind py_get result_bind];
      try (eexists; reflexivity).
    set (role := dict_get d "role" (PyStr "system")).
    set (text := dict_get d "content" (PyStr "")).
    assert (Hrole : forall name, py_eq_str role name = true -> PyStr name = role).
    { intros name H. destruct role; try discriminate.
      cbn in H. apply String.eqb_eq in H. congruence. }
    assert (Hstep : forall acc,
      (if py_eq_str role "system"
       then collect_messages rest (acc ++ [(PyStr "system", text)])
       else if py_eq_str role "human"
            then collect_messages rest (acc ++ [(PyStr "human", text)])
            else if py_eq_str role "ai"
                 then collect_messages rest (acc ++ [(PyStr "ai", text)])
                 else collect_messages rest (acc ++ [(role, text)]))
      = collect_messages rest (acc ++ [(role, text)])).
    { intros acc.
      destruct (py_eq_str role "system") eqn:H1; [rewrite (Hrole _ H1); reflexivity|].
      destruct (py_eq_str role "human") eqn:H2; [rewrite (Hrole _ H2); reflexivity|].
      destruct (py_eq_str role "ai") eqn:H3; [rewrite (Hrole _ H3); reflexivity|].
      reflexivity. }
    rewrite Hstep. specialize (IH (messages ++ [(role, text)])).
    destruct (mapM message_pair rest) as [pairs|]; cbn.
    + rewrite IH, <- app_assoc. reflexivity.
    + exact IH.
Qed.

End ValidationDomain.

(** ** The push script *)

Section EffectFacts.
Context {S : Type}.

Lemma run_external_then {A B} (f : S -> list string * result A * S)
    (k : A -> IO S B) (s : S) :
  run (external f ≫= k) s =
  match f s with
  | (out, Raise e, s') => Outcome (map Printed out) (Raise e) s'
  | (out, Ok a, s') =>
      Outcome (map Printed out ++ trace (run (k a) s'))
              (value (run (k a) s')) (after (run (k a) s'))
  end.
Proof.
  rewrite run_bind. cbn [external run].
  destruct (f s) as [[out [e|a]] s']; reflexivity.
Qed.

Lemma run_lift_then {A B} (r : result A) (k : A -> IO S B) (s : S) :
  run (lift r ≫= k) s =
  match r with
  | Raise e => Outcome [] (Raise e) s
  | Ok a => run (k a) s
  end.
Proof.
  rewrite run_bind. cbn [lift run value trace after app].
  destruct r as [e|a]; [reflexivity|]. destruct (run (k a) s); reflexivity.
Qed.

Lemma run_try_except {A} (body : IO S A) (handler : exn -> IO S A) (s : S) :
  run (try_except body handler) s =
  match value (run body s) with
  | Ok a => run body s
  | Raise e =>
      Outcome (trace (run body s) ++ trace (run (handler e) (after (run body s))))
              (value (run (handler e) (after (run body s))))
              (after (run (handler e) (after (run body s))))
  end.
Proof. reflexivity. Qed.

(** The same steps, with the outcome of the continuation at hand. *)
Lemma ran_external {A B} (f : S -> list string * result A * S) (k : A -> IO S B)
    (s s' s'' : S) (out : list string) (a : A) (t : list event) (v : result B) :
  f s = (out, Ok a, s') ->
  run (k a) s' = Outcome t v s'' ->
  run (external f ≫= k) s = Outcome (map Printed out ++ t) v s''.
Proof. intros Hf Hk. rewrite run_external_then, Hf, Hk. reflexivity. Qed.

Lemma ran_print {B} (line : string) (k : IO S B) (s s'' : S) (t : list event)
    (v : result B) :
  run k s = Outcome t v s'' ->
  run (print line;; k) s = Outcome (Printed line :: t) v s''.
Proof. intros Hk. rewrite run_print_then, Hk. reflexivity. Qed.

Lemma ran_lift {A B} (r : result A) (k : A -> IO S B) (s s'' : S) (a : A)
    (t : list event) (v : result B) :
  r = Ok a ->
  run (k a) s = Outcome t v s'' ->
  run (lift r ≫= k) s = Outcome t v s''.
Proof. intros -> Hk. rewrite run_lift_then. exact Hk. Qed.

Lemma ran_bind {A B} (m : IO S A) (k : A -> IO S B) (s s' s'' : S) (a : A)
    (t t' : list event) (v : result B) :
  run m s = Outcome t (Ok a) s' ->
  run (k a) s' = Outcome t' v s'' ->
  run (m ≫= k) s = Outcome (t ++ t') v s''.
Proof. intros Hm Hk. rewrite run_bind, Hm. cbn [value trace after]. rewrite Hk. reflexivity. Qed.

End EffectFacts.

Section Push.
Import Langchain PushPrompts PushScript Reference.
Context {L : Library} {H : Host}.

(** X16: whenever the labels of a push are computed, [bug-to-user-story]
    is among them, and labels given as a list are kept in front, in
    their order; a label given as a string is wrapped, not split. *)
Theorem push_labels_tagged (prompt_data : list (string * pyval)) (tags : pyval) :
  push_labels prompt_data = Ok tags ->
  py_contains tags "bug-to-user-story" = Ok true
  /\ match dict_get prompt_data "techniques_applied" (PyList []) with
     | PyList given => exists added, tags = PyList (given ++ added)
     | PyStr given => exists added, tags = PyList (PyStr given :: added)
     | other => tags = other
     end.
Proof.
  unfold push_labels.
  destruct (dict_get prompt_data "techniques_applied" (PyList []))
    as [| | | |given|given|given]; cbn [py_contains mbind result_bind]; try discriminate.
  - cbn [existsb py_eq_str]. rewrite orb_false_r.
    destruct (String.eqb given "bug-to-user-story") eqn:Hg; cbn [negb py_append].
    + intros [= <-]. cbn [py_contains existsb py_eq_str]. rewrite Hg.
      split; [reflexivity | exists []; reflexivity].
    + intros [= <-]. cbn [py_contains existsb py_eq_str app]. rewrite Hg.
      split; [reflexivity | eexists; reflexivity].
  - destruct (existsb (fun x => py_eq_str x "bug-to-user-story") given) eqn:Hg;
      cbn [negb py_append].
    + intros [= <-]. cbn [py_contains]. rewrite Hg.
      split; [reflexivity | exists []; rewrite app_nil_r; reflexivity].
    + intros [= <-]. cbn [py_contains]. rewrite existsb_app. cbn. rewrite orb_true_r.
      split; [reflexivity | eexists; reflexivity].
  - destruct (dict_lookup given "bug-to-user-story") eqn:Hg; cbn [negb py_append].
    + intros [= <-]. cbn [py_contains]. rewrite Hg. split; reflexivity.
    + discriminate.
Qed.

(** The [except] clause of the push prints one line and returns
    [False]. *)
Lemma push_handler (e : exn) (s : ext) :
  exists line,
    run ((if contains "authentication" (lower (exn_str e))
             || contains "api key" (lower (exn_str e))
          then print "❌ Erro de autenticação: Verifique LANGSMITH_API_KEY no .env"
          else print ("❌ Erro ao fazer push do prompt: " +:+ exn_str e));;
         mret false) s
    = Outcome [Printed line] (Ok false) s.
Proof.
  destruct (contains "authentication" (lower (exn_str e))
            || contains "api key" (lower (exn_str e))); eexists; reflexivity.
Qed.

(** X17: the push never raises, and it returns [True] exactly when the
    template is built from at least one message, the labels and the
    head of the description are computed, and [hub.push] returns. *)
Theorem push_prompt_to_langsmith_succeeds_iff (prompt_name : string)
    (prompt_data : list (string * pyval)) (s : ext) :
  exists success,
    value (run (push_prompt_to_langsmith prompt_name prompt_data) s) = Ok success
    /\ (success = true <->
        exists p tags shown out s',
          build_template prompt_data = Ok (Some p)
          /\ push_labels prompt_data = Ok tags
          /\ py_slice_to (description_of prompt_data) 50 = Ok shown
          /\ hub_push prompt_name p (description_of prompt_data) tags s = (out, Ok tt, s')).
Proof.
  unfold push_prompt_to_langsmith, description_of.
  rewrite run_try_except, run_print_then. cbn [value trace after].
  rewrite run_lift_then.
  destruct (build_template prompt_data) as [e|[p|]]; cbn [value trace after].
  - destruct (push_handler e s) as [line ->]. exists false.
    split; [reflexivity|].
    split; [discriminate | intros (? & ? & ? & ? & ? & ? & _); discriminate].
  - rewrite run_lift_then.
    destruct (push_labels prompt_data) as [e|tags]; cbn [value trace after].
    { destruct (push_handler e s) as [line ->]. exists false.
      split; [reflexivity|].
      split; [discriminate | intros (? & ? & ? & ? & ? & _ & ? & _); discriminate]. }
    rewrite run_lift_then.
    destruct (py_slice_to _ 50) as [e|shown]; cbn [value trace after].
    { destruct (push_handler e s) as [line ->]. exists false.
      split; [reflexivity|].
      split; [discriminate | intros (? & ? & ? & ? & ? & _ & _ & ? & _); discriminate]. }
    rewrite !run_print_then. cbn [value trace after]. rewrite run_external_then.
    destruct (hub_push prompt_name p _ tags s) as [[out [e|[]]] s'] eqn:Hpush;
      cbn [value trace after].
    + destruct (push_handler e s') as [line ->]. exists false.
      split; [reflexivity|].
      split; [discriminate|].
      intros (p' & tags' & shown' & out' & s'' & Hp & Ht & _ & Hh).
      injection Hp as <-. injection Ht as <-. rewrite Hpush in Hh. discriminate.
    + exists true. split; [reflexivity|]. split; [|reflexivity].
      intros _. exists p, tags, shown, out, s'. auto.
  - exists false. split; [reflexivity|].
    split; [discriminate | intros (? & ? & ? & ? & ? & ? & _); discriminate].
Qed.

(** X18: a prompt without messages is not pushed: the push prints its
    first line and the diagnostic, returns [False] and leaves the
    registry as it was. *)
Theorem push_prompt_to_langsmith_without_messages (prompt_name : string)
    (prompt_data : list (string * pyval)) (s : ext) :
  py_iter (dict_get prompt_data "messages" (PyList [])) = Ok [] ->
  run (push_prompt_to_langsmith prompt_name prompt_data) s
  = Outcome [Printed ("📤 Fazendo push do prompt: " +:+ prompt_name);
             Printed "❌ Nenhuma mensagem encontrada no prompt"]
            (Ok false) s.
Proof.
  intros Hmsgs. unfold push_prompt_to_langsmith.
  rewrite run_try_except, run_print_then. cbn [value trace after].
  rewrite run_lift_then. unfold build_template. rewrite Hmsgs.
  reflexivity.
Qed.

(** The exception [push_labels] raises is a [TypeError] on labels that
    are no container, or an [AttributeError] on labels that are a dict;
    its text names neither the authentication nor the API key. *)
Lemma push_labels_raise (prompt_data : list (string * pyval)) (e : exn) :
  push_labels prompt_data = Raise e ->
  contains "authentication" (lower (exn_str e)) || contains "api key" (lower (exn_str e))
  = false.
Proof.
  unfold push_labels.
  destruct (dict_get prompt_data "techniques_applied" (PyList []))
    as [| | | |given|given|given]; cbn [py_contains mbind result_bind].
  1-4: intros [= <-]; vm_compute; reflexivity.
  - destruct (negb _); discriminate.
  - destruct (negb _); discriminate.
  - destruct (dict_lookup given "bug-to-user-story"); cbn [negb py_append].
    + discriminate.
    + intros [= <-]. vm_compute. reflexivity.
Qed.

(** X19: labels that are neither a string nor a list (a
    [techniques_applied:] left empty in the file, a number, a mapping
    without the label) stop the push before the registry is contacted:
    the push reports the exception and returns [False]. *)
Theorem push_prompt_to_langsmith_unusable_labels (prompt_name : string)
    (prompt_data : list (string * pyval)) (p : Prompt) (e : exn) (s : ext) :
  build_template prompt_data = Ok (Some p) ->
  push_labels prompt_data = Raise e ->
  run (push_prompt_to_langsmith prompt_name prompt_data) s
  = Outcome [Printed ("📤 Fazendo push do prompt: " +:+ prompt_name);
             Printed ("❌ Erro ao fazer push do prompt: " +:+ exn_str e)]
            (Ok false) s.
Proof.
  intros Hbuilt Hlabels. unfold push_prompt_to_langsmith.
  rewrite run_try_except, run_print_then. cbn [value trace after].
  rewrite run_lift_then, Hbuilt, run_lift_then, Hlabels. cbn [value trace after].
  rewrite (push_labels_raise _ _ Hlabels). reflexivity.
Qed.

End Push.

Section PushDriver.
Import Langchain PushPrompts PushScript Reference.
Context {L : Library} {H : Host}.

Lemma chosen_name_eq (env : gmap string string) (args : Args) :
  match arg_prompt_name args with
  | Some name =>
      if negb (String.eqb name "") then name
      else default_prompt_name env (arg_prompt_file args)
  | None => default_prompt_name env (arg_prompt_file args)
  end = chosen_name env args.
Proof.
  unfold chosen_name. destruct (arg_prompt_name args) as [name|]; [|reflexivity].
  destruct (String.eqb name ""); reflexivity.
Qed.

Lemma print_errors_run (errors : list string) (s : ext) :
  run (print_errors errors) s
  = Outcome (map (fun error => Printed ("   - " +:+ error)) errors) (Ok tt) s.
Proof.
  induction errors as [|error rest IH]; [reflexivity|].
  cbn [print_errors]. rewrite run_print_then, IH. reflexivity.
Qed.

(** X20: [main] returns 0 only for a prompt that went through every
    gate, and for each of them: the credential is there, the tests
    passed or were skipped, the file holds a prompt that
    [validate_prompt] accepts, and the push of it returned [True]. *)
Theorem push_main_exit_zero_iff (env : gmap string string) (args : Args) (s : ext) :
  value (run (main env args) s) = Ok 0%Z <->
  exists d s',
    reaches_validation env args s d s'
    /\ (exists errors, validate_prompt d = Ok (true, errors))
    /\ value (run (push_prompt_to_langsmith (chosen_name env args) d) s') = Ok true.
Proof.
  unfold main, reaches_validation, tests_pass.
  rewrite value_external_bind.
  destruct (print_section_header _ s) as [[out0 [e|[]]] s0] eqn:H0.
  { split; [discriminate | intros (? & ? & (? & ? & ? & ? & ? & ? & ? & _) & _); discriminate]. }
  rewrite value_external_bind.
  destruct (check_env_vars env _ s0) as [[out1 [e|[|]]] s1] eqn:H1; cbn [negb].
  1,3: split; [discriminate|];
    intros (? & ? & (? & ? & ? & ? & ? & ? & E0 & E1 & _) & _);
    injection E0 as <- <-; rewrite H1 in E1; discriminate.
  rewrite chosen_name_eq.
  assert (Htail : forall s2,
    value (run
      (print (nl +:+ "📖 Carregando prompt de: " +:+ arg_prompt_file args);;
       prompt_data ← external (load_yaml (arg_prompt_file args));
       if negb (truthy prompt_data) then mret 1%Z
       else
         print "🔍 Validando estrutura do prompt...";;
         match prompt_data with
         | PyDict d =>
             validation ← lift (validate_prompt d);
             let '(is_valid, errors) := validation in
             if negb is_valid then
               print "❌ Validação falhou:";;
               print_errors errors;;
               mret 1%Z
             else
               print "✅ Prompt válido!";;
               success ← push_prompt_to_langsmith (chosen_name env args) d;
               if success : bool then mret 0%Z else mret 1%Z
         | _ => raise (no_attribute prompt_data "get")
         end) s2) = Ok 0%Z <->
    exists d s' out3,
      load_yaml (arg_prompt_file args) s2 = (out3, Ok (PyDict d), s')
      /\ d <> []
      /\ (exists errors, validate_prompt d = Ok (true, errors))
      /\ value (run (push_prompt_to_langsmith (chosen_name env args) d) s') = Ok true).
  { intros s2. rewrite value_print_then, value_external_bind.
    destruct (load_yaml _ s2) as [[out3 [e|prompt_data]] s3] eqn:Hload.
    { split; [discriminate | intros (? & ? & ? & ? & _); discriminate]. }
    destruct (truthy prompt_data) eqn:Htruthy; cbn [negb].
    2: { split; [discriminate|]. intros (d & ? & ? & [= ? ? ?] & Hd & _). subst.
         destruct d; [contradiction | discriminate]. }
    rewrite value_print_then.
    destruct prompt_data as [| | | | | |d];
      try (split; [discriminate | intros (? & ? & ? & ? & _); discriminate]).
    rewrite value_bind. cbn [lift run value after].
    destruct (validate_prompt d) as [e|[[|] errors]] eqn:Hv; cbn [negb].
    - split; [discriminate|].
      intros (? & ? & ? & [= ? ? ?] & _ & (? & Hv') & _). subst. congruence.
    - rewrite value_print_then, value_bind.
      destruct (value (run (push_prompt_to_langsmith _ d) s3)) as [e|[|]] eqn:Hpush.
      + split; [discriminate|].
        intros (? & ? & ? & [= ? ? ?] & _ & _ & Hp). subst. congruence.
      + split; [intros _ | reflexivity].
        exists d, s3, out3. repeat split; eauto.
        destruct d; [discriminate | congruence].
      + split; [discriminate|].
        intros (? & ? & ? & [= ? ? ?] & _ & _ & Hp). subst. congruence.
    - split.
      + rewrite value_print_then, value_bind, print_errors_run. discriminate.
      + intros (? & ? & ? & [= ? ? ?] & _ & (? & Hv') & _). subst. congruence. }
  destruct (arg_skip_tests args); cbn [negb].
  - rewrite Htail. split.
    + intros (d & s' & out3 & Hload & Hd & Hv & Hp).
      exists d, s'. split; [|split; assumption].
      exists out0, s0, out1, s1, s1, out3. repeat split; assumption.
    + intros (d & s' & (out0' & s0' & out1' & s1' & s2 & out3 & E0 & E1 & -> & Hload & Hd)
              & Hv & Hp).
      injection E0 as <- <-. rewrite H1 in E1. injection E1 as <- <-.
      exists d, s', out3. repeat split; assumption.
  - rewrite value_print_then, value_external_bind.
    destruct (subprocess_run _ s1) as [[out2 [e|result]] s2] eqn:Hrun.
    { split; [discriminate|].
      intros (d & s' & (out0' & s0' & out1' & s1' & s2' & out3 & E0 & E1
                        & (? & ? & Et & _) & _) & _).
      injection E0 as <- <-. rewrite H1 in E1. injection E1 as <- <-.
      rewrite Hrun in Et. discriminate. }
    destruct (returncode result =? 0)%Z eqn:Hrc; cbn [negb].
    + rewrite value_print_then, Htail. split.
      * intros (d & s' & out3 & Hload & Hd & Hv & Hp).
        exists d, s'. split; [|split; assumption].
        exists out0, s0, out1, s1, s2, out3. repeat split; try assumption.
        exists out2, result. split; [exact Hrun | apply Z.eqb_eq; exact Hrc].
      * intros (d & s' & (out0' & s0' & out1' & s1' & s2' & out3 & E0 & E1
                          & (? & ? & Et & _) & Hload & Hd) & Hv & Hp).
        injection E0 as <- <-. rewrite H1 in E1. injection E1 as <- <-.
        rewrite Hrun in Et. injection Et as <- <- <-.
        exists d, s', out3. repeat split; assumption.
    + split; [discriminate|].
      intros (d & s' & (out0' & s0' & out1' & s1' & s2' & out3 & E0 & E1
                        & (? & ? & Et & Hz) & _) & _).
      injection E0 as <- <-. rewrite H1 in E1. injection E1 as <- <-.
      rewrite Hrun in Et. injection Et as <- <- <-.
      apply Z.eqb_neq in Hrc. contradiction.
Qed.

Lemma ends_with {A} (l tail : list A) : tail `suffix_of` l -> exists out, l = out ++ tail.
Proof. intros [out ->]. exists out. reflexivity. Qed.

(** X21: failing tests stop the push: with the credential there and the
    tests not skipped, a test run that ends with a status other than 0
    makes [main] print the verdict and the two streams of the test run
    and return 1, in the state the test run left (no file is loaded,
    nothing is pushed). *)
Theorem push_main_failed_tests (env : gmap string string) (args : Args)
    (s s0 s1 s2 : ext) (out0 out1 out2 : list string) (result : CompletedProcess) :
  print_section_header "Push de Prompts para LangSmith Hub" s = (out0, Ok tt, s0) ->
  check_env_vars env ["LANGSMITH_API_KEY"] s0 = (out1, Ok true, s1) ->
  arg_skip_tests args = false ->
  subprocess_run ["pytest"; "tests/test_prompts.py"; "-v"] s1 = (out2, Ok result, s2) ->
  returncode result <> 0%Z ->
  let o := run (main env args) s in
  value o = Ok 1%Z
  /\ after o = s2
  /\ stdout (trace o)
     = out0 ++ out1 ++ ["🧪 Executando testes de validação estrutural..."] ++ out2
       ++ ["❌ Testes falharam! Corrija os problemas antes de fazer push.";
           proc_stdout result; proc_stderr result].
Proof.
  intros H0 H1 Hskip Hrun Hrc. cbn zeta. unfold main.
  rewrite run_external_then, H0, run_external_then, H1. cbn [negb].
  rewrite Hskip. cbn [negb].
  rewrite run_print_then, run_external_then, Hrun.
  apply Z.eqb_neq in Hrc. rewrite Hrc. cbn [negb].
  rewrite !run_print_then. cbn [value trace after mret IO_ret io_ret run].
  rewrite !stdout_app. cbn [stdout]. rewrite !stdout_app, !stdout_printed.
  repeat split; reflexivity.
Qed.

(** X22: a prompt [validate_prompt] rejects is not pushed: [main] returns
    1 in the state the loading left, and its output ends with the
    heading of the failure and one line for each diagnostic, in
    order. *)
Theorem push_main_invalid_prompt (env : gmap string string) (args : Args)
    (s s' : ext) (d : list (string * pyval)) (errors : list string) :
  reaches_validation env args s d s' ->
  validate_prompt d = Ok (false, errors) ->
  let o := run (main env args) s in
  value o = Ok 1%Z
  /\ after o = s'
  /\ exists out,
       stdout (trace o)
       = out ++ "❌ Validação falhou:" :: map (fun error => "   - " +:+ error) errors.
Proof.
  intros (out0 & s0 & out1 & s1 & s2 & out3 & H0 & H1 & Ht & Hload & Hd) Hv.
  assert (Htruthy : truthy (PyDict d) = true) by (destruct d; [contradiction | reflexivity]).
  assert (Hstdout : forall errs,
    stdout (map (fun error => Printed ("   - " +:+ error)) errs)
    = map (fun error => "   - " +:+ error) errs).
  { induction errs as [|x xs IH]; [reflexivity | cbn; rewrite IH; reflexivity]. }
  cbn zeta. unfold tests_pass in Ht.
  destruct (arg_skip_tests args) eqn:Hskip.
  - subst s2.
    eassert (Hrun : run (main env args) s = Outcome _ _ _).
    { unfold main.
      eapply ran_external; [exact H0|]. eapply ran_external; [exact H1|].
      cbn [negb]. rewrite Hskip. cbn [negb].
      eapply ran_print. eapply ran_external; [exact Hload|].
      rewrite Htruthy. cbn [negb].
      eapply ran_print. eapply ran_lift; [exact Hv|]. cbn [negb].
      eapply ran_print. eapply ran_bind; [apply print_errors_run|]. reflexivity. }
    rewrite Hrun. cbn [value after trace].
    split; [reflexivity | split; [reflexivity|]].
    rewrite !stdout_app. cbn [stdout]. rewrite !stdout_app. cbn [stdout].
    rewrite stdout_app, Hstdout. cbn [stdout]. rewrite app_nil_r.
    apply ends_with. repeat first [reflexivity | apply suffix_app_r | apply suffix_cons_r].
  - destruct Ht as (out2 & result & Hrun2 & Hrc).
    eassert (Hrun : run (main env args) s = Outcome _ _ _).
    { unfold main.
      eapply ran_external; [exact H0|]. eapply ran_external; [exact H1|].
      cbn [negb]. rewrite Hskip. cbn [negb].
      eapply ran_print. eapply ran_external; [exact Hrun2|].
      rewrite Hrc. cbn [Z.eqb negb].
      eapply ran_print.
      eapply ran_print. eapply ran_external; [exact Hload|].
      rewrite Htruthy. cbn [negb].
      eapply ran_print. eapply ran_lift; [exact Hv|]. cbn [negb].
      eapply ran_print. eapply ran_bind; [apply print_errors_run|]. reflexivity. }
    rewrite Hrun. cbn [value after trace].
    split; [reflexivity | split; [reflexivity|]].
    rewrite !stdout_app. cbn [stdout]. rewrite !stdout_app. cbn [stdout].
    rewrite !stdout_app. cbn [stdout].
    rewrite stdout_app, Hstdout. cbn [stdout]. rewrite app_nil_r.
    apply ends_with. repeat first [reflexivity | apply suffix_app_r | apply suffix_cons_r].
Qed.

End PushDriver.

(** ** Names: the file stem of the push, owner and name of the pull *)

Section Names.
Import Langchain PullPrompts PushScript Reference.
#[local] Arguments String.append : simpl nomatch.

Lemma append_assoc (a b c : string) : (a +:+ b) +:+ c = a +:+ (b +:+ c).
Proof. induction a as [|x a IH]; cbn [append]; [reflexivity | rewrite IH; reflexivity]. Qed.

Lemma append_nil_r (a : string) : a +:+ "" = a.
Proof. induction a as [|x a IH]; cbn [append]; [reflexivity | rewrite IH; reflexivity]. Qed.

Lemma free_of_app (c : ascii) (a b : string) :
  free_of c (a +:+ b) = free_of c a && free_of c b.
Proof.
  induction a as [|x a IH]; cbn [append free_of]; [reflexivity|].
  rewrite IH, andb_assoc. reflexivity.
Qed.

(** A string without the separator is one piece. *)
Lemma split_from_free (sep : ascii) (s current : string) :
  free_of sep s = true -> split_from sep s current = [current +:+ s].
Proof.
  revert current. induction s as [|c s IH]; intros current Hfree.
  - cbn. rewrite append_nil_r. reflexivity.
  - cbn in Hfree. apply andb_prop in Hfree as [Hc Hs].
    cbn [split_from]. apply negb_true_iff in Hc. rewrite Hc, (IH _ Hs).
    rewrite append_assoc. reflexivity.
Qed.

Lemma split_from_cons (sep : ascii) (s current : string) :
  exists piece rest, split_from sep s current = piece :: rest.
Proof.
  revert current. induction s as [|c s IH]; intros current; cbn [split_from].
  - eauto.
  - destruct (Ascii.eqb c sep); eauto.
Qed.

(** The last piece is what follows the last separator. *)
Lemma split_from_last (sep : ascii) (s tail current : string) :
  free_of sep tail = true ->
  List.last (split_from sep (s +:+ String sep tail) current) "" = tail.
Proof.
  intros Hfree. revert current. induction s as [|c s IH]; intros current.
  - cbn [append split_from]. rewrite Ascii.eqb_refl, (split_from_free _ _ _ Hfree).
    reflexivity.
  - cbn [append split_from]. destruct (Ascii.eqb c sep).
    + specialize (IH ""). destruct (split_from_cons sep (s +:+ String sep tail) "")
        as (piece & rest & Hsplit).
      rewrite Hsplit in IH |- *. exact IH.
    + apply IH.
Qed.

(** The first piece is what precedes the first separator. *)
Lemma split_from_head (sep : ascii) (head s current : string) :
  free_of sep head = true ->
  List.hd "" (split_from sep (head +:+ String sep s) current) = current +:+ head.
Proof.
  revert current. induction head as [|c head IH]; intros current Hfree.
  - cbn [append split_from]. rewrite Ascii.eqb_refl, append_nil_r. reflexivity.
  - cbn in Hfree. apply andb_prop in Hfree as [Hc Hs]. apply negb_true_iff in Hc.
    cbn [append split_from]. rewrite Hc, (IH _ Hs), append_assoc. reflexivity.
Qed.

Lemma string_prefix_nil (s : string) : String.prefix "" s = true.
Proof. destruct s; reflexivity. Qed.

Lemma contains_char (c : ascii) (s : string) :
  contains (String c "") s = negb (free_of c s).
Proof.
  induction s as [|x s IH]; [reflexivity|].
  cbn [contains free_of String.prefix]. rewrite IH, negb_andb, negb_involutive.
  destruct (ascii_dec c x) as [->|Hne].
  - rewrite Ascii.eqb_refl, string_prefix_nil. reflexivity.
  - apply Ascii.eqb_neq in Hne. rewrite Ascii.eqb_sym, Hne. reflexivity.
Qed.

(** Removing a word that starts with a character the string does not
    have changes nothing. *)
Lemma remove_from_free (c : ascii) (old s : string) :
  free_of c s = true -> remove_from (String c old) s 0 = s.
Proof.
  induction s as [|x s IH]; intros Hfree; [reflexivity|].
  cbn in Hfree. apply andb_prop in Hfree as [Hx Hs]. apply negb_true_iff in Hx.
  cbn [remove_from String.prefix].
  destruct (ascii_dec c x) as [->|Hne].
  - rewrite Ascii.eqb_refl in Hx. discriminate.
  - rewrite (IH Hs). reflexivity.
Qed.

(** In front of a string [tail] that starts with the character, a part
    without the character is kept as it is. *)
Lemma remove_from_app_free (c : ascii) (old s tail : string) :
  free_of c s = true ->
  remove_from (String c old) (s +:+ tail) 0 = s +:+ remove_from (String c old) tail 0.
Proof.
  induction s as [|x s IH]; intros Hfree; [reflexivity|].
  cbn in Hfree. apply andb_prop in Hfree as [Hx Hs]. apply negb_true_iff in Hx.
  cbn [append remove_from String.prefix].
  destruct (ascii_dec c x) as [->|Hne].
  - rewrite Ascii.eqb_refl in Hx. discriminate.
  - rewrite (IH Hs). reflexivity.
Qed.

Lemma basename_stem (stem : string) :
  free_of "/" stem = true ->
  basename stem = stem /\ forall dir, basename (dir +:+ "/" +:+ stem) = stem.
Proof.
  intros Hfree. unfold basename, split. split.
  - rewrite (split_from_free _ _ _ Hfree). reflexivity.
  - intros dir. apply (split_from_last "/" dir stem "" Hfree).
Qed.

(** X23: for a prompt file [stem.yml] or [stem.yaml], in a directory or
    not, whose stem has neither a slash nor a dot, the name the push
    derives is [username/stem], with the user of [LANGSMITH_USERNAME]
    and [user] when the variable is not set. *)
Theorem default_prompt_name_stem (env : gmap string string) (stem extension : string) :
  free_of "/" stem = true ->
  free_of "." stem = true ->
  extension = ".yml" \/ extension = ".yaml" ->
  let expected := Evaluate.getenv_default env "LANGSMITH_USERNAME" "user" +:+ "/" +:+ stem in
  default_prompt_name env (stem +:+ extension) = expected
  /\ forall dir, default_prompt_name env (dir +:+ "/" +:+ stem +:+ extension) = expected.
Proof.
  intros Hslash Hdot Hext. cbn zeta. unfold default_prompt_name.
  assert (Hfile : free_of "/" (stem +:+ extension) = true).
  { rewrite free_of_app, Hslash. destruct Hext as [-> | ->]; reflexivity. }
  destruct (basename_stem _ Hfile) as [Hbase Hdir].
  assert (Hstem : remove_all ".yaml" (remove_all ".yml" (stem +:+ extension)) = stem).
  { unfold remove_all. destruct Hext as [-> | ->].
    - rewrite (remove_from_app_free "." "yml" stem ".yml" Hdot).
      cbn [remove_from String.prefix String.length Nat.sub].
      repeat (destruct (ascii_dec _ _) as [_|Hne]; [|try (exfalso; apply Hne; reflexivity); try discriminate]).
      cbn [remove_from]. rewrite append_nil_r. apply (remove_from_free "." "yaml" stem Hdot).
    - rewrite (remove_from_app_free "." "yml" stem ".yaml" Hdot).
      replace (remove_from ".yml" ".yaml" 0) with ".yaml" by (vm_compute; reflexivity).
      rewrite (remove_from_app_free "." "yaml" stem ".yaml" Hdot).
      replace (remove_from ".yaml" ".yaml" 0) with "" by (vm_compute; reflexivity).
      apply append_nil_r. }
  split.
  - rewrite Hbase, Hstem. reflexivity.
  - intros dir. rewrite Hdir, Hstem. reflexivity.
Qed.

(** X24: the pull files a prompt [owner/name] under its two parts, and a
    name without a slash under the owner [unknown]. *)
Theorem extract_prompt_dict_owner_and_name (owner name : string) (p : Prompt)
    (prompt_dict : pyval) :
  free_of "/" owner = true ->
  free_of "/" name = true ->
  (extract_prompt_dict (owner +:+ "/" +:+ name) p = Ok prompt_dict ->
   py_getitem prompt_dict "name" = Ok (PyStr name)
   /\ py_getitem prompt_dict "owner" = Ok (PyStr owner))
  /\ (extract_prompt_dict name p = Ok prompt_dict ->
      py_getitem prompt_dict "name" = Ok (PyStr name)
      /\ py_getitem prompt_dict "owner" = Ok (PyStr "unknown")).
Proof.
  intros Howner Hname. unfold extract_prompt_dict, split. split.
  - change "/"%string with (String "/"%char "") at 1.
    rewrite contains_char, free_of_app. cbn [append free_of Ascii.eqb Bool.eqb negb andb].
    rewrite andb_false_r. cbn [negb].
    rewrite (split_from_last "/" owner name "" Hname).
    rewrite (split_from_head "/" owner name "" Howner). cbn [append].
    destruct (match messages p with Some msgs => _ | None => _ end) as [e|msgs];
      cbn [mbind result_bind]; [discriminate|].
    intros [= <-]. split; reflexivity.
  - change "/"%string with (String "/"%char "") at 1.
    rewrite contains_char, Hname. cbn [negb].
    rewrite (split_from_free _ _ _ Hname). cbn [List.last append].
    destruct (match messages p with Some msgs => _ | None => _ end) as [e|msgs];
      cbn [mbind result_bind]; [discriminate|].
    intros [= <-]. split; reflexivity.
Qed.

End Names.

(** ** The pull script *)

Section Pull.
Import Langchain PullPrompts PullScript Reference.
Context {H : Host}.

(** The result of the serialisation loop: one entry per message, in
    order, when every message has a prompt, an [AttributeError]
    otherwise. *)
Lemma serialize_messages_entries (msgs : list MessageTemplate) (out : list pyval) :
  if forallb has_prompt msgs
  then exists entries,
         serialize_messages msgs out = Ok (out ++ entries)
         /\ Forall2 (fun msg entry => message_dict msg = Ok entry) msgs entries
  else exists e, serialize_messages msgs out = Raise e /\ exn_cls e = AttributeError.
Proof.
  revert out. induction msgs as [|msg rest IH]; intros out.
  - cbn. exists []. rewrite app_nil_r. split; [reflexivity | constructor].
  - cbn [forallb serialize_messages]. unfold has_prompt at 1.
    destruct (message_dict msg) as [e|entry] eqn:Hmsg.
    + unfold message_dict in Hmsg. destruct (prompt msg); [discriminate|].
      cbn [andb]. injection Hmsg as <-. eexists. split; reflexivity.
    + assert (Hp : exists sp, prompt msg = Some sp).
      { unfold message_dict in Hmsg. destruct (prompt msg); [eauto | discriminate]. }
      destruct Hp as [sp ->]. cbn [andb mbind result_bind].
      specialize (IH (out ++ [entry])). destruct (forallb has_prompt rest).
      * destruct IH as (entries & -> & Hall). exists (entry :: entries).
        rewrite <- app_assoc. split; [reflexivity | constructor; assumption].
      * exact IH.
Qed.

(** X25: the pull keeps one entry per message of the prompt, in order,
    each the role/content dict of its message; it fails, with an
    [AttributeError], exactly when a message has no [prompt]
    attribute. *)
Theorem extract_prompt_dict_messages (prompt_name : string) (p : Prompt) :
  if forallb has_prompt (templates_of p)
  then exists name owner entries,
         extract_prompt_dict prompt_name p
         = Ok (PyDict [("name", PyStr name); ("owner", PyStr owner);
                       ("messages", PyList entries)])
         /\ Forall2 (fun msg entry => message_dict msg = Ok entry) (templates_of p) entries
  else exists e, extract_prompt_dict prompt_name p = Raise e /\ exn_cls e = AttributeError.
Proof.
  unfold extract_prompt_dict, templates_of. destruct (messages p) as [msgs|].
  - assert (Hloop := serialize_messages_entries msgs []).
    destruct (forallb has_prompt msgs).
    + destruct Hloop as (entries & -> & Hall). cbn [app mbind result_bind].
      eexists _, _, entries. split; [reflexivity | exact Hall].
    + destruct Hloop as (e & -> & Hcls). exists e. split; [reflexivity | exact Hcls].
  - cbn. eexists _, _, []. split; [reflexivity | constructor].
Qed.

(** What [extract_prompt_dict] returns has the three keys, the name
    being the last part of the name of the prompt. *)
Lemma extract_prompt_dict_shape (prompt_name : string) (p : Prompt) (prompt_dict : pyval) :
  extract_prompt_dict prompt_name p = Ok prompt_dict ->
  exists owner entries,
    prompt_dict = PyDict [("name", PyStr (List.last (split "/" prompt_name) ""));
                          ("owner", PyStr owner); ("messages", PyList entries)].
Proof.
  unfold extract_prompt_dict.
  destruct (match messages p with Some msgs => _ | None => _ end) as [e|entries];
    cbn [mbind result_bind]; [discriminate|].
  intros [= <-]. eauto.
Qed.

(** The [except] clauses of the pull print and return [False]. *)
Lemma pull_handler (prompt_name : string) (e : exn) (s : ext) :
  exists lines,
    run (if is_import_error e then
           print ("❌ Erro de importação: " +:+ exn_str e);;
           print "   Verifique se langchain está instalado: pip install langchain";;
           mret false
         else
           (if contains "authentication" (lower (exn_str e))
               || contains "api key" (lower (exn_str e))
            then print "❌ Erro de autenticação: Verifique LANGSMITH_API_KEY no .env"
            else if contains "not found" (lower (exn_str e)) || contains "404" (exn_str e)
            then
              print ("❌ Prompt não encontrado: " +:+ prompt_name);;
              print "   Verifique se o nome está correto (formato: owner/prompt)"
            else if contains "network" (lower (exn_str e))
                    || contains "connection" (lower (exn_str e))
            then
              print ("❌ Erro de rede: " +:+ exn_str e);;
              print "   Verifique sua conexão com a internet"
            else print ("❌ Erro ao fazer pull do prompt: " +:+ exn_str e));;
           mret false) s
    = Outcome (map Printed lines) (Ok false) s.
Proof.
  destruct (is_import_error e); [eexists [_; _]; reflexivity|].
  destruct (contains "authentication" (lower (exn_str e))
            || contains "api key" (lower (exn_str e))); [eexists [_]; reflexivity|].
  destruct (contains "not found" (lower (exn_str e)) || contains "404" (exn_str e));
    [eexists [_; _]; reflexivity|].
  destruct (contains "network" (lower (exn_str e))
            || contains "connection" (lower (exn_str e)));
    [eexists [_; _]; reflexivity | eexists [_]; reflexivity].
Qed.

(** The pull never raises, and returns [True] exactly when it goes
    through. *)
Lemma pull_prompts_from_langsmith_value (env : gmap string string)
    (prompt_name output_dir : string) (s : ext) :
  exists success,
    value (run (pull_prompts_from_langsmith env prompt_name output_dir) s) = Ok success
    /\ (success = true <-> exists s', pull_saves env prompt_name output_dir s s').
Proof.
  unfold pull_prompts_from_langsmith, pull_saves, saved_path.
  rewrite run_try_except, run_external_then.
  destruct (print_section_header _ s) as [[out0 [e|[]]] s0] eqn:H0; cbn [value trace after].
  { destruct (pull_handler prompt_name e s0) as [lines ->]. exists false.
    split; [reflexivity|]. split; [discriminate|].
    intros (? & ? & ? & ? & ? & ? & ? & ? & ? & ? & ? & _). discriminate. }
  rewrite run_external_then.
  destruct (check_env_vars env _ s0) as [[out1 [e|[|]]] s1] eqn:H1;
    cbn [negb value trace after].
  { destruct (pull_handler prompt_name e s1) as [lines ->]. exists false.
    split; [reflexivity|]. split; [discriminate|].
    intros (? & ? & ? & ? & ? & ? & ? & ? & ? & ? & [= <- <-] & E1 & _).
    rewrite H1 in E1. discriminate. }
  2: { exists false. split; [reflexivity|]. split; [discriminate|].
       intros (? & ? & ? & ? & ? & ? & ? & ? & ? & ? & [= <- <-] & E1 & _).
       rewrite H1 in E1. discriminate. }
  rewrite run_print_then. cbn [value trace after]. rewrite run_external_then.
  destruct (hub_pull prompt_name s1) as [[out2 [e|p]] s2] eqn:H2; cbn [value trace after].
  { destruct (pull_handler prompt_name e s2) as [lines ->]. exists false.
    split; [reflexivity|]. split; [discriminate|].
    intros (? & ? & ? & ? & ? & ? & ? & ? & ? & ? & [= <- <-] & E1 & E2 & _).
    rewrite H1 in E1. injection E1 as <- <-. rewrite H2 in E2. discriminate. }
  rewrite run_lift_then.
  destruct (extract_prompt_dict prompt_name p) as [e|prompt_dict] eqn:H3;
    cbn [value trace after].
  { destruct (pull_handler prompt_name e s2) as [lines ->]. exists false.
    split; [reflexivity|]. split; [discriminate|].
    intros (? & ? & ? & ? & ? & ? & ? & ? & ? & ? & [= <- <-] & E1 & E2 & E3 & _).
    rewrite H1 in E1. injection E1 as <- <-. rewrite H2 in E2. injection E2 as <- <- <-.
    rewrite H3 in E3. discriminate. }
  destruct (extract_prompt_dict_shape _ _ _ H3) as (owner & entries & ->).
  rewrite run_lift_then.
  cbn [py_getitem dict_lookup String.eqb Ascii.eqb Bool.eqb py_str].
  rewrite run_external_then.
  destruct (save_yaml _ _ s2) as [[out3 [e|[|]]] s3] eqn:H4; cbn [value trace after].
  - destruct (pull_handler prompt_name e s3) as [lines ->]. exists false.
    split; [reflexivity|]. split; [discriminate|].
    intros (? & ? & ? & ? & ? & ? & ? & ? & ? & ? & [= <- <-] & E1 & E2 & E3 & E4).
    rewrite H1 in E1. injection E1 as <- <-. rewrite H2 in E2. injection E2 as <- <- <-.
    rewrite H3 in E3. injection E3 as <-. rewrite H4 in E4. discriminate.
  - exists true. split; [reflexivity|]. split; [intros _ | reflexivity].
    exists s3, out0, s0, out1, s1, out2, p, s2. eexists _, out3.
    repeat split; eassumption.
  - exists false. split; [reflexivity|]. split; [discriminate|].
    intros (? & ? & ? & ? & ? & ? & ? & ? & ? & ? & [= <- <-] & E1 & E2 & E3 & E4).
    rewrite H1 in E1. injection E1 as <- <-. rewrite H2 in E2. injection E2 as <- <- <-.
    rewrite H3 in E3. injection E3 as <-. rewrite H4 in E4. discriminate.
Qed.

(** X26: the pull script ends with status 0 or 1 and never with an
    exception of the pull; the status is 0 exactly when the prompt was
    handed out by the registry, serialised and written to the file named
    after the last part of its name. *)
Theorem pull_main_exit_status (env : gmap string string) (args : Args) (s : ext) :
  exists status,
    value (run (main env args) s) = Ok status
    /\ (status = 0%Z \/ status = 1%Z)
    /\ (status = 0%Z <->
        exists s', pull_saves env (arg_prompt args) (arg_output_dir args) s s').
Proof.
  unfold main. rewrite value_bind.
  destruct (pull_prompts_from_langsmith_value env (arg_prompt args) (arg_output_dir args) s)
    as ([|] & -> & Hiff).
  - exists 0%Z. split; [reflexivity | split; [left; reflexivity|]].
    split; [intros _; apply Hiff; reflexivity | reflexivity].
  - exists 1%Z. split; [reflexivity | split; [right; reflexivity|]].
    split; [discriminate | intros Hs; apply Hiff in Hs; discriminate].
Qed.

(** X27: without the credential the pull stops after the check: it
    returns [False] having printed the banner and what the check
    printed; the registry is not contacted and no file is written. *)
Theorem pull_prompts_missing_credentials (env : gmap string string)
    (prompt_name output_dir : string) (s s0 s1 : ext) (out0 out1 : list string) :
  print_section_header "Pull de Prompts do LangSmith Hub" s = (out0, Ok tt, s0) ->
  check_env_vars env ["LANGSMITH_API_KEY"] s0 = (out1, Ok false, s1) ->
  run (pull_prompts_from_langsmith env prompt_name output_dir) s
  = Outcome (map Printed (out0 ++ out1)) (Ok false) s1.
Proof.
  intros H0 H1. unfold pull_prompts_from_langsmith.
  rewrite run_try_except, run_external_then, H0, run_external_then, H1.
  cbn [negb value trace after mret IO_ret io_ret run].
  rewrite app_nil_r, map_app. reflexivity.
Qed.

(** X28: a prompt the registry does not know is reported as such: when
    [hub.pull] raises an exception, other than an [ImportError], whose
    text is made of ASCII characters, has [not found] in some casing or
    [404], and names neither the authentication nor the API key, the
    pull ends its output with the two lines of the missing prompt,
    returns [False] and writes no file.  (On ASCII text [str.lower] is
    the lowering of the letters A to Z.) *)
Theorem pull_prompts_not_found (env : gmap string string)
    (prompt_name output_dir : string) (s s0 s1 s2 : ext) (out0 out1 out2 : list string)
    (e : exn) :
  print_section_header "Pull de Prompts do LangSmith Hub" s = (out0, Ok tt, s0) ->
  check_env_vars env ["LANGSMITH_API_KEY"] s0 = (out1, Ok true, s1) ->
  hub_pull prompt_name s1 = (out2, Raise e, s2) ->
  is_import_error e = false ->
  is_ascii (exn_str e) = true ->
  contains "authentication" (lower (exn_str e)) || contains "api key" (lower (exn_str e))
  = false ->
  contains "not found" (lower (exn_str e)) || contains "404" (exn_str e) = true ->
  run (pull_prompts_from_langsmith env prompt_name output_dir) s
  = Outcome (map Printed
               (out0 ++ out1 ++ ["📥 Fazendo pull do prompt: " +:+ prompt_name] ++ out2
                ++ ["❌ Prompt não encontrado: " +:+ prompt_name;
                    "   Verifique se o nome está correto (formato: owner/prompt)"]))
            (Ok false) s2.
Proof.
  intros H0 H1 H2 Himport _ Hauth Hfound. unfold pull_prompts_from_langsmith.
  rewrite run_try_except, run_external_then, H0, run_external_then, H1.
  cbn [negb]. rewrite run_print_then, run_external_then, H2.
  cbn [value trace after]. rewrite Himport, Hauth, Hfound.
  cbn [mbind mret IO_bind IO_ret io_bind io_ret run print value trace after].
  rewrite !map_app. cbn [map app]. rewrite <- !app_assoc. reflexivity.
Qed.

End Pull.

(** ** The structural tests and the push *)

Section TestGate.
Import PushPrompts PushScript TestPrompts Reference.

(** Labels given as a list are computed, and kept in front. *)
Lemma push_labels_list (d : list (string * pyval)) (given : list pyval) :
  dict_get d "techniques_applied" (PyList []) = PyList given ->
  exists added, push_labels d = Ok (PyList (given ++ added)).
Proof.
  intros Hget. unfold push_labels. rewrite Hget. cbn [py_contains mbind result_bind].
  destruct (existsb _ given); cbn [negb py_append].
  - exists []. rewrite app_nil_r. reflexivity.
  - eexists. reflexivity.
Qed.

(** X29: a prompt that passes [test_minimum_techniques] never fails at
    the labels of the push: they are its techniques, a list of at
    least two, followed by [bug-to-user-story] when it is not one of
    them. *)
Theorem test_minimum_techniques_labels (prompt_v2 : pyval) :
  test_minimum_techniques prompt_v2 = Ok tt ->
  exists d techniques added,
    prompt_v2 = PyDict d
    /\ push_labels d = Ok (PyList (techniques ++ added))
    /\ dict_get d "techniques_applied" (PyList []) = PyList techniques
    /\ (2 <= length techniques)%nat.
Proof.
  unfold test_minimum_techniques. destruct prompt_v2 as [| | | | | |d]; try discriminate.
  cbn [py_get mbind result_bind].
  destruct (dict_get d "techniques_applied" (PyList [])) as [| | | | |techniques|] eqn:Hget;
    try discriminate.
  cbn [py_assert mbind result_bind py_len].
  destruct (2 <=? length techniques)%nat eqn:Hlen; [|discriminate].
  intros _. apply Nat.leb_le in Hlen.
  destruct (push_labels_list d techniques Hget) as [added Hlabels].
  exists d, techniques, added. auto.
Qed.

Lemma with_role_dicts (role : string) (msgs kept : list pyval) :
  with_role role msgs = Ok kept ->
  forallb (fun msg => match msg with PyDict _ => true | _ => false end) msgs = true
  /\ (role = "system" -> kept <> [] -> existsb has_system_role msgs = true).
Proof.
  revert kept. induction msgs as [|msg rest IH]; intros kept Hkept.
  - cbn in Hkept. injection Hkept as <-. split; [reflexivity | intros _ H; contradiction].
  - cbn [with_role] in Hkept. destruct msg as [| | | | | |d]; try discriminate.
    cbn [py_get mbind result_bind] in Hkept.
    destruct (with_role role rest) as [e|kept'] eqn:Hrest; [discriminate|].
    cbn [mbind result_bind] in Hkept. injection Hkept as <-.
    destruct (IH kept' eq_refl) as [Hdicts Hsys]. split; [exact Hdicts|].
    intros -> Hne. cbn [existsb has_system_role].
    destruct (py_eq_str (dict_get d "role" PyNone) "system"); [reflexivity|].
    cbn [orb]. apply Hsys; [reflexivity | exact Hne].
Qed.

Lemma any_system_dicts (msgs : list pyval) :
  forallb (fun msg => match msg with PyDict _ => true | _ => false end) msgs = true ->
  any_system msgs = Ok (existsb has_system_role msgs).
Proof.
  induction msgs as [|msg rest IH]; [reflexivity|].
  cbn [forallb]. destruct msg as [| | | | | |d]; try discriminate. cbn [andb].
  intros Hrest. cbn [any_system py_get mbind result_bind existsb has_system_role].
  destruct (py_eq_str (dict_get d "role" PyNone) "system"); [reflexivity|].
  cbn [orb]. apply IH. exact Hrest.
Qed.

Lemma check_contents_dicts (msgs : list pyval) (i : nat) (errors : list string) :
  forallb (fun msg => match msg with PyDict _ => true | _ => false end) msgs = true ->
  match check_contents i msgs errors with
  | Ok errors' => errors' = errors ++ blank_diagnostics i msgs
  | Raise e => exn_cls e = AttributeError
  end.
Proof.
  revert i errors. induction msgs as [|msg rest IH]; intros i errors.
  - intros _. cbn. rewrite app_nil_r. reflexivity.
  - cbn [forallb]. destruct msg as [| | | | | |d]; try discriminate. cbn [andb].
    intros Hrest. cbn [check_contents py_get mbind result_bind blank_diagnostics content_blank].
    destruct (dict_get d "content" (PyStr "")) as [| | | |text| |];
      cbn [py_strip mbind result_bind]; try reflexivity.
    cbn [truthy]. rewrite strip_eqb_blank, negb_involutive.
    destruct (is_blank text).
    + specialize (IH (S i) (errors ++ ["Mensagem " +:+ pretty i +:+ " está vazia"]) Hrest).
      destruct (check_contents (S i) rest _); [exact IH|].
      rewrite IH, <- app_assoc. reflexivity.
    + apply IH. exact Hrest.
Qed.

(** X30: on a prompt that passes [test_prompt_has_system_prompt], the
    validation of the push can only object to blank messages: it
    reports neither missing messages nor a missing system prompt, its
    diagnostics are those of the blank messages, and when it raises it
    is on a content that is not a string. *)
Theorem test_prompt_has_system_prompt_validation (prompt_v2 : pyval) :
  test_prompt_has_system_prompt prompt_v2 = Ok tt ->
  exists d,
    prompt_v2 = PyDict d
    /\ match validate_prompt d with
       | Ok (is_valid, errors) => errors = blank_diagnostics 0 (messages_of d)
       | Raise e => exn_cls e = AttributeError
       end.
Proof.
  unfold test_prompt_has_system_prompt. destruct prompt_v2 as [| | | | | |d]; try discriminate.
  cbn [py_get mbind result_bind]. intros Htest. exists d. split; [reflexivity|].
  unfold validate_prompt, messages_of.
  destruct (truthy (dict_get d "messages" (PyList []))) eqn:Htruthy; [|discriminate].
  cbn [py_assert mbind result_bind negb] in Htest |- *.
  destruct (py_iter (dict_get d "messages" (PyList []))) as [e|msgs] eqn:Hiter;
    [discriminate|].
  cbn [mbind result_bind] in Htest |- *.
  destruct (with_role "system" msgs) as [e|system_messages] eqn:Hrole; [discriminate|].
  cbn [mbind result_bind] in Htest.
  destruct system_messages as [|first others]; [discriminate|].
  destruct (with_role_dicts _ _ _ Hrole) as [Hdicts Hsys].
  rewrite (any_system_dicts _ Hdicts), (Hsys eq_refl ltac:(discriminate)).
  cbn [mbind result_bind negb app].
  assert (Hmsgs : dict_get d "messages" (PyList []) = PyList msgs).
  { destruct (dict_get d "messages" (PyList [])) as [| | | |text|l|keys];
      try discriminate.
    - destruct text as [|c text]; [discriminate|].
      destruct (chars_cons c text) as (char & rest & Hchars).
      cbn [py_iter] in Hiter. rewrite Hchars in Hiter.
      cbn [map] in Hiter. injection Hiter as <-. discriminate.
    - cbn in Hiter. congruence.
    - destruct keys as [|[k v] keys]; [discriminate|].
      cbn in Hiter. injection Hiter as <-. discriminate. }
  rewrite Hmsgs.
  assert (Hloop := check_contents_dicts msgs 0 [] Hdicts).
  destruct (check_contents 0 msgs []) as [e|errors]; [exact Hloop|].
  cbn [mbind result_bind]. exact Hloop.
Qed.

End TestGate.

(** ** The further properties on concrete inputs *)

Section FurtherRuns.
Import Evaluate Langchain PushPrompts PullPrompts Reference.

Lemma create_examples_stops_at_malformed_witness :
  let W := store_world [] (Ok []) (Ok tt) true in
  let complete := PyDict [("inputs", PyDict []); ("outputs", PyDict [])] in
  let malformed := PyDict [("inputs", PyDict [])] in
  run (create_examples (W := W) tt "ds-1" ([complete] ++ malformed :: [complete])) 0%nat
  = Outcome (trace (run (create_examples (W := W) tt "ds-1" [complete]) 0%nat))
            (Raise (Exn KeyError "'outputs'"))
            (after (run (create_examples (W := W) tt "ds-1" [complete]) 0%nat)).
Proof.
  cbn zeta.
  apply (create_examples_stops_at_malformed (W := store_world [] (Ok []) (Ok tt) true)
           tt "ds-1" [PyDict [("inputs", PyDict []); ("outputs", PyDict [])]]
           [PyDict [("inputs", PyDict []); ("outputs", PyDict [])]]
           (PyDict [("inputs", PyDict [])]) (Exn KeyError "'outputs'") 0%nat);
    reflexivity.
Defined.

Lemma create_evaluation_dataset_without_examples_witness :
  run (create_evaluation_dataset (W := sample_world) tt "eval" "datasets/none.jsonl") 0%nat
  = Outcome (trace (run (load_dataset_from_jsonl (W := sample_world) "datasets/none.jsonl")
                        0%nat))
            (Ok "eval")
            (after (run (load_dataset_from_jsonl (W := sample_world) "datasets/none.jsonl")
                        0%nat)).
Proof.
  apply (create_evaluation_dataset_without_examples (W := sample_world)
           tt "eval" "datasets/none.jsonl" 0%nat).
  reflexivity.
Defined.

Lemma create_evaluation_dataset_existing_witness :
  let W := store_world [{| ds_name := "eval"; ds_id := "ds-7" |}] (Ok []) (Ok tt) true in
  run (create_evaluation_dataset (W := W) tt "eval" jsonl_path) 0%nat
  = Outcome (trace (run (load_dataset_from_jsonl (W := W) jsonl_path) 0%nat)
             ++ map Printed [])
            (Ok "eval") 0%nat.
Proof.
  cbn zeta.
  apply (create_evaluation_dataset_existing
           (W := store_world [{| ds_name := "eval"; ds_id := "ds-7" |}] (Ok []) (Ok tt) true)
           tt "eval" jsonl_path 0%nat 0%nat
           [PyDict [("inputs", PyDict []); ("outputs", PyDict [])];
            PyDict [("inputs", PyDict [])]]
           [] [{| ds_name := "eval"; ds_id := "ds-7" |}]).
  - reflexivity.
  - discriminate.
  - reflexivity.
  - exists {| ds_name := "eval"; ds_id := "ds-7" |}. split; [left; reflexivity | reflexivity].
Defined.

Lemma pull_prompt_from_langsmith_not_found_witness :
  exists own,
    stdout (trace (run (pull_prompt_from_langsmith (W := sample_world) "nobody/missing")
                       0%nat))
    = [] ++ own
    /\ In "AÇÕES NECESSÁRIAS:" own
    /\ ~ In ("Erro técnico: " +:+ exn_str (Exn OtherError "404 Not Found") +:+ nl) own.
Proof.
  apply (pull_prompt_from_langsmith_not_found (W := sample_world)
           "nobody/missing" "Not Found" 0%nat 0%nat [] (Exn OtherError "404 Not Found")).
  - reflexivity.
  - left. reflexivity.
  - reflexivity.
Defined.

Lemma evaluate_prompt_setup_failure_witness :
  let W := store_world [] (Raise (Exn OtherError "503 Service Unavailable")) (Ok tt) true in
  let o := run (evaluate_prompt (W := W) "me/prompt" "eval" tt 10) 0%nat in
  value o = Ok zero_scores
  /\ runner_calls (trace o) = []
  /\ after o = after (run (prepare (W := W) "me/prompt" "eval" tt) 0%nat)
  /\ stdout (trace o)
     = stdout (trace (run (prepare (W := W) "me/prompt" "eval" tt) 0%nat))
       ++ ["   ❌ Erro na avaliação: " +:+ "503 Service Unavailable"].
Proof.
  cbn zeta.
  apply (evaluate_prompt_setup_failure
           (W := store_world [] (Raise (Exn OtherError "503 Service Unavailable")) (Ok tt) true)
           "me/prompt" "eval" tt 10 0%nat (Exn OtherError "503 Service Unavailable")).
  reflexivity.
Defined.

(** The evaluators of the sample world stay in the unit interval. *)
Lemma sample_world_in_unit : evaluators_in_unit (W := sample_world).
Proof.
  intros a b c s. unfold in_unit. repeat split; vm_compute; discriminate.
Qed.

Lemma evaluate_prompt_scores_in_unit_witness :
  let scores := {| tone := round64 0.95; acceptance_criteria := round64 0.9;
                   format := 1; completeness := round64 0.92 |} in
  in_unit (tone scores) /\ in_unit (acceptance_criteria scores)
  /\ in_unit (format scores) /\ in_unit (completeness scores).
Proof.
  cbn zeta.
  apply (evaluate_prompt_scores_in_unit (W := sample_world) "me/prompt" "eval" tt 10 0%nat).
  - exact sample_world_in_unit.
  - vm_compute. reflexivity.
Defined.

Lemma main_stops_at_failed_check_witness :
  run (main (W := sample_world) ∅ sample_args) 0%nat
  = Outcome (Printed "Executando avaliação dos prompts..."
             :: Printed (key_line (str_of_getenv ((∅ : gmap string string) !! "OPENAI_API_KEY")))
             :: map Printed
                  (fst (fst (check_env_vars (World := sample_world) ∅ (required_vars ∅) 0%nat))))
            (Ok 1%Z) 0%nat.
Proof.
  apply (main_stops_at_failed_check (W := sample_world) ∅ sample_args 0%nat 0%nat).
  vm_compute. reflexivity.
Defined.

Lemma main_stops_at_missing_dataset_witness :
  let W := store_world [] (Ok []) (Ok tt) false in
  let o := run (main (W := W) (sample_env "sk-1") sample_args) 0%nat in
  value o = Ok 1%Z
  /\ after o = 0%nat
  /\ runner_calls (trace o) = []
  /\ stdout (trace o)
     = "Executando avaliação dos prompts..."
       :: key_line (str_of_getenv (sample_env "sk-1" !! "OPENAI_API_KEY"))
       :: [] ++ [] ++ []
          ++ ["❌ Arquivo de dataset não encontrado: datasets/bug_to_user_story.jsonl"].
Proof.
  cbn zeta.
  apply (main_stops_at_missing_dataset (W := store_world [] (Ok []) (Ok tt) false)
           (sample_env "sk-1") sample_args 0%nat 0%nat 0%nat 0%nat [] [] [] tt).
  - vm_compute. reflexivity.
  - reflexivity.
  - reflexivity.
Defined.

Lemma main_lets_client_failure_out_witness :
  let W := store_world [] (Ok []) (Raise (Exn OtherError "no API key")) true in
  value (run (main (W := W) (sample_env "sk-1") sample_args) 0%nat)
  = Raise (Exn OtherError "no API key")
  /\ after (run (main (W := W) (sample_env "sk-1") sample_args) 0%nat) = 0%nat
  /\ exit_status (run (main (W := W) (sample_env "sk-1") sample_args) 0%nat) = 1%Z.
Proof.
  cbn zeta.
  apply (main_lets_client_failure_out
           (W := store_world [] (Ok []) (Raise (Exn OtherError "no API key")) true)
           (sample_env "sk-1") sample_args 0%nat 0%nat 0%nat [] []).
  - vm_compute. reflexivity.
  - reflexivity.
Defined.

Lemma evaluate_prompt_on_example_reports_failure_witness :
  stdout (trace (run (evaluate_prompt_on_example (W := sample_world) "me/prompt"
                        untitled_example tt) 0%nat))
  = [] ++ ["      ⚠️  Erro ao avaliar exemplo: " +:+ exn_str (Exn KeyError "'bug_report'");
           "      Traceback: "
           +:+ format_exc (World := sample_world) (Exn KeyError "'bug_report'")].
Proof.
  apply (evaluate_prompt_on_example_reports_failure (W := sample_world)
           "me/prompt" untitled_example tt 0%nat [] (Exn KeyError "'bug_report'")).
  reflexivity.
Defined.

Lemma push_labels_tagged_witness :
  let given := [PyStr "few-shot"; PyStr "role prompting"] in
  py_contains (PyList (given ++ [PyStr "bug-to-user-story"])) "bug-to-user-story" = Ok true
  /\ exists added, PyList (given ++ [PyStr "bug-to-user-story"]) = PyList (given ++ added).
Proof.
  cbn zeta.
  apply (push_labels_tagged
           [("techniques_applied", PyList [PyStr "few-shot"; PyStr "role prompting"])]
           (PyList ([PyStr "few-shot"; PyStr "role prompting"]
                    ++ [PyStr "bug-to-user-story"]))).
  reflexivity.
Defined.

Lemma push_prompt_to_langsmith_without_messages_witness :
  run (PushScript.push_prompt_to_langsmith (L := sample_library)
         (H := push_host passed_tests PyNone) "me/prompt"
         [("description", PyStr "Bug to user story")]) ∅
  = Outcome [Printed ("📤 Fazendo push do prompt: " +:+ "me/prompt");
             Printed "❌ Nenhuma mensagem encontrada no prompt"]
            (Ok false) ∅.
Proof.
  apply (push_prompt_to_langsmith_without_messages (L := sample_library)
           (H := push_host passed_tests PyNone) "me/prompt"
           [("description", PyStr "Bug to user story")] ∅).
  reflexivity.
Defined.

Lemma push_prompt_to_langsmith_unusable_labels_witness :
  run (PushScript.push_prompt_to_langsmith (L := sample_library)
         (H := push_host passed_tests PyNone) "me/prompt" null_labels_prompt) ∅
  = Outcome [Printed ("📤 Fazendo push do prompt: " +:+ "me/prompt");
             Printed ("❌ Erro ao fazer push do prompt: "
                      +:+ "argument of type 'NoneType' is not iterable")]
            (Ok false) ∅.
Proof.
  eapply (push_prompt_to_langsmith_unusable_labels (L := sample_library)
            (H := push_host passed_tests PyNone) "me/prompt" null_labels_prompt _
            (Exn TypeError "argument of type 'NoneType' is not iterable") ∅).
  - reflexivity.
  - reflexivity.
Defined.

Lemma push_main_failed_tests_witness :
  let H := push_host failed_tests (PyDict sample_prompt) in
  let o := run (PushScript.main (L := sample_library) (H := H) (sample_env "sk-1") push_args)
               ∅ in
  value o = Ok 1%Z
  /\ after o = ∅
  /\ stdout (trace o)
     = ["Push de Prompts para LangSmith Hub"] ++ []
       ++ ["🧪 Executando testes de validação estrutural..."] ++ []
       ++ ["❌ Testes falharam! Corrija os problemas antes de fazer push.";
           PushScript.proc_stdout failed_tests; PushScript.proc_stderr failed_tests].
Proof.
  cbn zeta.
  apply (push_main_failed_tests (L := sample_library)
           (H := push_host failed_tests (PyDict sample_prompt))
           (sample_env "sk-1") push_args ∅ ∅ ∅ ∅
           ["Push de Prompts para LangSmith Hub"] [] [] failed_tests).
  - reflexivity.
  - vm_compute. reflexivity.
  - reflexivity.
  - reflexivity.
  - discriminate.
Defined.

Lemma push_main_invalid_prompt_witness :
  let H := push_host passed_tests (PyDict two_blank_prompt) in
  let o := run (PushScript.main (L := sample_library) (H := H) (sample_env "sk-1") push_args)
               ∅ in
  value o = Ok 1%Z
  /\ after o = ∅
  /\ exists out,
       stdout (trace o)
       = out ++ "❌ Validação falhou:"
                :: map (fun error => "   - " +:+ error)
                       ["Mensagem 1 está vazia"; "Mensagem 2 está vazia"].
Proof.
  cbn zeta.
  apply (push_main_invalid_prompt (L := sample_library)
           (H := push_host passed_tests (PyDict two_blank_prompt))
           (sample_env "sk-1") push_args ∅ ∅ two_blank_prompt
           ["Mensagem 1 está vazia"; "Mensagem 2 está vazia"]).
  - exists ["Push de Prompts para LangSmith Hub"], ∅, [], ∅, ∅, [].
    split; [reflexivity|]. split; [vm_compute; reflexivity|].
    split; [exists [], passed_tests; split; reflexivity|].
    split; [reflexivity | discriminate].
  - vm_compute. reflexivity.
Defined.

Lemma default_prompt_name_stem_witness :
  let expected :=
    getenv_default ∅ "LANGSMITH_USERNAME" "user" +:+ "/" +:+ "bug_to_user_story_v2" in
  PushScript.default_prompt_name ∅ ("bug_to_user_story_v2" +:+ ".yml") = expected
  /\ forall dir,
       PushScript.default_prompt_name ∅ (dir +:+ "/" +:+ "bug_to_user_story_v2" +:+ ".yml")
       = expected.
Proof.
  apply (default_prompt_name_stem ∅ "bug_to_user_story_v2" ".yml").
  - reflexivity.
  - reflexivity.
  - left. reflexivity.
Defined.

Lemma extract_prompt_dict_owner_and_name_witness :
  let prompt_dict :=
    PyDict [("name", PyStr "bug_to_user_story_v1"); ("owner", PyStr "leonanluppi");
            ("messages", PyList [])] in
  (extract_prompt_dict ("leonanluppi" +:+ "/" +:+ "bug_to_user_story_v1")
                       {| messages := None |} = Ok prompt_dict ->
   py_getitem prompt_dict "name" = Ok (PyStr "bug_to_user_story_v1")
   /\ py_getitem prompt_dict "owner" = Ok (PyStr "leonanluppi"))
  /\ (extract_prompt_dict "bug_to_user_story_v1" {| messages := None |} = Ok prompt_dict ->
      py_getitem prompt_dict "name" = Ok (PyStr "bug_to_user_story_v1")
      /\ py_getitem prompt_dict "owner" = Ok (PyStr "unknown")).
Proof.
  cbn zeta.
  apply (extract_prompt_dict_owner_and_name "leonanluppi" "bug_to_user_story_v1"
           {| messages := None |}); reflexivity.
Defined.

Lemma pull_prompts_missing_credentials_witness :
  run (PullScript.pull_prompts_from_langsmith (H := pull_host sample_hub true) ∅
         "leonanluppi/bug_to_user_story_v1" "prompts") ∅
  = Outcome (map Printed (["Pull de Prompts do LangSmith Hub"]
                          ++ ["Missing: LANGSMITH_API_KEY"]))
            (Ok false) ∅.
Proof.
  apply (pull_prompts_missing_credentials (H := pull_host sample_hub true) ∅
           "leonanluppi/bug_to_user_story_v1" "prompts" ∅ ∅ ∅
           ["Pull de Prompts do LangSmith Hub"] ["Missing: LANGSMITH_API_KEY"]).
  - reflexivity.
  - vm_compute. reflexivity.
Defined.

Lemma pull_prompts_not_found_witness :
  run (PullScript.pull_prompts_from_langsmith (H := pull_host sample_hub true)
         (sample_env "sk-1") "nobody/missing" "prompts") ∅
  = Outcome (map Printed
               (["Pull de Prompts do LangSmith Hub"] ++ []
                ++ ["📥 Fazendo pull do prompt: " +:+ "nobody/missing"] ++ []
                ++ ["❌ Prompt não encontrado: " +:+ "nobody/missing";
                    "   Verifique se o nome está correto (formato: owner/prompt)"]))
            (Ok false) ∅.
Proof.
  apply (pull_prompts_not_found (H := pull_host sample_hub true) (sample_env "sk-1")
           "nobody/missing" "prompts" ∅ ∅ ∅ ∅ ["Pull de Prompts do LangSmith Hub"] [] []
           (Exn OtherError ("Prompt " +:+ "nobody/missing" +:+ " not found"))).
  - reflexivity.
  - vm_compute. reflexivity.
  - vm_compute. reflexivity.
  - reflexivity.
  - reflexivity.
  - vm_compute. reflexivity.
  - vm_compute. reflexivity.
Defined.

Lemma test_minimum_techniques_labels_witness :
  exists d techniques added,
    PyDict [("techniques_applied", PyList [PyStr "few-shot"; PyStr "role prompting"])]
    = PyDict d
    /\ PushScript.push_labels d = Ok (PyList (techniques ++ added))
    /\ dict_get d "techniques_applied" (PyList []) = PyList techniques
    /\ (2 <= length techniques)%nat.
Proof.
  apply (test_minimum_techniques_labels
           (PyDict [("techniques_applied",
                     PyList [PyStr "few-shot"; PyStr "role prompting"])])).
  reflexivity.
Defined.

Lemma test_prompt_has_system_prompt_validation_witness :
  exists d,
    PyDict two_blank_prompt = PyDict d
    /\ match validate_prompt d with
       | Ok (is_valid, errors) => errors = blank_diagnostics 0 (messages_of d)
       | Raise e => exn_cls e = AttributeError
       end.
Proof.
  apply (test_prompt_has_system_prompt_validation (PyDict two_blank_prompt)).
  reflexivity.
Defined.

End FurtherRuns.
